(** * IA-AyudaAuditiva: the feature-extraction and emotion-scoring core

    A shallow embedding of [app_production.py] (and of the sibling
    extractor of [app_robust.py]) together with the properties the
    specification states about them.

    Numbers.  Python [float] values are modelled by [pyfloat]: a rational
    for a finite value, or one of the three special values.  Arithmetic on
    finite values is exact rational arithmetic and a decimal literal stands
    for the decimal it spells (binary64 rounding is not modelled); the
    special values follow IEEE 754.  Python [int] values that flow into
    float arithmetic are embedded through [Fin].

    Files.  A file is the list of its bytes.  Saving the upload and
    removing the temporary file are oracles of the handler's environment
    and may raise; reading a file that was just saved does not fail.

    Collaborators.  librosa, numpy's [std], ffmpeg and werkzeug are not part
    of the repository; they appear as fields of oracle records and every
    function of the repository is embedded as a function of those oracles. *)

From Stdlib Require Import QArith Qround Qabs Lqa Lia ZArith String Ascii List.
From Stdlib Require Import Sorting.Sorted Sorting.Permutation.
From Stdlib.Strings Require Import Byte.
From stdpp Require Import gmap strings list fin_maps.

Local Open Scope Q_scope.

(** ** Python values *)

Module Py.

(** Exceptions the modelled code can meet. *)
Inductive exn : Type :=
| ValueError
| ZeroDivisionError
| OverflowError
| LibraryError
| OSError
| RequestEntityTooLarge.

(** The result of running a Python expression: a value or an exception. *)
Inductive outcome (A : Type) : Type :=
| Ok (a : A)
| Raise (e : exn).
Arguments Ok {A} a.
Arguments Raise {A} e.

#[global] Instance outcome_ret : MRet outcome := fun A a => Ok a.

#[global] Instance outcome_bind : MBind outcome := fun A B k c =>
  match c with
  | Ok a => k a
  | Raise e => Raise e
  end.

(** [try: c  except: h] *)
Definition try_except {A} (c : outcome A) (h : outcome A) : outcome A :=
  match c with
  | Ok a => Ok a
  | Raise _ => h
  end.

Definition raised {A} (c : outcome A) : bool :=
  match c with
  | Ok _ => false
  | Raise _ => true
  end.

(** Python floats. *)
Inductive pyfloat : Type :=
| Fin (q : Q)
| PInf
| NInf
| NaN.

Definition Qltb (a b : Q) : bool := negb (Qle_bool b a).

(** [x < y]; every comparison with NaN is false. *)
Definition lt (x y : pyfloat) : bool :=
  match x, y with
  | Fin a, Fin b => Qltb a b
  | NInf, Fin _ | NInf, PInf | Fin _, PInf => true
  | _, _ => false
  end.

(** [x > y] *)
Definition gt (x y : pyfloat) : bool := lt y x.

(** [np.isnan] *)
Definition isnan (x : pyfloat) : bool :=
  match x with
  | NaN => true
  | _ => false
  end.

Definition isfinite (x : pyfloat) : bool :=
  match x with
  | Fin _ => true
  | _ => false
  end.

Definition opp (x : pyfloat) : pyfloat :=
  match x with
  | Fin a => Fin (- a)
  | PInf => NInf
  | NInf => PInf
  | NaN => NaN
  end.

Definition add (x y : pyfloat) : pyfloat :=
  match x, y with
  | Fin a, Fin b => Fin (a + b)
  | NaN, _ | _, NaN => NaN
  | PInf, NInf | NInf, PInf => NaN
  | PInf, _ | _, PInf => PInf
  | NInf, _ | _, NInf => NInf
  end.

Definition sub (x y : pyfloat) : pyfloat := add x (opp y).

(** The infinity with the sign of [s * a], NaN when [a] is zero. *)
Definition signed_inf (s : bool) (a : Q) : pyfloat :=
  match a ?= 0 with
  | Gt => if s then PInf else NInf
  | Lt => if s then NInf else PInf
  | Eq => NaN
  end.

Definition mul (x y : pyfloat) : pyfloat :=
  match x, y with
  | Fin a, Fin b => Fin (a * b)
  | NaN, _ | _, NaN => NaN
  | Fin a, PInf | PInf, Fin a => signed_inf true a
  | Fin a, NInf | NInf, Fin a => signed_inf false a
  | PInf, PInf | NInf, NInf => PInf
  | PInf, NInf | NInf, PInf => NInf
  end.

(** [x / c] for a float or int literal [c] other than zero. *)
Definition div_lit (x : pyfloat) (c : Q) : pyfloat := mul x (Fin (/ c)).

(** The builtin [min(a, b)]: [b] when [b < a], else [a]. *)
Definition min (a b : pyfloat) : pyfloat := if lt b a then b else a.

(** The integer part of a rational, rounding toward zero. *)
Definition trunc (q : Q) : Z := Z.quot (Qnum q) (Zpos (Qden q)).

(** [int(x)]: truncation toward zero; NaN and the infinities raise. *)
Definition int (x : pyfloat) : outcome Z :=
  match x with
  | Fin q => Ok (trunc q)
  | NaN => Raise ValueError
  | PInf | NInf => Raise OverflowError
  end.

(** [sorted(l, reverse=True)]: the list is reversed, sorted stably in
  ascending order with [<] only, and reversed again. *)
Fixpoint insert_sorted (x : pyfloat) (l : list pyfloat) : list pyfloat :=
  match l with
  | [] => [x]
  | y :: l' => if lt x y then x :: y :: l' else y :: insert_sorted x l'
  end.

Definition sorted (l : list pyfloat) : list pyfloat :=
  fold_left (fun acc x => insert_sorted x acc) l [].

Definition sorted_reverse (l : list pyfloat) : list pyfloat :=
  rev (sorted (rev l)).

(** A feature dictionary.  Every entry of the dictionaries built in this
  repository is a number, except the entry ['analysis_method'], which is
  a string: the numeric entries and the string entry are kept apart. *)
Record features : Type := Features {
  nums : gmap string pyfloat;
  analysis_method : option string
}.

(** [features.get(k, d)] for a numeric key. *)
Definition get (f : features) (k : string) (d : pyfloat) : pyfloat :=
  default d (nums f !! k).

(** [features[k] = v] for a numeric key. *)
Definition set (k : string) (v : pyfloat) (f : features) : features :=
  Features (<[k := v]> (nums f)) (analysis_method f).

(** [len(features)] *)
Definition len (f : features) : nat :=
  (size (nums f) + match analysis_method f with Some _ => 1 | None => 0 end)%nat.

(** The empty dictionary [{}]. *)
Definition empty : features := Features ∅ None.

End Py.

Import Py.

(** ** The emotion scorer ([analyze_emotion_robust]) *)

Module Scorer.

(** The keys of [emotion_scores]: Joy, Sadness, Anxiety, Anger, Neutral. *)
Inductive emotion : Type :=
| Alegria
| Tristeza
| Ansiedad
| Enojo
| Neutral.

Definition emotion_eqb (a b : emotion) : bool :=
  match a, b with
  | Alegria, Alegria | Tristeza, Tristeza | Ansiedad, Ansiedad
  | Enojo, Enojo | Neutral, Neutral => true
  | _, _ => false
  end.

(** The dictionary [emotion_scores], in insertion order. *)
Definition score_table : Type := list (emotion * pyfloat).

(** [emotion_scores[e]]; every table of the scorer holds the five keys. *)
Fixpoint score (e : emotion) (t : score_table) : pyfloat :=
  match t with
  | [] => Fin 0
  | (e', v) :: t' => if emotion_eqb e e' then v else score e t'
  end.

(** [emotion_scores[e] += k] *)
Definition bump (e : emotion) (k : Q) (t : score_table) : score_table :=
  map (fun p => if emotion_eqb e (fst p) then (fst p, add (snd p) (Fin k)) else p) t.

Definition initial_scores : score_table :=
  [(Alegria, Fin 5); (Tristeza, Fin 5); (Ansiedad, Fin 5); (Enojo, Fin 5);
   (Neutral, Fin 10)].

Definition tempo_rule (tempo : pyfloat) (t : score_table) : score_table :=
  if gt tempo (Fin 130) then bump Ansiedad 15 (bump Alegria 20 t)
  else if gt tempo (Fin 110) then bump Neutral 8 (bump Alegria 12 t)
  else if lt tempo (Fin 80) then bump Tristeza 20 t
  else if lt tempo (Fin 100) then bump Neutral 6 (bump Tristeza 12 t)
  else t.

Definition centroid_rule (spectral_centroid : pyfloat) (t : score_table) : score_table :=
  if gt spectral_centroid (Fin 2200) then bump Ansiedad 12 (bump Alegria 15 t)
  else if gt spectral_centroid (Fin 1800) then bump Neutral 5 (bump Alegria 8 t)
  else if lt spectral_centroid (Fin 1000) then bump Tristeza 15 t
  else if lt spectral_centroid (Fin 1400) then bump Neutral 4 (bump Tristeza 8 t)
  else t.

Definition rms_rule (rms : pyfloat) (t : score_table) : score_table :=
  if gt rms (Fin 0.2) then bump Alegria 10 (bump Enojo 18 t)
  else if gt rms (Fin 0.15) then bump Enojo 6 (bump Alegria 12 t)
  else if lt rms (Fin 0.05) then bump Tristeza 15 t
  else if lt rms (Fin 0.1) then bump Neutral 6 (bump Tristeza 8 t)
  else t.

Definition zcr_rule (zcr : pyfloat) (t : score_table) : score_table :=
  if gt zcr (Fin 0.1) then bump Enojo 10 (bump Ansiedad 18 t)
  else if gt zcr (Fin 0.07) then bump Neutral 4 (bump Ansiedad 10 t)
  else if lt zcr (Fin 0.03) then bump Neutral 6 (bump Tristeza 10 t)
  else t.

(** The table once the four rule blocks have run, before damping. *)
Definition accumulated (f : features) : score_table :=
  zcr_rule (get f "zcr" (Fin 0.05))
    (rms_rule (get f "rms" (Fin 0.1))
      (centroid_rule (get f "spectral_centroid" (Fin 1500))
        (tempo_rule (get f "tempo" (Fin 120)) initial_scores))).

(** [min(1.0, duration / 10.0)] *)
Definition duration_factor (duration : pyfloat) : pyfloat :=
  Py.min (Fin 1) (div_lit duration 10).

(** The loop that multiplies every entry but Neutral's by the factor. *)
Definition damp (factor : pyfloat) (t : score_table) : score_table :=
  map (fun p => if emotion_eqb (fst p) Neutral then p
                else (fst p, mul (snd p) factor)) t.

(** [max(emotion_scores, key=emotion_scores.get)]: the first key, in
  insertion order, whose value no later value exceeds. *)
Fixpoint max_from (best : emotion * pyfloat) (t : score_table) : emotion :=
  match t with
  | [] => fst best
  | p :: t' => if gt (snd p) (snd best) then max_from p t' else max_from best t'
  end.

Definition max_key (t : score_table) : outcome emotion :=
  match t with
  | [] => Raise ValueError
  | p :: t' => Ok (max_from p t')
  end.

Definition confidence_base (scores_list : list pyfloat) (max_score : pyfloat)
  : outcome Z :=
  match scores_list with
  | s0 :: s1 :: _ =>
      if gt s1 (Fin 0)
      then Py.int (add (Fin 60) (mul (sub s0 s1) (Fin 2)))
      else Py.int (add (Fin 60) max_score)
  | _ => Py.int (add (Fin 60) max_score)
  end.

Definition is_basic (m : string) : bool :=
  if decide (m = "basic_file_analysis"%string) then true else false.

Definition adjust (m : string) (base : Z) : Z :=
  if is_basic m then Z.min 85 (Z.max 60 (base - 10))
  else Z.min 95 (Z.max 65 base).

Record analysis : Type := Analysis {
  emotion_of : emotion;
  confidence : Z;
  scores : score_table;
  features_analyzed : nat;
  audio_duration : pyfloat;
  method_of : string
}.

(** [analyze_emotion_robust]; [Ok None] is the Python [return None]. *)
Definition analyze_emotion_robust (f : features) : outcome (option analysis) :=
  if Nat.eqb (len f) 0 then Ok None
  else
    let duration := get f "duration" (Fin 10) in
    let method := default "librosa"%string (analysis_method f) in
    let emotion_scores := damp (duration_factor duration) (accumulated f) in
    dominant_emotion ← max_key emotion_scores;
    let max_score := score dominant_emotion emotion_scores in
    let scores_list := sorted_reverse (map snd emotion_scores) in
    base ← confidence_base scores_list max_score;
    Ok (Some (Analysis dominant_emotion (adjust method base) emotion_scores
                       (len f) duration method)).

End Scorer.

(** ** The byte-heuristic synthesizer *)

Module Heuristic.

#[global] Instance byte_eq_decision : EqDecision byte := Byte.byte_eq_dec.

#[global] Instance byte_countable : Countable byte :=
  inj_countable Byte.to_N Byte.of_N Byte.of_to_N.

(** [len(set(header))] *)
Definition distinct_bytes (header : list byte) : nat :=
  size (list_to_set header : gset byte).

(** [x % m] on floats, for a positive literal [m]. *)
Definition fmod (x m : Q) : Q := x - m * inject_Z (Qfloor (x / m)).

(** The dictionary built by [analyze_audio_basic_properties]. *)
Record basic_features : Type := BasicFeatures {
  file_size : Z;
  estimated_duration : Q;
  header_entropy : Q;
  file_complexity : Q
}.

(** [analyze_audio_basic_properties], on the content of the file at
  [file_path].  The file was just written by the caller: a failure to
  stat or open it (the [except] branch) is not modelled. *)
Definition analyze_audio_basic_properties (content : list byte)
  : option basic_features :=
  let file_size := Z.of_nat (length content) in
  let header := take 1024 content in
  let estimated_duration := inject_Z file_size / (44100 * 2) in
  Some {|
    file_size := file_size;
    estimated_duration :=
      if Qltb 60 estimated_duration then 60 else estimated_duration;
    header_entropy := inject_Z (Z.of_nat (distinct_bytes header)) / 256;
    file_complexity := inject_Z file_size / 1024
  |}.

Definition numeric_entries (b : basic_features) : list (string * pyfloat) :=
  let entropy := header_entropy b in
  let complexity := file_complexity b in
  [ ("mfcc_mean"%string, Fin ((entropy - 0.5) * 20));
    ("mfcc_std"%string, Fin (entropy * 15));
    ("spectral_centroid"%string, Fin (1000 + fmod complexity 1000));
    ("zcr"%string, Fin (0.03 + entropy * 0.05));
    ("rms"%string, Fin (0.05 + fmod complexity 100 / 1000));
    ("tempo"%string, Fin (inject_Z (80 + file_size b mod 80)));
    ("spectral_rolloff"%string, Fin (1500 + fmod complexity 1500));
    ("chroma_mean"%string, Fin (0.3 + entropy * 0.4));
    ("duration"%string, Fin (estimated_duration b));
    ("audio_std"%string, Fin (0.05 + entropy * 0.1));
    ("audio_max"%string, Fin (0.5 + entropy * 0.5)) ].

(** [convert_basic_to_audio_features] *)
Definition convert_basic_to_audio_features (b : basic_features)
  : option features :=
  Some (Features (list_to_map (numeric_entries b))
                 (Some "basic_file_analysis"%string)).

End Heuristic.

(** ** Collaborators outside the repository *)

Module Collab.

(** A decoded buffer: the sample array [y] and the sample rate [sr]. *)
Definition pcm : Type := list pyfloat * Z.

Record librosa : Type := Librosa {
  (** [librosa.load(file, sr=sr, mono=True, duration=60)]; [None] is [sr=None] *)
  load : list byte -> option Z -> outcome pcm;
  (** [librosa.resample(y, orig_sr=a, target_sr=b)] *)
  resample : list pyfloat -> Z -> Z -> outcome (list pyfloat);
  (** [float(np.mean(m)), float(np.std(m)), float(np.var(m))] of [librosa.feature.mfcc] *)
  mfcc : list pyfloat -> Z -> outcome (pyfloat * pyfloat * pyfloat);
  (** mean and standard deviation of [librosa.feature.spectral_centroid] *)
  spectral_centroid : list pyfloat -> Z -> outcome (pyfloat * pyfloat);
  (** mean and standard deviation of [librosa.feature.zero_crossing_rate] *)
  zero_crossing_rate : list pyfloat -> outcome (pyfloat * pyfloat);
  (** mean and standard deviation of [librosa.feature.rms] *)
  rms : list pyfloat -> outcome (pyfloat * pyfloat);
  (** [librosa.beat.beat_track]: the tempo and the number of beats *)
  beat_track : list pyfloat -> Z -> outcome (pyfloat * nat);
  (** mean of [librosa.feature.spectral_rolloff] *)
  spectral_rolloff : list pyfloat -> Z -> outcome pyfloat;
  (** mean of [librosa.feature.spectral_bandwidth] *)
  spectral_bandwidth : list pyfloat -> Z -> outcome pyfloat;
  (** mean and standard deviation of [librosa.feature.chroma_stft] *)
  chroma_stft : list pyfloat -> Z -> outcome (pyfloat * pyfloat);
  (** [float(np.mean(y))] and [float(np.std(y))] *)
  np_mean : list pyfloat -> pyfloat;
  np_std : list pyfloat -> pyfloat
}.

(** What the request handler reads from its environment. *)
Record world : Type := World {
  lib : librosa;
  (** the ffmpeg process: the bytes of the file it writes, or a failure *)
  ffmpeg : list byte -> outcome (list byte);
  (** [werkzeug.utils.secure_filename] *)
  secure_filename : string -> string;
  (** [file.save(path)], which writes the upload's bytes to [path] *)
  file_save : string -> list byte -> outcome unit;
  (** the [finally] block: [os.unlink(path)] on the file that exists *)
  os_unlink : string -> outcome unit;
  (** [datetime.now()], formatted for the temporary file name *)
  now_stamp : string;
  (** [datetime.now().isoformat()] when the response is built *)
  now_iso : string
}.

End Collab.

(** ** numpy on sample arrays *)

Module Np.

Definition abs (x : pyfloat) : pyfloat :=
  match x with
  | Fin a => Fin (Qabs a)
  | PInf | NInf => PInf
  | NaN => NaN
  end.

(** The larger of two values; NaN wins, as in [np.max]. *)
Definition maximum (a b : pyfloat) : pyfloat :=
  if isnan a then NaN else if isnan b then NaN else if lt a b then b else a.

Definition minimum (a b : pyfloat) : pyfloat :=
  if isnan a then NaN else if isnan b then NaN else if lt b a then b else a.

(** [np.max(y)]; raises on the empty array. *)
Definition max (y : list pyfloat) : outcome pyfloat :=
  match y with
  | [] => Raise ValueError
  | x :: y' => Ok (fold_left maximum y' x)
  end.

(** [np.min(y)] *)
Definition min (y : list pyfloat) : outcome pyfloat :=
  match y with
  | [] => Raise ValueError
  | x :: y' => Ok (fold_left minimum y' x)
  end.

(** One element of [y / d]: numpy divides by zero without raising and
  yields an infinity or NaN. *)
Definition divide1 (x d : pyfloat) : pyfloat :=
  match d with
  | Fin b =>
      if Qeq_bool b 0
      then match x with
           | Fin a => signed_inf true a
           | _ => x
           end
      else mul x (Fin (/ b))
  | PInf | NInf =>
      match x with
      | Fin _ => Fin 0
      | _ => NaN
      end
  | NaN => NaN
  end.

(** [y / d] *)
Definition divide (y : list pyfloat) (d : pyfloat) : list pyfloat :=
  map (fun x => divide1 x d) y.

(** [np.max(np.abs(y))] *)
Definition peak (y : list pyfloat) : outcome pyfloat := max (map abs y).

(** The normalisation step shared by both extractors:
  [if np.max(np.abs(y)) > 0: y = y / np.max(np.abs(y))]. *)
Definition normalize (y : list pyfloat) : outcome (list pyfloat) :=
  p ← peak y;
  if gt p (Fin 0) then p' ← peak y; Ok (divide y p') else Ok y.

End Np.

(** ** Strings *)

Module Str.

Definition lower_ascii (c : ascii) : ascii :=
  let n := nat_of_ascii c in
  if (65 <=? n)%nat && (n <=? 90)%nat then ascii_of_nat (n + 32) else c.

(** [s.lower()] on ASCII text *)
Fixpoint lower (s : string) : string :=
  match s with
  | EmptyString => EmptyString
  | String c s' => String (lower_ascii c) (lower s')
  end.

(** [s.endswith(suffix)]: some tail of [s] is [suffix]. *)
Fixpoint endswith (s suffix : string) : bool :=
  String.eqb s suffix ||
  match s with
  | EmptyString => false
  | String _ s' => endswith s' suffix
  end.

(** Whether the character [c] occurs in [s]. *)
Fixpoint occurs (c : ascii) (s : string) : bool :=
  match s with
  | EmptyString => false
  | String c' s' => Ascii.eqb c c' || occurs c s'
  end.

End Str.

(** ** The extractor of [app_production.py] *)

Module Production.
Import Collab.

Section Extractor.
Variable L : librosa.

(** [a / b] on two ints *)
Definition truediv (a b : Z) : outcome pyfloat :=
  if Z.eqb b 0 then Raise ZeroDivisionError
  else Ok (Fin (inject_Z a / inject_Z b)).

Definition mfcc_step (y : list pyfloat) (sr : Z) (f : features) : features :=
  match mfcc L y sr with
  | Ok (m, s, _) => set "mfcc_std" s (set "mfcc_mean" m f)
  | Raise _ => set "mfcc_std" (Fin 1) (set "mfcc_mean" (Fin 0) f)
  end.

Definition centroid_step (y : list pyfloat) (sr : Z) (f : features) : features :=
  match spectral_centroid L y sr with
  | Ok (m, _) => set "spectral_centroid" m f
  | Raise _ => set "spectral_centroid" (Fin 1500) f
  end.

Definition zcr_step (y : list pyfloat) (f : features) : features :=
  match zero_crossing_rate L y with
  | Ok (m, _) => set "zcr" m f
  | Raise _ => set "zcr" (Fin 0.05) f
  end.

Definition rms_step (y : list pyfloat) (f : features) : features :=
  match rms L y with
  | Ok (m, _) => set "rms" m f
  | Raise _ => set "rms" (Fin 0.1) f
  end.

(** [float(tempo) if not np.isnan(tempo) else 120.0] *)
Definition guard_tempo (tempo : pyfloat) : pyfloat :=
  if negb (isnan tempo) then tempo else Fin 120.

Definition tempo_step (y : list pyfloat) (sr : Z) (f : features) : features :=
  match beat_track L y sr with
  | Ok (tempo, _) => set "tempo" (guard_tempo tempo) f
  | Raise _ => set "tempo" (Fin 120) f
  end.

(** Block 6: the rolloff and the chroma share one [try]. *)
Definition additional_step (y : list pyfloat) (sr : Z) (f : features) : features :=
  let handler f := set "chroma_mean" (Fin 0.5) (set "spectral_rolloff" (Fin 2000) f) in
  match spectral_rolloff L y sr with
  | Ok r =>
      let f := set "spectral_rolloff" r f in
      match chroma_stft L y sr with
      | Ok (c, _) => set "chroma_mean" c f
      | Raise _ => handler f
      end
  | Raise _ => handler f
  end.

(** Blocks 1 to 6, each of which absorbs its own exception. *)
Definition guarded_steps (y : list pyfloat) (sr : Z) : features :=
  additional_step y sr
    (tempo_step y sr
      (rms_step y
        (zcr_step y
          (centroid_step y sr
            (mfcc_step y sr Py.empty))))).

(** The body of the outer [try] of [extract_librosa_features]. *)
Definition librosa_features_body (y : list pyfloat) (sr : Z) : outcome features :=
  y ← Np.normalize y;
  let f := guarded_steps y sr in
  d ← truediv (Z.of_nat (length y)) sr;
  let f := set "duration" d f in
  let f := set "audio_std" (np_std L y) f in
  m ← Np.max y;
  Ok (set "audio_max" m f).

(** [extract_librosa_features]; the outer [except] returns [None]. *)
Definition extract_librosa_features (y : list pyfloat) (sr : Z) : option features :=
  match librosa_features_body y sr with
  | Ok f => Some f
  | Raise _ => None
  end.

End Extractor.

Section Chain.
Variable W : world.

(** [convert_webm_to_wav_ffmpeg]: the converted file when it returns
  [True], [None] when it returns [False]. *)
Definition convert_webm_to_wav_ffmpeg (content : list byte) : option (list byte) :=
  match ffmpeg W content with
  | Ok wav => Some wav
  | Raise _ => None
  end.

(** Method 4 and the final [return None]. *)
Definition method4 (content : list byte) : option features :=
  match Heuristic.analyze_audio_basic_properties content with
  | Some basic_features => Heuristic.convert_basic_to_audio_features basic_features
  | None => None
  end.

(** Method 3, falling through to method 4 when the alternate decode raises. *)
Definition method3 (content : list byte) : option features :=
  match load (lib W) content None with
  | Ok (y, sr) =>
      if negb (Z.eqb sr 22050)
      then match resample (lib W) y sr 22050 with
           | Ok y' => extract_librosa_features (lib W) y' 22050
           | Raise _ => method4 content
           end
      else extract_librosa_features (lib W) y sr
  | Raise _ => method4 content
  end.

(** Method 2, attempted for [.webm] paths only. *)
Definition method2 (file_path : string) (content : list byte) : option features :=
  if Str.endswith (Str.lower file_path) ".webm"
  then match convert_webm_to_wav_ffmpeg content with
       | Some wav =>
           match load (lib W) wav (Some 22050%Z) with
           | Ok (y, sr) => extract_librosa_features (lib W) y sr
           | Raise _ => method3 content
           end
       | None => method3 content
       end
  else method3 content.

(** [extract_audio_features_multiple_methods], on the path and the
  content of the file stored there. *)
Definition extract_audio_features_multiple_methods
    (file_path : string) (content : list byte) : option features :=
  match load (lib W) content (Some 22050%Z) with
  | Ok (y, sr) =>
      if (0 <? length y)%nat
      then extract_librosa_features (lib W) y sr
      else method2 file_path content
  | Raise _ => method2 file_path content
  end.

End Chain.

End Production.

(** ** The extractor of [app_robust.py] *)

Module Robust.
Import Collab.

Section Extractor.
Variable W : world.
Let L : librosa := lib W.

(** [convert_audio_to_wav] *)
Definition convert_audio_to_wav (content : list byte) : option (list byte) :=
  match ffmpeg W content with
  | Ok wav => Some wav
  | Raise _ => None
  end.

(** Method 3, inside the innermost [except]. *)
Definition decode3 (content : list byte) : outcome pcm :=
  match load L content None with
  | Ok (y, sr) =>
      if negb (Z.eqb sr 22050)
      then y' ← resample L y sr 22050; Ok (y', 22050%Z)
      else Ok (y, sr)
  | Raise e => Raise e
  end.

(** Method 2, with method 3 as its handler. *)
Definition decode2 (content : list byte) : outcome pcm :=
  let attempt :=
    match convert_audio_to_wav content with
    | Some wav => load L wav (Some 22050%Z)
    | None => Raise LibraryError
    end in
  try_except attempt (decode3 content).

(** The nested decoding attempts; [Raise] stands for the [return None]
  of the innermost handler. *)
Definition decode (content : list byte) : outcome pcm :=
  try_except (load L content (Some 22050%Z)) (decode2 content).

Definition mfcc_step (y : list pyfloat) (sr : Z) (f : features) : features :=
  match mfcc L y sr with
  | Ok (m, s, v) => set "mfcc_var" v (set "mfcc_std" s (set "mfcc_mean" m f))
  | Raise _ =>
      set "mfcc_var" (Fin 1) (set "mfcc_std" (Fin 1) (set "mfcc_mean" (Fin 0) f))
  end.

Definition centroid_step (y : list pyfloat) (sr : Z) (f : features) : features :=
  match spectral_centroid L y sr with
  | Ok (m, s) => set "spectral_centroid_std" s (set "spectral_centroid" m f)
  | Raise _ =>
      set "spectral_centroid_std" (Fin 300) (set "spectral_centroid" (Fin 1500) f)
  end.

Definition zcr_step (y : list pyfloat) (f : features) : features :=
  match zero_crossing_rate L y with
  | Ok (m, s) => set "zcr_std" s (set "zcr" m f)
  | Raise _ => set "zcr_std" (Fin 0.01) (set "zcr" (Fin 0.05) f)
  end.

Definition rms_step (y : list pyfloat) (f : features) : features :=
  match rms L y with
  | Ok (m, s) => set "rms_std" s (set "rms" m f)
  | Raise _ => set "rms_std" (Fin 0.02) (set "rms" (Fin 0.1) f)
  end.

Definition tempo_step (y : list pyfloat) (sr : Z) (f : features) : features :=
  match beat_track L y sr with
  | Ok (tempo, beats) =>
      set "beat_count" (Fin (inject_Z (Z.of_nat beats)))
        (set "tempo" (Production.guard_tempo tempo) f)
  | Raise _ => set "beat_count" (Fin 0) (set "tempo" (Fin 120) f)
  end.

(** Block 6: the rolloff and the bandwidth share one [try]. *)
Definition spectral_step (y : list pyfloat) (sr : Z) (f : features) : features :=
  let handler f :=
    set "spectral_bandwidth" (Fin 1000) (set "spectral_rolloff" (Fin 2000) f) in
  match spectral_rolloff L y sr with
  | Ok r =>
      let f := set "spectral_rolloff" r f in
      match spectral_bandwidth L y sr with
      | Ok b => set "spectral_bandwidth" b f
      | Raise _ => handler f
      end
  | Raise _ => handler f
  end.

(** Block 7: the chroma has a [try] of its own. *)
Definition chroma_step (y : list pyfloat) (sr : Z) (f : features) : features :=
  match chroma_stft L y sr with
  | Ok (m, s) => set "chroma_std" s (set "chroma_mean" m f)
  | Raise _ => set "chroma_std" (Fin 0.1) (set "chroma_mean" (Fin 0.5) f)
  end.

Definition guarded_steps (y : list pyfloat) (sr : Z) : features :=
  chroma_step y sr
    (spectral_step y sr
      (tempo_step y sr
        (rms_step y
          (zcr_step y
            (centroid_step y sr
              (mfcc_step y sr Py.empty)))))).

(** The body of the outer [try], after decoding; [Ok None] is the
  [return None] taken for an empty buffer. *)
Definition features_body (y : list pyfloat) (sr : Z) : outcome (option features) :=
  if Nat.eqb (length y) 0 then Ok None
  else
    y ← Np.normalize y;
    let f := guarded_steps y sr in
    d ← Production.truediv (Z.of_nat (length y)) sr;
    let f := set "duration" d f in
    let f := set "sample_rate" (Fin (inject_Z sr)) f in
    let f := set "samples" (Fin (inject_Z (Z.of_nat (length y)))) f in
    let f := set "audio_mean" (np_mean L y) f in
    let f := set "audio_std" (np_std L y) f in
    hi ← Np.max y;
    let f := set "audio_max" hi f in
    lo ← Np.min y;
    Ok (Some (set "audio_min" lo f)).

(** [extract_audio_features_robust] *)
Definition extract_audio_features_robust (content : list byte) : option features :=
  match decode content with
  | Ok (y, sr) =>
      match features_body y sr with
      | Ok r => r
      | Raise _ => None
      end
  | Raise _ => None
  end.

End Extractor.

End Robust.

(** ** The request handler of [app_production.py] *)

Module Handler.
Import Collab Scorer.

(** The uploaded file of a request: its name and its bytes. *)
Record upload : Type := Upload {
  filename : string;
  content : list byte
}.

Record payload : Type := Payload {
  p_emotion : emotion;
  p_confidence : Z;
  p_features_analyzed : nat;
  p_audio_duration : pyfloat;
  p_analysis_method : string;
  p_timestamp : string;
  p_filename : string;
  p_analysis_type : string
}.

Inductive response : Type :=
| Json (p : payload)
| Error (status : Z) (message : string).

Definition temp_path (W : world) (name : string) : string :=
  ("uploads/temp_" ++ now_stamp W ++ "_" ++ name)%string.

(** The extraction and scoring that [analyze_audio] runs on the saved
  file, before the response is assembled. *)
Definition analyze_saved (W : world) (name : string) (bytes : list byte)
  : outcome (option features * option analysis) :=
  match Production.extract_audio_features_multiple_methods W (temp_path W name) bytes with
  | None => Ok (None, None)
  | Some f => r ← analyze_emotion_robust f; Ok (Some f, r)
  end.

(** [analyze_audio] from [request.files] on; [None] is a request without
    an ['audio'] part.  A raise of [file.save], of the analysis or of the
    [finally] block reaches the outer [except Exception].  The messages
    are spelled without their accents, and [Error interno] stands for
    the message built from the text of the exception. *)
Definition analyze_audio (W : world) (req : option upload) : response :=
  match req with
  | None => Error 400 "No se encontro archivo de audio"
  | Some file =>
      if String.eqb (filename file) ""
      then Error 400 "No se selecciono archivo"
      else
        let name := secure_filename W (filename file) in
        let path := temp_path W name in
        match file_save W path (content file) with
        | Raise _ => Error 500 "Error interno"
        | Ok _ =>
            let answer :=
              if Nat.eqb (length (content file)) 0
              then Error 400 "El archivo de audio esta vacio"
              else
                match analyze_saved W name (content file) with
                | Ok (None, _) =>
                    Error 500 "No se pudieron procesar las caracteristicas del audio con ningun metodo disponible."
                | Ok (Some _, None) => Error 500 "Error en el analisis emocional"
                | Ok (Some _, Some r) =>
                    Json {|
                      p_emotion := emotion_of r;
                      p_confidence := confidence r;
                      p_features_analyzed := features_analyzed r;
                      p_audio_duration := audio_duration r;
                      p_analysis_method := method_of r;
                      p_timestamp := now_iso W;
                      p_filename := name;
                      p_analysis_type := "production_ready"
                    |}
                | Raise _ => Error 500 "Error interno"
                end in
            match os_unlink W path with
            | Ok _ => answer
            | Raise _ => Error 500 "Error interno"
            end
        end
  end.

(** A request: the length of its body and the ['audio'] part it holds. *)
Record request : Type := Request {
  content_length : Z;
  audio : option upload
}.

(** [app.config['MAX_CONTENT_LENGTH']] *)
Definition MAX_CONTENT_LENGTH : Z := 32 * 1024 * 1024.

(** [request.files]: a body longer than the limit is not parsed. *)
Definition request_files (r : request) : outcome (option upload) :=
  if (MAX_CONTENT_LENGTH <? content_length r)%Z
  then Raise RequestEntityTooLarge
  else Ok (audio r).

(** The view function on a request, with its outer [except Exception]. *)
Definition analyze_request (W : world) (r : request) : response :=
  match request_files r with
  | Ok req => analyze_audio W req
  | Raise _ => Error 500 "Error interno"
  end.

End Handler.

(** ** Vocabulary of the properties *)

Module Vocab.
Import Scorer.

(** [x] is not below [y]. *)
Definition not_below (x y : pyfloat) : Prop := lt x y = false.

(** Ascending: no element is below an earlier one. *)
Definition ascending : list pyfloat -> Prop :=
  StronglySorted (fun a b => not_below b a).

(** [top1] and [top2] are the two highest values of [l], in that order. *)
Definition two_highest (l : list pyfloat) (top1 top2 : pyfloat) : Prop :=
  exists rest, Permutation (top1 :: top2 :: rest) l /\
               not_below top1 top2 /\ Forall (not_below top2) rest.


Definition table5 (a b c d n : pyfloat) : score_table :=
  [(Alegria, a); (Tristeza, b); (Ansiedad, c); (Enojo, d); (Neutral, n)].

(** Five finite entries, Neutral at least 10 and the others at least 5. *)
Definition well_formed (t : score_table) : Prop :=
  exists a b c d n : Q,
    t = table5 (Fin a) (Fin b) (Fin c) (Fin d) (Fin n) /\
    5 <= a /\ 5 <= b /\ 5 <= c /\ 5 <= d /\ 10 <= n.

Definition finite_entry (p : emotion * pyfloat) : Prop :=
  exists q, snd p = Fin q.

(** The table the scorer returns: the accumulated one, damped. *)
Definition final_scores (f : features) : score_table :=
  damp (duration_factor (get f "duration" (Fin 10))) (accumulated f).

(** What a rule block adds to the entry of [e] when its feature is [x]. *)
Definition contribution (rule : pyfloat -> score_table -> score_table)
    (e : emotion) (x : Q) : pyfloat :=
  sub (score e (rule (Fin x) initial_scores)) (score e initial_scores).

(** [x] and [y] compare alike with the threshold [c]. *)
Definition same_side (x y : pyfloat) (c : Q) : Prop :=
  gt x (Fin c) = gt y (Fin c) /\ lt x (Fin c) = lt y (Fin c).

(** The four scored features of [f] and [g] lie in the same bands. *)
Definition same_bands (f g : features) : Prop :=
  Forall (same_side (get f "tempo" (Fin 120)) (get g "tempo" (Fin 120)))
         [130; 110; 80; 100] /\
  Forall (same_side (get f "spectral_centroid" (Fin 1500))
                    (get g "spectral_centroid" (Fin 1500)))
         [2200; 1800; 1000; 1400] /\
  Forall (same_side (get f "rms" (Fin 0.1)) (get g "rms" (Fin 0.1)))
         [0.2; 0.15; 0.05; 0.1] /\
  Forall (same_side (get f "zcr" (Fin 0.05)) (get g "zcr" (Fin 0.05)))
         [0.1; 0.07; 0.03].

(** The numeric keys the scorer reads. *)
Definition scored_keys : list string :=
  ["spectral_centroid"; "tempo"; "zcr"; "rms"; "duration"]%string.

(** Two worlds with the same collaborators, whatever their clocks say. *)
Definition same_collaborators (W1 W2 : Collab.world) : Prop :=
  Collab.lib W1 = Collab.lib W2 /\
  Collab.ffmpeg W1 = Collab.ffmpeg W2.

(** A float that is a finite zero. *)
Definition is_zero (x : pyfloat) : Prop := exists q, x = Fin q /\ q == 0.

(** A finite float. *)
Definition finite (x : pyfloat) : Prop := exists q, x = Fin q.

(** The allowance for binary64 rounding in a statement about a computed
    float: far above the error of a few operations on values below 1024,
    far below the distance between two integers. *)
Definition rounding_slack : Q := 0.000000001.



End Vocab.

(** ** Sample inputs *)

Module Samples.

Definition vector (tempo centroid rms zcr duration : Q) (m : option string)
  : features :=
  Features (list_to_map [ ("tempo"%string, Fin tempo);
                          ("spectral_centroid"%string, Fin centroid);
                          ("rms"%string, Fin rms);
                          ("zcr"%string, Fin zcr);
                          ("duration"%string, Fin duration) ]) m.

(** Scenario A of the specification. *)
Definition scenario_a : features := vector 150 2500 0.25 0.05 15 None.

(** Scenario B of the specification. *)
Definition scenario_b : features := vector 70 900 0.04 0.03 15 None.

(** Scenario A on a clip of no length. *)
Definition silent_a : features := vector 150 2500 0.25 0.05 0 None.

(** Scenario A at a tempo of 131. *)
Definition brisk_a : features := vector 131 2300 0.3 0.06 20 None.

(** A file of 256 bytes holding every byte value once. *)
Definition every_byte : list byte :=
  omap Byte.of_N (map N.of_nat (seq 0 256)).

(** A librosa whose decoder and feature routines are given, with a tempo
    estimate [tempo], a rolloff [rolloff] and a chroma [chroma]. *)
Definition library (decoded : outcome Collab.pcm) (tempo : outcome (pyfloat * nat))
    (rolloff : outcome pyfloat) (chroma : outcome (pyfloat * pyfloat))
  : Collab.librosa :=
  {| Collab.load := fun _ _ => decoded;
     Collab.resample := fun y _ _ => Ok y;
     Collab.mfcc := fun _ _ => Ok (Fin (-12), Fin 40, Fin 1600);
     Collab.spectral_centroid := fun _ _ => Ok (Fin 1700, Fin 250);
     Collab.zero_crossing_rate := fun _ => Ok (Fin 0.06, Fin 0.01);
     Collab.rms := fun _ => Ok (Fin 0.12, Fin 0.02);
     Collab.beat_track := fun _ _ => tempo;
     Collab.spectral_rolloff := fun _ _ => rolloff;
     Collab.spectral_bandwidth := fun _ _ => Ok (Fin 1200);
     Collab.chroma_stft := fun _ _ => chroma;
     Collab.np_mean := fun _ => Fin 0;
     Collab.np_std := fun _ => Fin 0.5 |}.

(** Two samples of a decoded clip. *)
Definition clip : list pyfloat := [Fin 0.5; Fin (-0.25)].

(** The chroma computation raises; the rolloff is computed as 3000. *)
Definition chroma_fails : Collab.librosa :=
  library (Ok (clip, 22050%Z)) (Ok (Fin 98, 4%nat)) (Ok (Fin 3000))
          (Raise LibraryError).

(** The beat tracker answers an infinite tempo. *)
Definition infinite_tempo : Collab.librosa :=
  library (Ok (clip, 22050%Z)) (Ok (PInf, 0%nat)) (Ok (Fin 3000))
          (Ok (Fin 0.4, Fin 0.1)).

(** The beat tracker answers NaN. *)
Definition nan_tempo : Collab.librosa :=
  library (Ok (clip, 22050%Z)) (Ok (NaN, 0%nat)) (Ok (Fin 3000))
          (Ok (Fin 0.4, Fin 0.1)).

(** A decoder that reads a container with no audio frames at 22050 Hz. *)
Definition no_frames : Collab.librosa :=
  library (Ok ([], 22050%Z)) (Ok (Fin 98, 4%nat)) (Ok (Fin 3000))
          (Ok (Fin 0.4, Fin 0.1)).

(** A decoder that rejects every file. *)
Definition undecodable : Collab.librosa :=
  library (Raise LibraryError) (Ok (Fin 98, 4%nat)) (Ok (Fin 3000))
          (Ok (Fin 0.4, Fin 0.1)).

(** A world around a librosa: no ffmpeg, file names kept as they are, a
    file system that stores and removes every file. *)
Definition world_of (l : Collab.librosa) (stamp : string) : Collab.world :=
  {| Collab.lib := l;
     Collab.ffmpeg := fun _ => Raise LibraryError;
     Collab.secure_filename := fun s => s;
     Collab.file_save := fun _ _ => Ok tt;
     Collab.os_unlink := fun _ => Ok tt;
     Collab.now_stamp := stamp;
     Collab.now_iso := stamp |}.

(** A WAV file that ends after its header: PCM, mono, 22050 Hz, 16 bits,
    and a data chunk of length zero. *)
Definition wav_header : list byte :=
  [ x52; x49; x46; x46;  x24; x00; x00; x00;  x57; x41; x56; x45;
    x66; x6d; x74; x20;  x10; x00; x00; x00;  x01; x00;  x01; x00;
    x22; x56; x00; x00;  x44; xac; x00; x00;  x02; x00;  x10; x00;
    x64; x61; x74; x61;  x00; x00; x00; x00 ].

(** Scenario A with one more entry, which the scorer does not read. *)
Definition a_with_mfcc : features := set "mfcc_mean" (Fin (-12)) scenario_a.
Definition a_with_chroma : features := set "chroma_mean" (Fin 0.9) scenario_a.


End Samples.

Import Collab Scorer Vocab.

(** ** The extension filter ([allowed_file]) *)

Module Filter.

(** The set [ALLOWED_EXTENSIONS]. *)
Definition ALLOWED_EXTENSIONS : list string :=
  ["wav"; "mp3"; "flac"; "m4a"; "ogg"; "webm"; "aac"]%string.

(** [x in ALLOWED_EXTENSIONS] *)
Definition is_allowed (x : string) : bool :=
  existsb (String.eqb x) ALLOWED_EXTENSIONS.

(** [s.rsplit('.', 1)] when [s] holds a dot: the text before the last dot
    and the text after it; [None] when [s] holds no dot. *)
Fixpoint rsplit_dot (s : string) : option (string * string) :=
  match s with
  | EmptyString => None
  | String c s' =>
      match rsplit_dot s' with
      | Some (before, after) => Some (String c before, after)
      | None => if Ascii.eqb c "." then Some (EmptyString, s') else None
      end
  end.

(** [allowed_file] *)
Definition allowed_file (filename : string) : bool :=
  Str.occurs "." filename &&
  match rsplit_dot filename with
  | Some (_, extension) => is_allowed (Str.lower extension)
  | None => false
  end.

End Filter.

(** ** The scorer of [app_robust.py] ([analyze_emotion_simple_robust]) *)

Module SimpleScorer.
Import Scorer.

Definition initial_scores : score_table :=
  [(Alegria, Fin 0); (Tristeza, Fin 0); (Ansiedad, Fin 0); (Enojo, Fin 0);
   (Neutral, Fin 10)].

Definition tempo_rule (tempo : pyfloat) (t : score_table) : score_table :=
  if gt tempo (Fin 130) then bump Ansiedad 10 (bump Alegria 15 t)
  else if gt tempo (Fin 110) then bump Neutral 5 (bump Alegria 8 t)
  else if lt tempo (Fin 80) then bump Tristeza 15 t
  else if lt tempo (Fin 100) then bump Neutral 3 (bump Tristeza 8 t)
  else t.

Definition centroid_rule (spectral_centroid : pyfloat) (t : score_table) : score_table :=
  if gt spectral_centroid (Fin 2200) then bump Ansiedad 8 (bump Alegria 12 t)
  else if gt spectral_centroid (Fin 1800) then bump Neutral 4 (bump Alegria 6 t)
  else if lt spectral_centroid (Fin 1000) then bump Tristeza 12 t
  else if lt spectral_centroid (Fin 1400) then bump Neutral 3 (bump Tristeza 6 t)
  else t.

Definition rms_rule (rms : pyfloat) (t : score_table) : score_table :=
  if gt rms (Fin 0.2) then bump Alegria 8 (bump Enojo 15 t)
  else if gt rms (Fin 0.15) then bump Enojo 5 (bump Alegria 10 t)
  else if lt rms (Fin 0.05) then bump Tristeza 12 t
  else if lt rms (Fin 0.1) then bump Neutral 4 (bump Tristeza 6 t)
  else t.

Definition zcr_rule (zcr : pyfloat) (t : score_table) : score_table :=
  if gt zcr (Fin 0.1) then bump Enojo 8 (bump Ansiedad 15 t)
  else if gt zcr (Fin 0.07) then bump Neutral 3 (bump Ansiedad 8 t)
  else if lt zcr (Fin 0.03) then bump Neutral 5 (bump Tristeza 8 t)
  else t.

Definition audio_std_rule (audio_std : pyfloat) (t : score_table) : score_table :=
  if gt audio_std (Fin 0.15) then bump Ansiedad 8 (bump Enojo 10 t)
  else if lt audio_std (Fin 0.05) then bump Neutral 6 (bump Tristeza 8 t)
  else t.

(** The table once the five rule blocks have run. *)
Definition emotion_scores (f : features) : score_table :=
  audio_std_rule (get f "audio_std" (Fin 0.1))
    (zcr_rule (get f "zcr" (Fin 0.05))
      (rms_rule (get f "rms" (Fin 0.1))
        (centroid_rule (get f "spectral_centroid" (Fin 1500))
          (tempo_rule (get f "tempo" (Fin 120)) initial_scores)))).

(** [min(95, max(65, x))] *)
Definition clamp_65_95 (x : Z) : Z := Z.min 95 (Z.max 65 x).

Definition confidence_of (scores_list : list pyfloat) (max_score : pyfloat)
  : outcome Z :=
  match scores_list with
  | s0 :: s1 :: _ =>
      if gt s1 (Fin 0)
      then x ← Py.int (add (Fin 65) (mul (sub s0 s1) (Fin 2))); Ok (clamp_65_95 x)
      else x ← Py.int (add (Fin 65) max_score); Ok (clamp_65_95 x)
  | _ => x ← Py.int (add (Fin 65) max_score); Ok (clamp_65_95 x)
  end.

Record simple_analysis : Type := SimpleAnalysis {
  s_emotion : emotion;
  s_confidence : Z;
  s_scores : score_table;
  s_features_analyzed : nat;
  s_audio_duration : pyfloat
}.

(** [analyze_emotion_simple_robust]; [Ok None] is the Python [return None]. *)
Definition analyze_emotion_simple_robust (f : features)
  : outcome (option simple_analysis) :=
  if Nat.eqb (len f) 0 then Ok None
  else
    let duration := get f "duration" (Fin 10) in
    let emotion_scores := emotion_scores f in
    dominant_emotion ← max_key emotion_scores;
    let max_score := score dominant_emotion emotion_scores in
    let scores_list := sorted_reverse (map snd emotion_scores) in
    confidence ← confidence_of scores_list max_score;
    Ok (Some (SimpleAnalysis dominant_emotion confidence emotion_scores
                             (len f) duration)).

End SimpleScorer.

(** ** The request handler of [app_robust.py] *)

Module RobustHandler.
Import Collab Scorer SimpleScorer.

Record payload : Type := Payload {
  p_emotion : emotion;
  p_confidence : Z;
  p_features_analyzed : nat;
  p_audio_duration : pyfloat;
  p_timestamp : string;
  p_filename : string;
  p_analysis_type : string
}.

Inductive response : Type :=
| Json (p : payload)
| Error (status : Z) (message : string).

(** [analyze_audio] of [app_robust.py] from [request.files] on; a raise
    of [file.save], of the analysis or of the [finally] block reaches the
    outer [except Exception].  The messages are spelled without their
    accents, and [Error interno] stands for the message built from the
    text of the exception. *)
Definition analyze_audio (W : world) (req : option Handler.upload) : response :=
  match req with
  | None => Error 400 "No se encontro archivo de audio"
  | Some file =>
      if String.eqb (Handler.filename file) ""
      then Error 400 "No se selecciono archivo"
      else
        let name := secure_filename W (Handler.filename file) in
        let path := Handler.temp_path W name in
        match file_save W path (Handler.content file) with
        | Raise _ => Error 500 "Error interno"
        | Ok _ =>
            let answer :=
              if Nat.eqb (length (Handler.content file)) 0
              then Error 400 "El archivo de audio esta vacio"
              else
                match Robust.extract_audio_features_robust W (Handler.content file) with
                | None =>
                    Error 500 "No se pudieron extraer caracteristicas del audio. Intenta con un archivo diferente o graba directamente desde el navegador."
                | Some features =>
                    match analyze_emotion_simple_robust features with
                    | Ok None => Error 500 "Error en el analisis emocional"
                    | Ok (Some r) =>
                        Json {|
                          p_emotion := s_emotion r;
                          p_confidence := s_confidence r;
                          p_features_analyzed := s_features_analyzed r;
                          p_audio_duration := s_audio_duration r;
                          p_timestamp := now_iso W;
                          p_filename := name;
                          p_analysis_type := "robust_processing"
                        |}
                    | Raise _ => Error 500 "Error interno"
                    end
                end in
            match os_unlink W path with
            | Ok _ => answer
            | Raise _ => Error 500 "Error interno"
            end
        end
  end.

(** The view function on a request, with its outer [except Exception];
    both files set the same limit on the body. *)
Definition analyze_request (W : world) (r : Handler.request) : response :=
  match Handler.request_files r with
  | Ok req => analyze_audio W req
  | Raise _ => Error 500 "Error interno"
  end.

End RobustHandler.

(** ** Vocabulary of the further properties *)

Module Vocab2.
Import Scorer.

(** The keys of a vector built by [extract_librosa_features]. *)
Definition librosa_keys : gset string :=
  list_to_set ["mfcc_mean"; "mfcc_std"; "spectral_centroid"; "zcr"; "rms";
               "tempo"; "spectral_rolloff"; "chroma_mean"; "duration";
               "audio_std"; "audio_max"]%string.

(** The keys of a vector built by [extract_audio_features_robust]. *)
Definition robust_keys : gset string :=
  list_to_set ["mfcc_mean"; "mfcc_std"; "mfcc_var"; "spectral_centroid";
               "spectral_centroid_std"; "zcr"; "zcr_std"; "rms"; "rms_std";
               "tempo"; "beat_count"; "spectral_rolloff"; "spectral_bandwidth";
               "chroma_mean"; "chroma_std"; "duration"; "sample_rate";
               "samples"; "audio_mean"; "audio_std"; "audio_max";
               "audio_min"]%string.

(** The value a guarded step stores: the computed one, or the default. *)
Definition or_default {A} (c : outcome A) (pick : A -> pyfloat) (d : Q) : pyfloat :=
  match c with
  | Ok a => pick a
  | Raise _ => Fin d
  end.

(** The path under which the handlers save the upload. *)
Definition saved_path (W : Collab.world) (file : Handler.upload) : string :=
  Handler.temp_path W (Collab.secure_filename W (Handler.filename file)).

(** Saving the upload did not raise. *)
Definition stored (W : Collab.world) (file : Handler.upload) : Prop :=
  raised (Collab.file_save W (saved_path W file) (Handler.content file)) = false.

(** Removing the temporary file did not raise. *)
Definition removed (W : Collab.world) (file : Handler.upload) : Prop :=
  raised (Collab.os_unlink W (saved_path W file)) = false.

(** [x] lies in the closed interval from [lo] to [hi]. *)
Definition between (lo hi : Q) (x : pyfloat) : Prop :=
  exists q, x = Fin q /\ lo <= q /\ q <= hi.

End Vocab2.

Import Vocab2.

(** * Properties *)

(** ** Comparisons and sorting of Python floats *)

Section PyFacts.

Lemma Qltb_true (a b : Q) : Qltb a b = true <-> a < b.
Proof.
  unfold Qltb. rewrite negb_true_iff. split.
  - intros H. apply Qnot_le_lt. intros Hle.
    apply Qle_bool_iff in Hle. congruence.
  - intros H. destruct (Qle_bool b a) eqn:E; [|reflexivity].
    apply Qle_bool_iff in E. lra.
Qed.

Lemma Qltb_false (a b : Q) : Qltb a b = false <-> b <= a.
Proof. unfold Qltb. rewrite negb_false_iff. apply Qle_bool_iff. Qed.

Lemma not_below_fin (a b : Q) : not_below (Fin a) (Fin b) <-> b <= a.
Proof. apply Qltb_false. Qed.

Lemma lt_total (x y : pyfloat) : lt x y = true -> lt y x = false.
Proof.
  destruct x, y; simpl; try congruence.
  rewrite Qltb_true, Qltb_false. lra.
Qed.

Lemma not_below_trans (x y z : pyfloat) :
  isnan y = false -> not_below x y -> not_below y z -> not_below x z.
Proof.
  unfold not_below. destruct x, y, z; simpl; try congruence.
  rewrite !Qltb_false. lra.
Qed.

Lemma insert_sorted_perm (x : pyfloat) (l : list pyfloat) :
  Permutation (insert_sorted x l) (x :: l).
Proof.
  induction l as [|y l IH]; simpl; [reflexivity|].
  destruct (lt x y); [reflexivity|].
  rewrite IH. apply perm_swap.
Qed.

Lemma sorted_perm (l : list pyfloat) : Permutation (sorted l) l.
Proof.
  unfold sorted.
  assert (G : forall acc, Permutation
              (fold_left (fun acc x => insert_sorted x acc) l acc) (acc ++ l)).
  { induction l as [|x l IH]; intros acc; simpl.
    - now rewrite app_nil_r.
    - rewrite IH, insert_sorted_perm. apply Permutation_middle. }
  apply (G []).
Qed.

Lemma sorted_reverse_perm (l : list pyfloat) : Permutation (sorted_reverse l) l.
Proof.
  unfold sorted_reverse.
  rewrite <- Permutation_rev, sorted_perm. symmetry. apply Permutation_rev.
Qed.

Lemma insert_sorted_ascending (x : pyfloat) (l : list pyfloat) :
  isnan x = false -> Forall (fun y => isnan y = false) l ->
  ascending l -> ascending (insert_sorted x l).
Proof.
  intros Hx Hl Hs. induction Hs as [|y l Hs IH Hy]; simpl.
  - constructor; constructor.
  - inversion Hl as [|? ? Hny Hl']; subst. specialize (IH Hl').
    destruct (lt x y) eqn:E.
    + constructor; [now constructor|].
      assert (Hxy : not_below y x) by now apply lt_total.
      constructor; [exact Hxy|].
      eapply Forall_impl; [exact Hy|]. simpl. intros z Hz.
      now apply (not_below_trans z y x).
    + constructor; [exact IH|].
      rewrite (insert_sorted_perm x l). constructor; [exact E | exact Hy].
Qed.

Lemma sorted_ascending (l : list pyfloat) :
  Forall (fun y => isnan y = false) l -> ascending (sorted l).
Proof.
  unfold sorted. intros Hl.
  assert (G : forall acc, Forall (fun y => isnan y = false) acc ->
              ascending acc ->
              ascending (fold_left (fun acc x => insert_sorted x acc) l acc)).
  { induction Hl as [|x l Hx Hl IH]; intros acc Hacc Hs; simpl; [exact Hs|].
    apply IH.
    - rewrite (insert_sorted_perm x acc). now constructor.
    - now apply insert_sorted_ascending. }
  apply G; constructor.
Qed.

Lemma ascending_last2 (t : list pyfloat) (a b : pyfloat) :
  Forall (fun y => isnan y = false) (t ++ [b; a]) ->
  ascending (t ++ [b; a]) ->
  not_below a b /\ Forall (fun z => not_below b z) t.
Proof.
  induction t as [|z t IH]; simpl; intros Hn Hs.
  - apply StronglySorted_inv in Hs as [_ Hb].
    inversion Hb; subst. split; [assumption | constructor].
  - apply StronglySorted_inv in Hs as [Hs Hz].
    inversion Hn as [|? ? _ Hn']; subst.
    destruct (IH Hn' Hs) as [Hab Ht].
    split; [exact Hab|]. constructor; [|exact Ht].
    rewrite Forall_app in Hz. destruct Hz as [_ Hz].
    inversion Hz; subst. assumption.
Qed.

(** The two leading entries of [sorted(l, reverse=True)] are the two
    highest values of [l]. *)
Lemma sorted_reverse_top2 (l : list pyfloat) (a b : pyfloat) (r : list pyfloat) :
  Forall (fun y => isnan y = false) l ->
  sorted_reverse l = a :: b :: r ->
  Permutation (a :: b :: r) l /\ not_below a b /\ Forall (not_below b) r.
Proof.
  intros Hl E. split.
  - rewrite <- E. apply sorted_reverse_perm.
  - unfold sorted_reverse in E.
    assert (Hn : Forall (fun y => isnan y = false) (sorted (rev l))).
    { rewrite sorted_perm, <- (Permutation_rev l). exact Hl. }
    assert (Hs : ascending (sorted (rev l))).
    { apply sorted_ascending. rewrite <- (Permutation_rev l). exact Hl. }
    assert (El : sorted (rev l) = rev r ++ [b; a]).
    { rewrite <- (rev_involutive (sorted (rev l))), E. simpl.
      now rewrite <- !app_assoc. }
    rewrite El in Hn, Hs.
    destruct (ascending_last2 _ _ _ Hn Hs) as [Hab Hr].
    split; [exact Hab|].
    rewrite <- (rev_involutive r). apply Forall_rev. exact Hr.
Qed.

End PyFacts.

(** ** The score table *)

Section ScorerFacts.

Local Opaque Qltb.

Lemma initial_well_formed : well_formed initial_scores.
Proof. exists 5, 5, 5, 5, 10. repeat split; lra. Qed.

Lemma bump_well_formed (e : emotion) (k : Q) (t : score_table) :
  0 <= k -> well_formed t -> well_formed (bump e k t).
Proof.
  intros Hk (a & b & c & d & n & -> & Ha & Hb & Hc & Hd & Hn).
  destruct e; cbn.
  - exists (a + k), b, c, d, n. repeat split; lra.
  - exists a, (b + k), c, d, n. repeat split; lra.
  - exists a, b, (c + k), d, n. repeat split; lra.
  - exists a, b, c, (d + k), n. repeat split; lra.
  - exists a, b, c, d, (n + k). repeat split; lra.
Qed.

Ltac rule_wf :=
  repeat match goal with
         | |- well_formed (if ?c then _ else _) => destruct c
         | |- well_formed (bump _ _ _) => apply bump_well_formed; [lra|]
         end; try assumption.

Lemma accumulated_well_formed (f : features) : well_formed (accumulated f).
Proof.
  unfold accumulated.
  assert (H1 : well_formed (tempo_rule (get f "tempo" (Fin 120)) initial_scores)).
  { pose proof initial_well_formed. unfold tempo_rule. rule_wf. }
  assert (H2 : well_formed (centroid_rule (get f "spectral_centroid" (Fin 1500))
                 (tempo_rule (get f "tempo" (Fin 120)) initial_scores))).
  { unfold centroid_rule. rule_wf. }
  assert (H3 : well_formed (rms_rule (get f "rms" (Fin 0.1))
                 (centroid_rule (get f "spectral_centroid" (Fin 1500))
                   (tempo_rule (get f "tempo" (Fin 120)) initial_scores)))).
  { unfold rms_rule. rule_wf. }
  unfold zcr_rule. rule_wf.
Qed.

Lemma damp_table5 (x a b c d n : pyfloat) :
  damp x (table5 a b c d n) = table5 (mul a x) (mul b x) (mul c x) (mul d x) n.
Proof. reflexivity. Qed.

(** The factor is finite and at most 1, unless the duration is [-inf]. *)
Lemma duration_factor_cases (d : pyfloat) :
  (exists x, duration_factor d = Fin x /\ x <= 1 /\
             (lt d (Fin 0) = false -> 0 <= x) /\
             (forall q, d = Fin q -> (q < 10 -> x == q / 10) /\ (10 <= q -> x == 1)))
  \/ (d = NInf /\ duration_factor d = NInf).
Proof.
  unfold duration_factor, Py.min, div_lit. destruct d as [q| | |]; cbn.
  - left.
    match goal with |- context [Qltb ?u ?v] => destruct (Qltb u v) eqn:E end.
    + apply Qltb_true in E. eexists.
      split; [reflexivity|]. split; [lra|]. split.
      * intros H. apply Qltb_false in H. lra.
      * intros q' [= <-]. split; intros; [field | lra].
    + apply Qltb_false in E. exists 1.
      split; [reflexivity|]. split; [lra|]. split; [lra|].
      intros q' [= <-]. split; intros; lra.
  - left. exists 1. repeat split; try lra; discriminate.
  - right. split; reflexivity.
  - left. exists 1. repeat split; try lra; discriminate.
Qed.

Lemma mul_fin_ninf (a : Q) : 0 < a -> mul (Fin a) NInf = NInf.
Proof.
  intros Ha. cbn. unfold signed_inf.
  apply Qgt_alt in Ha. now rewrite Ha.
Qed.

Lemma max_from_spec (t : score_table) (best : emotion * pyfloat) :
  Forall (fun p => isnan (snd p) = false) (best :: t) ->
  exists v, In (max_from best t, v) (best :: t) /\
            Forall (fun p => not_below v (snd p)) (best :: t).
Proof.
  revert best. induction t as [|p t IH]; intros best Hn; simpl.
  - exists (snd best). split; [left; now destruct best|].
    constructor; [|constructor].
    unfold not_below. destruct (snd best); try reflexivity.
    apply Qltb_false. lra.
  - inversion Hn as [|? ? Hb Hn']; subst.
    inversion Hn' as [|? ? Hp Ht]; subst.
    destruct (gt (snd p) (snd best)) eqn:E.
    + destruct (IH p) as (v & Hin & Hall); [now constructor|].
      exists v. split; [right; exact Hin|].
      inversion Hall as [|? ? Hvp Hvt]; subst.
      constructor; [|exact Hall].
      apply (not_below_trans v (snd p) (snd best)); [exact Hp | exact Hvp |].
      now apply lt_total.
    + destruct (IH best) as (v & Hin & Hall); [now constructor|].
      exists v. split.
      * destruct Hin as [Hin | Hin]; [now left | right; now right].
      * inversion Hall as [|? ? Hvb Hvt]; subst.
        constructor; [exact Hvb|]. constructor; [|exact Hvt].
        apply (not_below_trans v (snd best) (snd p)); [exact Hb | exact Hvb | exact E].
Qed.

End ScorerFacts.

(** ** Truncation *)

Section TruncFacts.

Lemma Qfloor_unique (q : Q) (z : Z) :
  inject_Z z <= q -> q < inject_Z (z + 1) -> Qfloor q = z.
Proof.
  intros Hlo Hhi.
  pose proof (Qfloor_le q) as H1. pose proof (Qlt_floor q) as H2.
  assert (A : (Qfloor q < z + 1)%Z) by (rewrite Zlt_Qlt; lra).
  assert (B : (z < Qfloor q + 1)%Z) by (rewrite Zlt_Qlt; lra).
  lia.
Qed.

Lemma trunc_nonneg (q : Q) : 0 <= q -> trunc q = Qfloor q.
Proof.
  destruct q as [n d]. unfold trunc, Qfloor, Qle. simpl. intros H.
  apply Z.quot_div_nonneg; lia.
Qed.

Lemma trunc_comp (p q : Q) : 0 <= p -> p == q -> trunc p = trunc q.
Proof.
  intros Hp E. rewrite !trunc_nonneg by lra. now apply Qfloor_comp.
Qed.


End TruncFacts.

(** ** The dominant label and the confidence *)

Section AnalysisFacts.

Local Opaque Qltb.

Lemma finite_entry_nonan (t : score_table) :
  Forall finite_entry t -> Forall (fun p => isnan (snd p) = false) t.
Proof.
  intros H. eapply Forall_impl; [exact H|].
  intros p [q Hq]. now rewrite Hq.
Qed.

Lemma in_table5 (e : emotion) (v a b c d n : pyfloat) :
  In (e, v) (table5 a b c d n) -> score e (table5 a b c d n) = v.
Proof.
  unfold table5. simpl.
  intros [H|[H|[H|[H|[H|[]]]]]]; injection H as <- <-; reflexivity.
Qed.

(** On a table of finite values: the key [max] selects carries a maximal
    value, the sorted list starts with the two highest values, and the
    first of them equals the maximum. *)
Lemma finite_table_top (t : score_table) :
  Forall finite_entry t -> (2 <= length t)%nat ->
  exists e m top1 top2 rest,
    max_key t = Ok e /\ In (e, Fin m) t /\
    Forall (fun p => not_below (Fin m) (snd p)) t /\
    sorted_reverse (map snd t) = Fin top1 :: Fin top2 :: rest /\
    two_highest (map snd t) (Fin top1) (Fin top2) /\
    m == top1.
Proof.
  intros Hfin Hlen.
  destruct t as [|best t]; [simpl in Hlen; lia|].
  destruct (max_from_spec t best (finite_entry_nonan _ Hfin)) as (v & Hin & Hmax).
  assert (Hv : exists m, v = Fin m).
  { rewrite Forall_forall in Hfin. destruct (Hfin _ (proj2 (list_elem_of_In _ _) Hin)) as [m Hm].
    exists m. exact Hm. }
  destruct Hv as [m ->].
  assert (Hnn : Forall (fun y => isnan y = false) (map snd (best :: t))).
  { apply Forall_map. apply finite_entry_nonan. exact Hfin. }
  assert (Hvals : Forall (fun y => exists q, y = Fin q) (map snd (best :: t))).
  { apply Forall_map. exact Hfin. }
  destruct (sorted_reverse (map snd (best :: t))) as [|s0 [|s1 rest]] eqn:E.
  - pose proof (Permutation_length (sorted_reverse_perm (map snd (best :: t)))) as HL.
    rewrite E, length_map in HL. simpl in HL, Hlen. lia.
  - pose proof (Permutation_length (sorted_reverse_perm (map snd (best :: t)))) as HL.
    rewrite E, length_map in HL. simpl in HL, Hlen. lia.
  - destruct (sorted_reverse_top2 _ _ _ _ Hnn E) as (Hperm & H01 & Hrest).
    assert (Hs : Forall (fun y => exists q, y = Fin q) (s0 :: s1 :: rest)).
    { rewrite Hperm. exact Hvals. }
    inversion Hs as [|? ? [top1 ->] Hs']; subst.
    inversion Hs' as [|? ? [top2 ->] Hs'']; subst.
    exists (max_from best t), m, top1, top2, rest.
    split; [reflexivity|]. split; [exact Hin|]. split; [exact Hmax|].
    split; [reflexivity|]. split; [exists rest; auto|].
    apply not_below_fin in H01.
    assert (Hle : m <= top1).
    { assert (Hm : In (Fin m) (Fin top1 :: Fin top2 :: rest)).
      { apply (Permutation_in _ (Permutation_sym Hperm)).
        apply (in_map snd) in Hin. exact Hin. }
      destruct Hm as [Hm|[Hm|Hm]].
      - injection Hm as <-. lra.
      - injection Hm as <-. lra.
      - rewrite List.Forall_forall in Hrest. apply Hrest in Hm.
        apply not_below_fin in Hm. lra. }
    assert (Hge : top1 <= m).
    { assert (Ht : In (Fin top1) (map snd (best :: t))).
      { apply (Permutation_in _ Hperm). now left. }
      apply in_map_iff in Ht. destruct Ht as (p & Hp & Hinp).
      rewrite List.Forall_forall in Hmax. apply Hmax in Hinp.
      rewrite Hp in Hinp. now apply not_below_fin in Hinp. }
    lra.
Qed.

Lemma final_scores_cases (f : features) :
  exists a b c d n : Q,
    accumulated f = table5 (Fin a) (Fin b) (Fin c) (Fin d) (Fin n) /\
    (5 <= a /\ 5 <= b /\ 5 <= c /\ 5 <= d /\ 10 <= n) /\
    ((exists x, duration_factor (get f "duration" (Fin 10)) = Fin x /\
                final_scores f =
                  table5 (Fin (a * x)) (Fin (b * x)) (Fin (c * x)) (Fin (d * x)) (Fin n))
     \/ (get f "duration" (Fin 10) = NInf /\
         final_scores f = table5 NInf NInf NInf NInf (Fin n))).
Proof.
  destruct (accumulated_well_formed f) as (a & b & c & d & n & Hacc & Hb).
  exists a, b, c, d, n. split; [exact Hacc|]. split; [exact Hb|].
  unfold final_scores. rewrite Hacc, damp_table5.
  destruct (duration_factor_cases (get f "duration" (Fin 10)))
    as [(x & Hx & _) | [Hd Hx]].
  - left. exists x. split; [exact Hx|]. now rewrite Hx.
  - right. split; [exact Hd|]. rewrite Hx.
    rewrite !mul_fin_ninf by lra. reflexivity.
Qed.

Lemma analyze_unfold (f : features) :
  len f <> 0%nat ->
  analyze_emotion_robust f =
    (e ← max_key (final_scores f);
     base ← confidence_base (sorted_reverse (map snd (final_scores f)))
                            (score e (final_scores f));
     Ok (Some (Analysis e
                 (adjust (default "librosa"%string (analysis_method f)) base)
                 (final_scores f) (len f) (get f "duration" (Fin 10))
                 (default "librosa"%string (analysis_method f))))).
Proof.
  intros H. unfold analyze_emotion_robust.
  destruct (Nat.eqb (len f) 0) eqn:E; [apply Nat.eqb_eq in E; contradiction|].
  reflexivity.
Qed.

End AnalysisFacts.

Section AnalysisRuns.

Local Opaque Qltb.

(** What a run of the scorer on a non-empty dictionary returns. *)
Lemma analyze_run (f : features) :
  len f <> 0%nat ->
  exists (e : emotion) (base : Z) (n : Q),
    analyze_emotion_robust f =
      Ok (Some (Analysis e
                  (adjust (default "librosa"%string (analysis_method f)) base)
                  (final_scores f) (len f) (get f "duration" (Fin 10))
                  (default "librosa"%string (analysis_method f)))) /\
    score Neutral (final_scores f) = Fin n /\ 10 <= n /\
    score Neutral (accumulated f) = Fin n /\
    ((get f "duration" (Fin 10) = NInf /\ e = Neutral /\ base = trunc (60 + n))
     \/ (exists x m top1 top2 : Q,
           duration_factor (get f "duration" (Fin 10)) = Fin x /\
           score e (final_scores f) = Fin m /\ n <= m /\
           two_highest (map snd (final_scores f)) (Fin top1) (Fin top2) /\
           m == top1 /\ (0 <= x -> 0 <= top2) /\
           base = if Qltb 0 top2 then trunc (60 + (top1 - top2) * 2)
                  else trunc (60 + m))).
Proof.
  intros Hlen. rewrite (analyze_unfold f Hlen).
  destruct (final_scores_cases f)
    as (a & b & c & d & n & Hacc & (Ha & Hb & Hc & Hd & Hn) & Hcase).
  destruct Hcase as [(x & Hx & Hfin) | (Hdur & Hfin)].
  - assert (Hfe : Forall finite_entry (final_scores f)).
    { rewrite Hfin. repeat constructor; eexists; reflexivity. }
    destruct (finite_table_top (final_scores f) Hfe)
      as (e & m & top1 & top2 & rest & Hkey & Hin & Hmax & Hsort & Htop & Hm).
    { rewrite Hfin. simpl. lia. }
    rewrite Hkey, Hsort. cbn [mbind outcome_bind].
    assert (Hscore : score e (final_scores f) = Fin m).
    { rewrite Hfin in Hin |- *. now apply in_table5. }
    rewrite Hscore. cbn [confidence_base gt lt add sub opp mul].
    exists e, (if Qltb 0 top2 then trunc (60 + (top1 - top2) * 2)
               else trunc (60 + m)), n.
    split; [destruct (Qltb 0 top2); reflexivity|].
    split; [now rewrite Hfin|]. split; [exact Hn|].
    split; [now rewrite Hacc|].
    right. exists x, m, top1, top2.
    split; [exact Hx|]. split; [exact Hscore|].
    split.
    { rewrite List.Forall_forall in Hmax.
      assert (Hnin : In (Neutral, Fin n) (final_scores f)).
      { rewrite Hfin. unfold table5. simpl. tauto. }
      apply Hmax in Hnin. now apply not_below_fin in Hnin. }
    split; [exact Htop|]. split; [exact Hm|]. split; [|reflexivity].
    intros Hx0. destruct Htop as (rest' & Hperm & _ & _).
    assert (Hin2 : In (Fin top2) (map snd (final_scores f))).
    { apply (Permutation_in _ Hperm). right. now left. }
    rewrite Hfin in Hin2. unfold table5 in Hin2. simpl in Hin2.
    destruct Hin2 as [H|[H|[H|[H|[H|[]]]]]]; injection H as <-; nra.
  - rewrite Hfin. cbn.
    exists Neutral, (trunc (60 + n)), n.
    split; [reflexivity|]. split; [reflexivity|]. split; [exact Hn|].
    split; [now rewrite Hacc|].
    left. auto.
Qed.

End AnalysisRuns.

(** ** Peaks of sample arrays *)

Section PeakFacts.

Local Opaque Qltb.

Lemma fold_maximum_finite (l : list pyfloat) (x : pyfloat) (z : Q) :
  Forall (fun s => s <> NInf) (x :: l) ->
  fold_left Np.maximum l x = Fin z ->
  (exists a, x = Fin a /\ a <= z) /\
  Forall (fun s => exists q, s = Fin q /\ q <= z) l.
Proof.
  revert x. induction l as [|s l IH]; intros x Hn; simpl.
  - intros ->. split; [exists z; split; [reflexivity | lra] | constructor].
  - intros Hf.
    inversion Hn as [|? ? Hx Hn']; subst.
    inversion Hn' as [|? ? Hs Hl]; subst.
    assert (Hm : Np.maximum x s <> NInf).
    { unfold Np.maximum. destruct x, s; simpl; try congruence.
      destruct (Qltb q q0); congruence. }
    destruct (IH (Np.maximum x s)) as ((a & Ha & Haz) & Hall);
      [now constructor | exact Hf |].
    unfold Np.maximum in Ha.
    destruct x as [u| | |], s as [v| | |]; simpl in Ha; try congruence.
    destruct (Qltb u v) eqn:E; injection Ha as <-.
    + apply Qltb_true in E.
      split; [exists u; split; [reflexivity | lra]|].
      constructor; [exists v; split; [reflexivity | lra] | exact Hall].
    + apply Qltb_false in E.
      split; [exists u; split; [reflexivity | lra]|].
      constructor; [exists v; split; [reflexivity | lra] | exact Hall].
Qed.

Lemma fold_maximum_of_finite (l : list Q) (a : Q) :
  exists z, fold_left Np.maximum (map Fin l) (Fin a) = Fin z /\ a <= z.
Proof.
  revert a. induction l as [|b l IH]; intros a; simpl.
  - exists a. split; [reflexivity | lra].
  - unfold Np.maximum at 2. simpl.
    destruct (Qltb a b) eqn:E.
    + apply Qltb_true in E. destruct (IH b) as (z & Hz & Hbz).
      exists z. split; [exact Hz | lra].
    + destruct (IH a) as (z & Hz & Haz). exists z. split; [exact Hz | lra].
Qed.

Lemma finite_list (y : list pyfloat) :
  Forall finite y -> exists l, y = map Fin l.
Proof.
  induction 1 as [|x y [q ->] _ [l ->]].
  - now exists [].
  - now exists (q :: l).
Qed.

(** The peak of a non-empty finite buffer is finite and not negative. *)
Lemma peak_of_finite (y : list pyfloat) :
  y <> [] -> Forall finite y -> exists z, Np.peak y = Ok (Fin z) /\ 0 <= z.
Proof.
  intros Hne Hfin. destruct (finite_list y Hfin) as [l ->].
  destruct l as [|a l]; [contradiction|].
  unfold Np.peak. simpl.
  replace (map Np.abs (map Fin l)) with (map Fin (map Qabs l))
    by (rewrite !map_map; reflexivity).
  destruct (fold_maximum_of_finite (map Qabs l) (Qabs a)) as (z & Hz & Haz).
  exists z. split; [now rewrite Hz|].
  pose proof (Qabs_nonneg a). lra.
Qed.

(** A peak that is a finite zero comes from a buffer of zeros. *)
Lemma peak_zero (y : list pyfloat) (p : pyfloat) :
  Np.peak y = Ok p -> is_zero p -> Forall is_zero y.
Proof.
  unfold Np.peak. destruct y as [|x y]; [discriminate|]. simpl.
  intros [= Hp] (z & -> & Hz).
  assert (Hn : Forall (fun s => s <> NInf) (Np.abs x :: map Np.abs y)).
  { change (Np.abs x :: map Np.abs y) with (map Np.abs (x :: y)).
    apply List.Forall_forall. intros s Hs.
    apply in_map_iff in Hs. destruct Hs as (t & <- & _).
    destruct t; simpl; congruence. }
  destruct (fold_maximum_finite _ _ _ Hn Hp) as ((a & Ha & Haz) & Hall).
  assert (Hzero : forall s q, Np.abs s = Fin q -> q <= z -> is_zero s).
  { intros s q Hs Hq. destruct s as [u| | |]; simpl in Hs; try discriminate.
    injection Hs as <-. exists u. split; [reflexivity|].
    pose proof (Qabs_nonneg u) as H0.
    assert (Hu : Qabs u == 0) by lra.
    revert Hu. apply Qabs_case; intros; lra. }
  constructor.
  - now apply (Hzero x a).
  - apply List.Forall_forall. intros s Hs.
    rewrite List.Forall_forall in Hall.
    destruct (Hall (Np.abs s) (in_map Np.abs y s Hs)) as (q & Hq & Hqz).
    now apply (Hzero s q).
Qed.

End PeakFacts.

(** ** Paths of temporary files *)

Section PathFacts.

Lemma lower_app (s t : string) :
  Str.lower (s ++ t) = (Str.lower s ++ Str.lower t)%string.
Proof. induction s as [|c s IH]; simpl; [reflexivity | now rewrite IH]. Qed.

Lemma occurs_app_r (c : ascii) (s t : string) :
  Str.occurs c t = true -> Str.occurs c (s ++ t) = true.
Proof.
  intros H. induction s as [|c' s IH]; simpl; [exact H|].
  rewrite IH. apply orb_true_r.
Qed.

(** A tail test on a string that still holds an underscore before [name]
    is a tail test on [name]. *)
Lemma endswith_after_underscore (pre name : string) :
  Str.endswith (Str.lower (pre ++ "_" ++ name)) ".webm"
  = Str.endswith (Str.lower name) ".webm".
Proof.
  induction pre as [|c pre IH].
  - reflexivity.
  - change (Str.lower (String c pre ++ "_" ++ name))
      with (String (Str.lower_ascii c) (Str.lower (pre ++ "_" ++ name))).
    cbn [Str.endswith]. rewrite IH.
    destruct (String.eqb (String (Str.lower_ascii c) (Str.lower (pre ++ "_" ++ name)))
                         ".webm") eqn:E; [|reflexivity].
    apply String.eqb_eq in E. injection E as _ E.
    assert (H : Str.occurs "_" (Str.lower (pre ++ "_" ++ name)) = true).
    { rewrite lower_app. apply occurs_app_r. reflexivity. }
    rewrite E in H. discriminate.
Qed.

Lemma temp_path_webm (W : world) (name : string) :
  Str.endswith (Str.lower (Handler.temp_path W name)) ".webm"
  = Str.endswith (Str.lower name) ".webm".
Proof.
  unfold Handler.temp_path.
  replace ("uploads/temp_" ++ now_stamp W ++ "_" ++ name)%string
    with (("uploads/temp_" ++ now_stamp W) ++ "_" ++ name)%string.
  - apply endswith_after_underscore.
  - generalize (now_stamp W). intros s. reflexivity.
Qed.

End PathFacts.

(** * The claims about the scorer *)

Section ScorerClaims.

Local Opaque Qltb.

(** Scenarios A and B of the specification. *)
Example scenario_a_is_joy :
  exists r, analyze_emotion_robust Samples.scenario_a = Ok (Some r) /\
            emotion_of r = Alegria /\ confidence r = 95%Z.
Proof. eexists. split; [vm_compute; reflexivity|]. split; reflexivity. Qed.

Example scenario_b_is_sadness :
  exists r, analyze_emotion_robust Samples.scenario_b = Ok (Some r) /\
            emotion_of r = Tristeza /\ confidence r = 95%Z.
Proof. eexists. split; [vm_compute; reflexivity|]. split; reflexivity. Qed.

(** C10.  For every non-empty feature vector the scorer returns a table
    whose Neutral entry is the undamped accumulated one and is at least
    the initial 10; the score of the selected label is strictly
    positive, so the table is never all zero. *)
Theorem neutral_keeps_its_base (f : features) :
  len f <> 0%nat ->
  exists (r : analysis) (n m : Q),
    analyze_emotion_robust f = Ok (Some r) /\
    score Neutral initial_scores = Fin 10 /\
    score Neutral (scores r) = Fin n /\ 10 <= n /\
    score Neutral (scores r) = score Neutral (accumulated f) /\
    score (emotion_of r) (scores r) = Fin m /\ 0 < m.
Proof.
  intros Hlen.
  destruct (analyze_run f Hlen) as (e & base & n & Hrun & Hn & Hn10 & Hacc & Hcase).
  destruct Hcase as [(_ & -> & _) | (x & m & t1 & t2 & _ & Hm & Hnm & _)].
  - eexists _, n, n. split; [exact Hrun|]. cbn [scores emotion_of].
    split; [reflexivity|]. split; [exact Hn|]. split; [exact Hn10|].
    split; [now rewrite Hacc|]. split; [exact Hn | lra].
  - eexists _, n, m. split; [exact Hrun|]. cbn [scores emotion_of].
    split; [reflexivity|]. split; [exact Hn|]. split; [exact Hn10|].
    split; [now rewrite Hacc|]. split; [exact Hm | lra].
Qed.

Lemma neutral_keeps_its_base_witness :
  exists (r : analysis) (n m : Q),
    analyze_emotion_robust Samples.scenario_a = Ok (Some r) /\
    score Neutral initial_scores = Fin 10 /\
    score Neutral (scores r) = Fin n /\ 10 <= n /\
    score Neutral (scores r) = score Neutral (accumulated Samples.scenario_a) /\
    score (emotion_of r) (scores r) = Fin m /\ 0 < m.
Proof.
  apply (neutral_keeps_its_base Samples.scenario_a). vm_compute. discriminate.
Defined.






(** Every entry of the returned table but Neutral's is the accumulated
    entry times the factor. *)
Lemma final_score_damped (f : features) (e : emotion) :
  e <> Neutral ->
  score e (final_scores f) =
    mul (score e (accumulated f)) (duration_factor (get f "duration" (Fin 10))).
Proof.
  intros He. unfold final_scores.
  destruct (accumulated_well_formed f) as (a & b & c & d & n & -> & _).
  rewrite damp_table5. destruct e; try reflexivity. contradiction.
Qed.

(** C5.  On every non-empty feature vector the scorer multiplies each
    accumulated score but Neutral's by the duration factor and leaves
    Neutral's as accumulated.  For a duration [d >= 0] the factor lies in
    [0,1], is [d / 10] below 10 seconds and 1 from 10 seconds on, and does
    not decrease when the duration grows.  For a duration of zero every
    score but Neutral's is zero and the selected label is Neutral. *)
Theorem duration_damping (f : features) :
  len f <> 0%nat ->
  exists r : analysis,
    analyze_emotion_robust f = Ok (Some r) /\
    (forall e, e <> Neutral ->
       score e (scores r) =
         mul (score e (accumulated f))
             (duration_factor (get f "duration" (Fin 10)))) /\
    score Neutral (scores r) = score Neutral (accumulated f) /\
    (forall d, 0 <= d ->
       exists x, duration_factor (Fin d) = Fin x /\ 0 <= x <= 1 /\
                 (d < 10 -> x == d / 10) /\ (10 <= d -> x == 1)) /\
    (forall d1 d2, 0 <= d1 -> d1 <= d2 ->
       exists x1 x2, duration_factor (Fin d1) = Fin x1 /\
                     duration_factor (Fin d2) = Fin x2 /\ x1 <= x2) /\
    (forall d, get f "duration" (Fin 10) = Fin d -> d == 0 ->
       emotion_of r = Neutral /\
       forall e, e <> Neutral -> exists z, score e (scores r) = Fin z /\ z == 0).
Proof.
  intros Hlen.
  destruct (analyze_run f Hlen) as (e & base & n & Hrun & Hn & Hn10 & Hacc & Hcase).
  eexists. split; [exact Hrun|]. cbn [scores emotion_of].
  split; [intros e' He'; now apply final_score_damped|].
  split; [now rewrite Hn, Hacc|].
  assert (Hfac : forall d, 0 <= d ->
            exists x, duration_factor (Fin d) = Fin x /\ 0 <= x <= 1 /\
                      (d < 10 -> x == d / 10) /\ (10 <= d -> x == 1)).
  { intros d Hd.
    destruct (duration_factor_cases (Fin d)) as [(x & Hx & H1 & H0 & Hv) | [Hd' _]];
      [|discriminate].
    exists x. split; [exact Hx|]. split.
    - split; [|exact H1]. apply H0. apply Qltb_false. exact Hd.
    - apply Hv. reflexivity. }
  split; [exact Hfac|]. split.
  - intros d1 d2 H1 H12.
    destruct (Hfac d1 H1) as (x1 & E1 & B1 & L1 & U1).
    destruct (Hfac d2) as (x2 & E2 & B2 & L2 & U2); [lra|].
    exists x1, x2. split; [exact E1|]. split; [exact E2|].
    destruct (Qlt_le_dec d2 10) as [Hlt | Hge].
    + rewrite L1, L2 by lra. unfold Qdiv.
      apply Qmult_le_compat_r; [exact H12 | discriminate].
    + rewrite (U2 Hge). apply B1.
  - intros d Hd Hd0.
    assert (Hz : forall e', e' <> Neutral ->
              exists z, score e' (final_scores f) = Fin z /\ z == 0).
    { intros e' He'. rewrite (final_score_damped f e' He'), Hd.
      destruct (Hfac d) as (x & Hx & _ & Hlow & _); [lra|].
      rewrite Hx.
      destruct (accumulated_well_formed f) as (a & b & c & d' & n' & -> & _).
      assert (Hx0 : x == 0).
      { rewrite Hlow by lra. rewrite Hd0. reflexivity. }
      destruct e'; cbn; try contradiction;
        eexists; (split; [reflexivity|]); rewrite Hx0; ring. }
    split; [|exact Hz].
    destruct Hcase as [(_ & -> & _) | (x & m & t1 & t2 & _ & Hm & Hnm & _)];
      [reflexivity|].
    destruct e; try reflexivity;
      match goal with
      | H : score ?k _ = Fin m |- _ =>
          destruct (Hz k) as (z & Hz1 & Hz2); [discriminate|];
          rewrite Hz1 in H; injection H as <-; lra
      end.
Qed.

End ScorerClaims.

Section RuleClaims.

Local Opaque Qltb.

Lemma duration_damping_witness :
  exists r : analysis,
    analyze_emotion_robust Samples.silent_a = Ok (Some r) /\
    emotion_of r = Neutral /\
    forall e, e <> Neutral -> exists z, score e (scores r) = Fin z /\ z == 0.
Proof.
  destruct (duration_damping Samples.silent_a) as (r & Hr & _ & _ & _ & _ & Hz).
  - vm_compute. discriminate.
  - exists r. split; [exact Hr|]. apply (Hz 0); reflexivity.
Defined.

(** C3, as stated, fails: the tempo rule adds the same 20 to Joy at 131
    and at 150 beats per minute, so no factor [k] makes the contribution
    [k * (tempo - 130)]; and Joy's score jumps by 8 between 130 and
    130.001 beats per minute. *)
Lemma proportional_contribution_counterexample :
  contribution tempo_rule Alegria 131 = contribution tempo_rule Alegria 150 /\
  ~ (exists k : Q,
       (exists c, contribution tempo_rule Alegria 131 = Fin c /\ c == k * (131 - 130)) /\
       (exists c, contribution tempo_rule Alegria 150 = Fin c /\ c == k * (150 - 130))) /\
  exists s1 s2 : Q,
    score Alegria (final_scores (Samples.vector 130 1500 0.1 0.05 10 None)) = Fin s1 /\
    score Alegria (final_scores (Samples.vector 130.001 1500 0.1 0.05 10 None)) = Fin s2 /\
    s2 - s1 == 8.
Proof.
  split; [reflexivity|]. split.
  - intros (k & (c1 & H1 & E1) & (c2 & H2 & E2)).
    vm_compute in H1. vm_compute in H2.
    injection H1 as <-. injection H2 as <-. lra.
  - eexists _, _. split; [vm_compute; reflexivity|].
    split; [vm_compute; reflexivity|]. reflexivity.
Qed.

Lemma same_side_rewrite (x y : pyfloat) (l : list Q) (c : Q) :
  Forall (same_side x y) l -> In c l ->
  gt x (Fin c) = gt y (Fin c) /\ lt x (Fin c) = lt y (Fin c).
Proof. rewrite List.Forall_forall. intros H Hc. exact (H c Hc). Qed.

Ltac band H c :=
  let G := fresh in let L := fresh in
  destruct (same_side_rewrite _ _ _ c H) as [G L]; [simpl; tauto|];
  rewrite ?G, ?L; clear G L.

(** C3, amended.  Each rule adds a fixed bonus that depends only on the
    band its feature lies in: two vectors whose tempo, spectral centroid,
    RMS energy and zero-crossing rate compare alike with every threshold
    accumulate the same table, and with equal durations return the same
    table; above 130 beats per minute the tempo rule adds 20 to Joy
    whatever the tempo. *)
Theorem rule_bonus_is_flat (f g : features) :
  same_bands f g ->
  accumulated f = accumulated g /\
  (get f "duration" (Fin 10) = get g "duration" (Fin 10) ->
   final_scores f = final_scores g) /\
  (forall t : Q, 130 < t ->
     exists c, contribution tempo_rule Alegria t = Fin c /\ c == 20).
Proof.
  intros (Ht & Hc & Hr & Hz).
  assert (Hacc : accumulated f = accumulated g).
  { unfold accumulated, zcr_rule, rms_rule, centroid_rule, tempo_rule.
    band Ht 130. band Ht 110. band Ht 80. band Ht 100.
    band Hc 2200. band Hc 1800. band Hc 1000. band Hc 1400.
    band Hr 0.2. band Hr 0.15. band Hr 0.05. band Hr 0.1.
    band Hz 0.1. band Hz 0.07. band Hz 0.03.
    reflexivity. }
  split; [exact Hacc|]. split.
  - intros Hd. unfold final_scores. now rewrite Hacc, Hd.
  - intros t Ht130. unfold contribution, tempo_rule.
    assert (E : gt (Fin t) (Fin 130) = true) by (apply Qltb_true; exact Ht130).
    rewrite E. cbn. eexists. split; [reflexivity|]. ring.
Qed.

Lemma rule_bonus_is_flat_witness :
  accumulated Samples.scenario_a = accumulated Samples.brisk_a /\
  (get Samples.scenario_a "duration" (Fin 10) = get Samples.brisk_a "duration" (Fin 10) ->
   final_scores Samples.scenario_a = final_scores Samples.brisk_a) /\
  (forall t : Q, 130 < t ->
     exists c, contribution tempo_rule Alegria t = Fin c /\ c == 20).
Proof.
  apply (rule_bonus_is_flat Samples.scenario_a Samples.brisk_a).
  unfold same_bands. repeat split; repeat constructor.
Defined.

End RuleClaims.

(** * The claims about the byte-heuristic synthesizer *)

Section HeuristicClaims.

Local Opaque Qltb.

Lemma every_byte_complete (b : byte) : b ∈ Samples.every_byte.
Proof.
  unfold Samples.every_byte. apply list_elem_of_omap.
  exists (Byte.to_N b). split; [|apply Byte.of_to_N].
  apply list_elem_of_fmap. exists (N.to_nat (Byte.to_N b)).
  split; [now rewrite N2Nat.id|].
  apply elem_of_seq. pose proof (Byte.to_N_bounded b). lia.
Qed.

Lemma distinct_bytes_bound (header : list byte) :
  (Heuristic.distinct_bytes header <= 256)%nat.
Proof.
  unfold Heuristic.distinct_bytes.
  transitivity (size (list_to_set Samples.every_byte : gset byte)).
  - apply subseteq_size. intros b _.
    apply elem_of_list_to_set. apply every_byte_complete.
  - vm_compute. lia.
Qed.

Lemma numeric_entries_lookup (b : Heuristic.basic_features) :
  let m : gmap string pyfloat := list_to_map (Heuristic.numeric_entries b) in
  m !! "tempo"%string
    = Some (Fin (inject_Z (80 + Heuristic.file_size b mod 80))) /\
  m !! "chroma_mean"%string
    = Some (Fin (0.3 + Heuristic.header_entropy b * 0.4)) /\
  m !! "duration"%string = Some (Fin (Heuristic.estimated_duration b)).
Proof.
  unfold Heuristic.numeric_entries.
  generalize (Heuristic.header_entropy b) (Heuristic.file_complexity b)
             (Heuristic.file_size b) (Heuristic.estimated_duration b).
  intros e c s d. cbn [list_to_map foldr].
  repeat split; simplify_map_eq; reflexivity.
Qed.

(** C6, as stated, fails: on a file whose first 1024 bytes hold all 256
    byte values the synthesized chroma mean is 0.7, which is not below
    0.7. *)
Lemma chroma_upper_bound_counterexample :
  Samples.every_byte <> [] /\
  exists (f : features) (c : Q),
    Production.method4 Samples.every_byte = Some f /\
    nums f !! "chroma_mean"%string = Some (Fin c) /\
    ~ c < 0.7.
Proof.
  split; [discriminate|].
  eexists _, _. split; [reflexivity|].
  split; [vm_compute; reflexivity|].
  intros H. vm_compute in H. discriminate.
Qed.

(** C6, amended.  For every non-empty file the synthesizer returns a
    vector tagged by the byte heuristic whose tempo lies in [80,160),
    whose chroma mean lies in the closed interval [0.3,0.7], and whose
    duration is at most 60 seconds. *)
Theorem synthesized_bounds (content : list byte) :
  content <> [] ->
  exists (f : features) (tempo chroma duration : Q),
    Production.method4 content = Some f /\
    analysis_method f = Some "basic_file_analysis"%string /\
    nums f !! "tempo"%string = Some (Fin tempo) /\
    80 <= tempo /\ tempo < 160 /\
    nums f !! "chroma_mean"%string = Some (Fin chroma) /\
    0.3 <= chroma /\ chroma <= 0.7 /\
    nums f !! "duration"%string = Some (Fin duration) /\
    duration <= 60.
Proof.
  intros _. unfold Production.method4, Heuristic.analyze_audio_basic_properties,
    Heuristic.convert_basic_to_audio_features.
  set (b := Heuristic.BasicFeatures _ _ _ _).
  destruct (numeric_entries_lookup b) as (Ht & Hc & Hd).
  eexists _, _, _, _. split; [reflexivity|]. cbn [analysis_method nums].
  split; [reflexivity|]. split; [exact Ht|].
  assert (Hmod : (0 <= Z.of_nat (length content) mod 80 < 80)%Z)
    by (apply Z.mod_pos_bound; lia).
  split.
  { subst b. cbn [Heuristic.file_size].
    change 80 with (inject_Z 80). rewrite <- Zle_Qle. lia. }
  split.
  { subst b. cbn [Heuristic.file_size].
    change 160 with (inject_Z 160). rewrite <- Zlt_Qlt. lia. }
  split; [exact Hc|].
  assert (He : 0 <= Heuristic.header_entropy b <= 1).
  { subst b. cbn [Heuristic.header_entropy].
    pose proof (distinct_bytes_bound (take 1024 content)) as Hb.
    set (k := Heuristic.distinct_bytes (take 1024 content)) in *.
    assert (H0 : inject_Z 0 <= inject_Z (Z.of_nat k)) by (rewrite <- Zle_Qle; lia).
    assert (H1 : inject_Z (Z.of_nat k) <= inject_Z 256) by (rewrite <- Zle_Qle; lia).
    change (inject_Z 0) with 0 in H0. change (inject_Z 256) with 256 in H1.
    split.
    - apply Qle_shift_div_l; [reflexivity | lra].
    - apply Qle_shift_div_r; [reflexivity | lra]. }
  split; [lra|]. split; [lra|]. split; [exact Hd|].
  subst b. cbn [Heuristic.estimated_duration].
  match goal with |- context [Qltb ?u ?v] => destruct (Qltb u v) eqn:E end.
  - lra.
  - apply Qltb_false in E. exact E.
Qed.

Lemma synthesized_bounds_witness :
  exists (f : features) (tempo chroma duration : Q),
    Production.method4 Samples.every_byte = Some f /\
    analysis_method f = Some "basic_file_analysis"%string /\
    nums f !! "tempo"%string = Some (Fin tempo) /\
    80 <= tempo /\ tempo < 160 /\
    nums f !! "chroma_mean"%string = Some (Fin chroma) /\
    0.3 <= chroma /\ chroma <= 0.7 /\
    nums f !! "duration"%string = Some (Fin duration) /\
    duration <= 60.
Proof.
  apply (synthesized_bounds Samples.every_byte). discriminate.
Defined.

End HeuristicClaims.

(** * The claims about feature computation on a decoded buffer *)

Section ExtractionClaims.

Local Opaque Qltb.

(** C8.  For every non-empty decoded buffer the normalisation divides the
    samples by the peak only when the peak is strictly positive, and then
    the divisor is not zero; otherwise the buffer is returned as it is.
    When the peak is zero every sample is zero and the buffer is left
    untouched.  A finite buffer stays finite, so no infinity or NaN of a
    division by zero appears. *)
Theorem normalization_skips_silence (y : list pyfloat) :
  y <> [] ->
  exists p : pyfloat,
    Np.peak y = Ok p /\
    (gt p (Fin 0) = true ->
     ~ is_zero p /\ Np.normalize y = Ok (Np.divide y p)) /\
    (gt p (Fin 0) = false -> Np.normalize y = Ok y) /\
    (is_zero p -> Np.normalize y = Ok y /\ Forall is_zero y) /\
    (Forall finite y ->
     exists y', Np.normalize y = Ok y' /\ Forall finite y').
Proof.
  intros Hne.
  assert (Hp : exists p, Np.peak y = Ok p).
  { destruct y; [contradiction|]. eexists. reflexivity. }
  destruct Hp as [p Hp]. exists p. split; [exact Hp|].
  assert (Hskip : gt p (Fin 0) = false -> Np.normalize y = Ok y).
  { intros Hg. unfold Np.normalize. rewrite Hp. cbn [mbind outcome_bind].
    now rewrite Hg. }
  assert (Hz : is_zero p -> gt p (Fin 0) = false).
  { intros (z & -> & Hz). apply Qltb_false. lra. }
  split.
  { intros Hg. split.
    - intros H0. apply Hz in H0. congruence.
    - unfold Np.normalize. rewrite Hp. cbn [mbind outcome_bind].
      now rewrite Hg. }
  split; [exact Hskip|]. split.
  { intros H0. split; [apply Hskip, Hz, H0 | exact (peak_zero y p Hp H0)]. }
  intros Hfin.
  destruct (peak_of_finite y Hne Hfin) as (z & Hpz & Hz0).
  rewrite Hpz in Hp. injection Hp as <-.
  unfold Np.normalize. rewrite Hpz. cbn [mbind outcome_bind].
  destruct (gt (Fin z) (Fin 0)) eqn:Hg.
  - eexists. split; [reflexivity|].
    apply Qltb_true in Hg. unfold Np.divide.
    apply List.Forall_forall. intros s Hs.
    apply in_map_iff in Hs. destruct Hs as (t & <- & Ht).
    rewrite List.Forall_forall in Hfin. destruct (Hfin t Ht) as [q ->].
    unfold Np.divide1.
    assert (E : Qeq_bool z 0 = false).
    { destruct (Qeq_bool z 0) eqn:E; [|reflexivity].
      apply Qeq_bool_iff in E. lra. }
    rewrite E. eexists. reflexivity.
  - exists y. split; [reflexivity | exact Hfin].
Qed.

Lemma normalization_skips_silence_witness :
  exists p : pyfloat,
    Np.peak Samples.clip = Ok p /\
    (gt p (Fin 0) = true ->
     ~ is_zero p /\ Np.normalize Samples.clip = Ok (Np.divide Samples.clip p)) /\
    (gt p (Fin 0) = false -> Np.normalize Samples.clip = Ok Samples.clip) /\
    (is_zero p -> Np.normalize Samples.clip = Ok Samples.clip /\
                  Forall is_zero Samples.clip) /\
    (Forall finite Samples.clip ->
     exists y', Np.normalize Samples.clip = Ok y' /\ Forall finite y').
Proof.
  apply (normalization_skips_silence Samples.clip). discriminate.
Defined.

(** C9, as stated, fails: an infinite tempo estimate is not NaN, so the
    guard lets it through and the stored tempo is infinite, not 120. *)
Lemma infinite_tempo_counterexample :
  Collab.beat_track Samples.infinite_tempo Samples.clip 22050 = Ok (PInf, 0%nat) /\
  exists f : features,
    Production.extract_librosa_features Samples.infinite_tempo Samples.clip 22050
      = Some f /\
    nums f !! "tempo"%string = Some PInf /\
    isfinite PInf = false /\ PInf <> Fin 120.
Proof.
  split; [reflexivity|].
  eexists. split; [reflexivity|].
  split; [vm_compute; reflexivity|]. split; [reflexivity | discriminate].
Qed.

(** C9, amended.  In both extractors the tempo step stores 120 whenever
    the tempo estimate is NaN or the estimation raises, and stores every
    other estimate as it is: the stored tempo is never NaN, and it is
    finite unless the estimate is infinite. *)
Theorem tempo_guard_replaces_nan (W : world) (y : list pyfloat) (sr : Z)
    (f : features) :
  exists t1 t2 : pyfloat,
    nums (Production.tempo_step (lib W) y sr f) !! "tempo"%string = Some t1 /\
    nums (Robust.tempo_step W y sr f) !! "tempo"%string = Some t2 /\
    t1 = t2 /\ isnan t1 = false /\
    (forall e, beat_track (lib W) y sr = Raise e -> t1 = Fin 120) /\
    (forall v b, beat_track (lib W) y sr = Ok (v, b) ->
       (isnan v = true -> t1 = Fin 120) /\
       (isnan v = false -> t1 = v)) /\
    (forall f', Production.extract_librosa_features (lib W) y sr = Some f' ->
       exists t, nums f' !! "tempo"%string = Some t /\ isnan t = false).
Proof.
  assert (Hfinal : forall f',
            Production.extract_librosa_features (lib W) y sr = Some f' ->
            exists t, nums f' !! "tempo"%string = Some t /\ isnan t = false).
  { intros f'. unfold Production.extract_librosa_features,
      Production.librosa_features_body.
    destruct (Np.normalize y) as [y'|]; cbn [mbind outcome_bind]; [|discriminate].
    destruct (Production.truediv _ sr); cbn [mbind outcome_bind]; [|discriminate].
    destruct (Np.max y'); cbn [mbind outcome_bind]; [|discriminate].
    intros [= <-]. cbn [set nums].
    rewrite !lookup_insert_ne by discriminate.
    unfold Production.guarded_steps, Production.additional_step.
    set (g := Production.rms_step (lib W) y' _).
    assert (Ht : exists t, nums (Production.tempo_step (lib W) y' sr g)
                             !! "tempo"%string = Some t /\ isnan t = false).
    { unfold Production.tempo_step, Production.guard_tempo.
      destruct (beat_track (lib W) y' sr) as [[v b]|e]; cbn [set nums];
        rewrite lookup_insert_eq; eexists; (split; [reflexivity|]);
        [destruct v|]; reflexivity. }
    destruct (spectral_rolloff (lib W) y' sr);
      [destruct (chroma_stft (lib W) y' sr) as [[c ?]|]|];
      cbn [set nums]; rewrite !lookup_insert_ne by discriminate; exact Ht. }
  unfold Production.tempo_step, Robust.tempo_step, Production.guard_tempo.
  destruct (beat_track (lib W) y sr) as [[v b]|e].
  - exists (if negb (isnan v) then v else Fin 120),
           (if negb (isnan v) then v else Fin 120).
    cbn [set nums]. split; [apply lookup_insert_eq|].
    split; [rewrite lookup_insert_ne by discriminate; apply lookup_insert_eq|].
    split; [reflexivity|]. split; [destruct v; reflexivity|].
    split; [discriminate|]. split; [|exact Hfinal].
    intros v' b' [= <- <-]. split; intros ->; reflexivity.
  - exists (Fin 120), (Fin 120).
    cbn [set nums]. split; [apply lookup_insert_eq|].
    split; [rewrite lookup_insert_ne by discriminate; apply lookup_insert_eq|].
    split; [reflexivity|]. split; [reflexivity|].
    split; [reflexivity|]. split; [discriminate | exact Hfinal].
Qed.

Lemma tempo_guard_replaces_nan_witness :
  let W := Samples.world_of Samples.nan_tempo "20250101_120000" in
  exists t : pyfloat,
    nums (Production.tempo_step (lib W) Samples.clip 22050 Py.empty)
      !! "tempo"%string = Some t /\
    t = Fin 120.
Proof.
  intros W.
  destruct (tempo_guard_replaces_nan W Samples.clip 22050 Py.empty)
    as (t1 & t2 & H1 & _ & _ & _ & _ & Hv & _).
  exists t1. split; [exact H1|].
  apply (Hv NaN 0%nat); reflexivity.
Defined.

(** C2: the rolloff and the chroma share one guarded block in
    [app_production.py].  On a buffer whose rolloff is computed as 3000 and
    whose chroma computation raises, the block stores the default 2000 for
    the rolloff as well, while the extractor of [app_robust.py], where the
    chroma has a block of its own, keeps the computed 3000. *)
Theorem chroma_failure_discards_rolloff :
  spectral_rolloff Samples.chroma_fails Samples.clip 22050 = Ok (Fin 3000) /\
  raised (chroma_stft Samples.chroma_fails Samples.clip 22050) = true /\
  (exists f : features,
     Production.extract_librosa_features Samples.chroma_fails Samples.clip 22050
       = Some f /\
     nums f !! "chroma_mean"%string = Some (Fin 0.5) /\
     nums f !! "spectral_rolloff"%string = Some (Fin 2000)) /\
  (exists g : features,
     Robust.extract_audio_features_robust
       (Samples.world_of Samples.chroma_fails "20250101_120000") Samples.wav_header
       = Some g /\
     nums g !! "chroma_mean"%string = Some (Fin 0.5) /\
     nums g !! "spectral_rolloff"%string = Some (Fin 3000)).
Proof.
  split; [reflexivity|]. split; [reflexivity|]. split.
  - eexists. split; [reflexivity|]. split; vm_compute; reflexivity.
  - eexists. split; [reflexivity|]. split; vm_compute; reflexivity.
Qed.


(** C1: a non-empty file is answered with an error.  For a container that
    decodes to no samples at 22050 Hz, method 1 is skipped by its length
    test, the path is not a [.webm] one, and method 3 hands the empty
    buffer to [extract_librosa_features], whose [None] is returned at
    once: the byte-heuristic synthesizer, which succeeds on these bytes,
    is never reached and the handler answers with status 500. *)
Theorem empty_decode_bypasses_heuristic :
  let W := Samples.world_of Samples.no_frames "20250101_120000" in
  Samples.wav_header <> [] /\
  load (lib W) Samples.wav_header None = Ok ([], 22050%Z) /\
  Production.extract_audio_features_multiple_methods W
    (Handler.temp_path W "clip.wav") Samples.wav_header = None /\
  (exists f, Production.method4 Samples.wav_header = Some f) /\
  exists msg,
    Handler.analyze_audio W (Some (Handler.Upload "clip.wav" Samples.wav_header))
      = Handler.Error 500 msg.
Proof.
  split; [discriminate|]. split; [reflexivity|]. split; [reflexivity|].
  split; [eexists; reflexivity|]. eexists. reflexivity.
Qed.

End ExtractionClaims.

(** * Determinism *)

Section DeterminismClaims.

(** C7.  The scorer's result is a function of what it reads from the
    feature vector and of nothing else: two vectors that agree on the
    scored keys, on the provenance tag and on their number of entries get
    the same score table, label and confidence.  The extraction and
    scoring that the handler runs on the saved file give the same
    FeatureVector and AnalysisResult for the same bytes and file name in
    any two worlds with the same collaborators, whatever their clocks
    say. *)
Theorem analysis_is_deterministic (f g : features) (W1 W2 : world)
    (name : string) (bytes : list byte) :
  (Forall (fun k => nums f !! k = nums g !! k) scored_keys ->
   analysis_method f = analysis_method g ->
   len f = len g ->
   analyze_emotion_robust f = analyze_emotion_robust g) /\
  (same_collaborators W1 W2 ->
   Handler.analyze_saved W1 name bytes = Handler.analyze_saved W2 name bytes).
Proof.
  split.
  - intros Hk Hm Hl. unfold scored_keys in Hk.
    repeat match goal with
           | H : Forall _ (_ :: _) |- _ =>
               let E := fresh "E" in
               apply Forall_cons in H; destruct H as [E H]
           end.
    unfold analyze_emotion_robust, accumulated, get.
    now rewrite E, E0, E1, E2, E3, Hm, Hl.
  - intros [Hlib Hff]. unfold Handler.analyze_saved.
    assert (E : Production.extract_audio_features_multiple_methods W1
                  (Handler.temp_path W1 name) bytes
                = Production.extract_audio_features_multiple_methods W2
                  (Handler.temp_path W2 name) bytes).
    { unfold Production.extract_audio_features_multiple_methods,
        Production.method2, Production.method3,
        Production.convert_webm_to_wav_ffmpeg.
      now rewrite !temp_path_webm, Hlib, Hff. }
    now rewrite E.
Qed.

Lemma analysis_is_deterministic_witness :
  analyze_emotion_robust Samples.a_with_mfcc
    = analyze_emotion_robust Samples.a_with_chroma /\
  Handler.analyze_saved (Samples.world_of Samples.undecodable "20250101_120000")
      "clip.webm" Samples.wav_header
    = Handler.analyze_saved (Samples.world_of Samples.undecodable "20260202_130000")
      "clip.webm" Samples.wav_header.
Proof.
  destruct (analysis_is_deterministic Samples.a_with_mfcc Samples.a_with_chroma
              (Samples.world_of Samples.undecodable "20250101_120000")
              (Samples.world_of Samples.undecodable "20260202_130000")
              "clip.webm" Samples.wav_header) as [Hscore Hrun].
  split.
  - apply Hscore; [|reflexivity|vm_compute; reflexivity].
    repeat constructor; vm_compute; reflexivity.
  - apply Hrun. split; reflexivity.
Defined.

End DeterminismClaims.

(** * Further properties of the scorer of [app_production.py] *)

Section SelectionFacts.

Local Opaque Qltb.

Lemma lt_trans (x y z : pyfloat) : lt x y = true -> lt y z = true -> lt x z = true.
Proof.
  destruct x, y, z; simpl; try congruence.
  rewrite !Qltb_true. lra.
Qed.

Lemma lt_of_not_below (x y z : pyfloat) :
  isnan x = false -> lt y x = false -> lt y z = true -> lt x z = true.
Proof.
  destruct x, y, z; simpl; try congruence.
  rewrite Qltb_false, !Qltb_true. lra.
Qed.

(** [max] returns the first key, in insertion order, that carries the
    largest value: the values before it are strictly smaller and no value
    after it is larger. *)
Lemma max_from_first (t : score_table) (best : emotion * pyfloat) :
  Forall (fun p => isnan (snd p) = false) (best :: t) ->
  exists pre post v,
    best :: t = pre ++ (max_from best t, v) :: post /\
    Forall (fun p => lt (snd p) v = true) pre /\
    Forall (fun p => not_below v (snd p)) post.
Proof.
  revert best. induction t as [|p t IH]; intros best Hn; simpl.
  - exists [], [], (snd best). split; [now destruct best|]. split; constructor.
  - inversion Hn as [|? ? Hb Hn']; subst.
    inversion Hn' as [|? ? Hp Ht]; subst.
    destruct (gt (snd p) (snd best)) eqn:E.
    + destruct (IH p) as (pre & post & v & Heq & Hpre & Hpost); [now constructor|].
      exists (best :: pre), post, v. split; [simpl; now rewrite Heq|].
      split; [|exact Hpost]. constructor; [|exact Hpre].
      destruct pre as [|p' pre].
      * simpl in Heq. injection Heq as Hp' _. rewrite Hp' in E. exact E.
      * simpl in Heq. injection Heq as <- _.
        inversion Hpre; subst. now apply (lt_trans _ (snd p)).
    + destruct (IH best) as (pre & post & v & Heq & Hpre & Hpost); [now constructor|].
      destruct pre as [|p' pre].
      * simpl in Heq. injection Heq as Hbest Hpt.
        exists [], (p :: t), v. split; [simpl; f_equal; exact Hbest|].
        split; [constructor|]. constructor; [|now rewrite Hpt].
        unfold not_below.
        replace v with (snd best) by (now rewrite Hbest). exact E.
      * simpl in Heq. injection Heq as <- Hpt.
        exists (best :: p :: pre), post, v.
        split; [simpl; do 2 f_equal; exact Hpt|].
        split; [|exact Hpost].
        inversion Hpre as [|? ? Hbv Hpre']; subst.
        constructor; [exact Hbv|]. constructor; [|exact Hpre'].
        now apply (lt_of_not_below (snd p) (snd best) v).
Qed.

Lemma final_scores_nonan (f : features) :
  Forall (fun p => isnan (snd p) = false) (final_scores f).
Proof.
  destruct (final_scores_cases f) as (a & b & c & d & n & _ & _ & [(x & _ & ->) | (_ & ->)]);
    repeat constructor.
Qed.

(** X1.  The label the scorer returns carries a largest score of the
    returned table, and among equal largest scores it is the first in the
    order Alegria, Tristeza, Ansiedad, Enojo, Neutral: every entry before
    it is strictly smaller and no entry after it is larger. *)
Theorem dominant_is_first_maximum (f : features) :
  len f <> 0%nat ->
  exists (r : analysis) (pre post : score_table) (v : pyfloat),
    analyze_emotion_robust f = Ok (Some r) /\
    map fst (scores r) = [Alegria; Tristeza; Ansiedad; Enojo; Neutral] /\
    scores r = pre ++ (emotion_of r, v) :: post /\
    score (emotion_of r) (scores r) = v /\
    Forall (fun p => lt (snd p) v = true) pre /\
    Forall (fun p => lt v (snd p) = false) post.
Proof.
  intros Hlen.
  destruct (analyze_run f Hlen) as (e & base & n & Hrun & _).
  pose proof Hrun as Hrun'. rewrite (analyze_unfold f Hlen) in Hrun'.
  assert (Hkeys : map fst (final_scores f)
                  = [Alegria; Tristeza; Ansiedad; Enojo; Neutral]).
  { destruct (final_scores_cases f)
      as (a & b & c & d & n' & _ & _ & [(x & _ & ->) | (_ & ->)]); reflexivity. }
  destruct (final_scores f) as [|best t] eqn:Ht; [discriminate|].
  destruct (max_from_first t best) as (pre & post & v & Heq & Hpre & Hpost).
  { rewrite <- Ht. apply final_scores_nonan. }
  assert (He : e = max_from best t).
  { cbn [max_key mbind outcome_bind] in Hrun'.
    destruct (confidence_base _ _); cbn [mbind outcome_bind] in Hrun';
      [|discriminate].
    injection Hrun' as Hrun'. congruence. }
  eexists _, pre, post, v. split; [exact Hrun|]. cbn [scores emotion_of].
  split; [exact Hkeys|]. rewrite He. split; [exact Heq|].
  split; [|split; assumption].
  assert (Hin : In (max_from best t, v) (best :: t)).
  { rewrite Heq. apply in_or_app. right. now left. }
  destruct (final_scores_cases f)
    as (a & b & c & d & n' & _ & _ & [(x & _ & Hf) | (_ & Hf)]);
    rewrite Ht in Hf; rewrite Hf in Hin |- *; now apply in_table5.
Qed.

Lemma dominant_is_first_maximum_witness :
  exists (r : analysis) (pre post : score_table) (v : pyfloat),
    analyze_emotion_robust Samples.scenario_b = Ok (Some r) /\
    map fst (scores r) = [Alegria; Tristeza; Ansiedad; Enojo; Neutral] /\
    scores r = pre ++ (emotion_of r, v) :: post /\
    score (emotion_of r) (scores r) = v /\
    Forall (fun p => lt (snd p) v = true) pre /\
    Forall (fun p => lt v (snd p) = false) post.
Proof.
  apply (dominant_is_first_maximum Samples.scenario_b). vm_compute. discriminate.
Defined.

End SelectionFacts.

Section BoundFacts.

Local Opaque Qltb.

Lemma gt_weaken (x : pyfloat) (c c' : Q) :
  c' <= c -> gt x (Fin c) = true -> gt x (Fin c') = true.
Proof.
  intros Hc. destruct x; simpl; try congruence.
  rewrite !Qltb_true. lra.
Qed.

Ltac split_rule :=
  repeat match goal with
         | |- context [if ?c then _ else _] => destruct c eqn:?
         end.

Ltac close_step :=
  cbn; repeat eexists; try lra; try reflexivity.

Lemma tempo_rule_step (x : pyfloat) (a b c d n : Q) :
  exists a' b' c' n',
    tempo_rule x (table5 (Fin a) (Fin b) (Fin c) (Fin d) (Fin n))
      = table5 (Fin a') (Fin b') (Fin c') (Fin d) (Fin n') /\
    (a <= a' /\ a' <= a + 20) /\ (b <= b' /\ b' <= b + 20) /\
    (c <= c' /\ c' <= c + 15) /\ (n <= n' /\ n' <= n + 8).
Proof. unfold tempo_rule. split_rule; close_step. Qed.

Lemma centroid_rule_step (x : pyfloat) (a b c d n : Q) :
  exists a' b' c' n',
    centroid_rule x (table5 (Fin a) (Fin b) (Fin c) (Fin d) (Fin n))
      = table5 (Fin a') (Fin b') (Fin c') (Fin d) (Fin n') /\
    (a <= a' /\ a' <= a + 15) /\ (b <= b' /\ b' <= b + 15) /\
    (c <= c' /\ c' <= c + 12) /\ (n <= n' /\ n' <= n + 5).
Proof. unfold centroid_rule. split_rule; close_step. Qed.

Lemma rms_rule_step (x : pyfloat) (a b c d n : Q) :
  exists a' b' d' n',
    rms_rule x (table5 (Fin a) (Fin b) (Fin c) (Fin d) (Fin n))
      = table5 (Fin a') (Fin b') (Fin c) (Fin d') (Fin n') /\
    (a <= a' /\ a' <= a + 12) /\ (b <= b' /\ b' <= b + 15) /\
    (d <= d' /\ d' <= d + 18) /\ (n <= n' /\ n' <= n + 6) /\
    (gt x (Fin 0.15) = false -> d' = d).
Proof.
  unfold rms_rule.
  destruct (gt x (Fin 0.2)) eqn:E1.
  { pose proof (gt_weaken x 0.2 0.15 ltac:(lra) E1) as G.
    eexists _, _, _, _. split; [cbn; reflexivity|].
    repeat (split; [lra|]). intros H. congruence. }
  destruct (gt x (Fin 0.15)) eqn:E2.
  { eexists _, _, _, _. split; [cbn; reflexivity|].
    repeat (split; [lra|]). discriminate. }
  split_rule; eexists _, _, _, _; (split; [cbn; reflexivity|]);
    repeat (split; [lra|]); reflexivity.
Qed.

Lemma zcr_rule_step (x : pyfloat) (a b c d n : Q) :
  exists b' c' d' n',
    zcr_rule x (table5 (Fin a) (Fin b) (Fin c) (Fin d) (Fin n))
      = table5 (Fin a) (Fin b') (Fin c') (Fin d') (Fin n') /\
    (b <= b' /\ b' <= b + 10) /\ (c <= c' /\ c' <= c + 18) /\
    (d <= d' /\ d' <= d + 10) /\ (n <= n' /\ n' <= n + 6) /\
    (gt x (Fin 0.1) = false -> d' = d).
Proof.
  unfold zcr_rule.
  destruct (gt x (Fin 0.1)) eqn:E1.
  { eexists _, _, _, _. split; [cbn; reflexivity|].
    repeat (split; [lra|]). discriminate. }
  split_rule; eexists _, _, _, _; (split; [cbn; reflexivity|]);
    repeat (split; [lra|]); reflexivity.
Qed.

(** The accumulated table, with the range of each entry. *)
Lemma accumulated_bounds (f : features) :
  exists a b c d n : Q,
    accumulated f = table5 (Fin a) (Fin b) (Fin c) (Fin d) (Fin n) /\
    (5 <= a /\ a <= 52) /\ (5 <= b /\ b <= 65) /\ (5 <= c /\ c <= 50) /\
    (5 <= d /\ d <= 33) /\ (10 <= n /\ n <= 35) /\
    (gt (get f "rms" (Fin 0.1)) (Fin 0.15) = false ->
     gt (get f "zcr" (Fin 0.05)) (Fin 0.1) = false -> d = 5).
Proof.
  unfold accumulated.
  change initial_scores with (table5 (Fin 5) (Fin 5) (Fin 5) (Fin 5) (Fin 10)).
  destruct (tempo_rule_step (get f "tempo" (Fin 120)) 5 5 5 5 10)
    as (a1 & b1 & c1 & n1 & -> & Ha1 & Hb1 & Hc1 & Hn1).
  destruct (centroid_rule_step (get f "spectral_centroid" (Fin 1500)) a1 b1 c1 5 n1)
    as (a2 & b2 & c2 & n2 & -> & Ha2 & Hb2 & Hc2 & Hn2).
  destruct (rms_rule_step (get f "rms" (Fin 0.1)) a2 b2 c2 5 n2)
    as (a3 & b3 & d3 & n3 & -> & Ha3 & Hb3 & Hd3 & Hn3 & Hr).
  destruct (zcr_rule_step (get f "zcr" (Fin 0.05)) a3 b3 c2 d3 n3)
    as (b4 & c4 & d4 & n4 & -> & Hb4 & Hc4 & Hd4 & Hn4 & Hz).
  exists a3, b4, c4, d4, n4. split; [reflexivity|].
  repeat (split; [lra|]).
  intros H1 H2. now rewrite (Hz H2), (Hr H1).
Qed.

(** X2.  For every non-empty feature vector whose duration is not negative
    the scores of the returned table stay in fixed ranges: Alegria in
    [0,52], Tristeza in [0,65], Ansiedad in [0,50], Enojo in [0,33] and
    Neutral in [10,35]. *)
Theorem scores_are_bounded (f : features) :
  len f <> 0%nat ->
  lt (get f "duration" (Fin 10)) (Fin 0) = false ->
  exists r : analysis,
    analyze_emotion_robust f = Ok (Some r) /\
    between 0 52 (score Alegria (scores r)) /\
    between 0 65 (score Tristeza (scores r)) /\
    between 0 50 (score Ansiedad (scores r)) /\
    between 0 33 (score Enojo (scores r)) /\
    between 10 35 (score Neutral (scores r)).
Proof.
  intros Hlen Hdur.
  destruct (analyze_run f Hlen) as (e & base & n0 & Hrun & _).
  eexists. split; [exact Hrun|]. cbn [scores].
  destruct (accumulated_bounds f)
    as (a & b & c & d & n & Hacc & Ha & Hb & Hc & Hd & Hn & _).
  destruct (duration_factor_cases (get f "duration" (Fin 10)))
    as [(x & Hx & Hx1 & Hx0 & _) | [Hd' _]];
    [|rewrite Hd' in Hdur; discriminate].
  specialize (Hx0 Hdur).
  unfold final_scores. rewrite Hacc, Hx, damp_table5. cbn.
  unfold between. repeat split; eexists; (split; [reflexivity|]); nra.
Qed.

Lemma scores_are_bounded_witness :
  exists r : analysis,
    analyze_emotion_robust Samples.scenario_a = Ok (Some r) /\
    between 0 52 (score Alegria (scores r)) /\
    between 0 65 (score Tristeza (scores r)) /\
    between 0 50 (score Ansiedad (scores r)) /\
    between 0 33 (score Enojo (scores r)) /\
    between 10 35 (score Neutral (scores r)).
Proof.
  apply (scores_are_bounded Samples.scenario_a);
    [vm_compute; discriminate | reflexivity].
Defined.

(** X3.  A clip shorter than 1.5 seconds is labelled Neutral whatever its
    other features are: every other score of the returned table is below
    the 10 that Neutral starts from. *)
Theorem short_clip_is_neutral (f : features) :
  len f <> 0%nat ->
  lt (get f "duration" (Fin 10)) (Fin 1.5) = true ->
  exists r : analysis,
    analyze_emotion_robust f = Ok (Some r) /\
    emotion_of r = Neutral /\
    forall e, e <> Neutral -> lt (score e (scores r)) (Fin 10) = true.
Proof.
  intros Hlen Hdur.
  destruct (analyze_run f Hlen) as (e & base & n0 & Hrun & Hn0 & Hn10 & _ & Hcase).
  eexists. split; [exact Hrun|]. cbn [scores emotion_of].
  destruct (accumulated_bounds f)
    as (a & b & c & d & n & Hacc & Ha & Hb & Hc & Hd & Hn & _).
  destruct (duration_factor_cases (get f "duration" (Fin 10)))
    as [(x & Hx & Hx1 & _ & Hxq) | [Hd' Hx]].
  - assert (Hx15 : x < 0.15).
    { destruct (get f "duration" (Fin 10)) as [q| | |]; try discriminate.
      apply Qltb_true in Hdur. destruct (Hxq q eq_refl) as [Hlow _].
      rewrite Hlow by lra. apply Qlt_shift_div_r; lra. }
    assert (Hfin : final_scores f
                   = table5 (Fin (a * x)) (Fin (b * x)) (Fin (c * x)) (Fin (d * x))
                            (Fin n)).
    { unfold final_scores. now rewrite Hacc, Hx, damp_table5. }
    assert (Hlow : forall e', e' <> Neutral ->
              exists s, score e' (final_scores f) = Fin s /\ s < 10).
    { intros e' He'. rewrite Hfin.
      destruct e'; try contradiction; cbn; eexists; (split; [reflexivity|]); nra. }
    split.
    + destruct Hcase as [(_ & -> & _) | (x' & m & _ & _ & _ & Hm & Hnm & _)];
        [reflexivity|].
      destruct e; try reflexivity;
        match goal with
        | H : score ?k _ = Fin m |- _ =>
            destruct (Hlow k) as (s & Hs & Hs10); [discriminate|];
            rewrite Hs in H; injection H as <-; lra
        end.
    + intros e' He'. destruct (Hlow e' He') as (s & -> & Hs).
      now apply Qltb_true.
  - split.
    + destruct Hcase as [(_ & -> & _) | (x' & _ & _ & _ & Hx' & _)];
        [reflexivity | rewrite Hx in Hx'; discriminate].
    + intros e' He'. unfold final_scores. rewrite Hacc, Hx, damp_table5.
      rewrite !mul_fin_ninf by lra.
      destruct e'; try contradiction; reflexivity.
Qed.

Lemma short_clip_is_neutral_witness :
  exists r : analysis,
    analyze_emotion_robust (Samples.vector 150 2500 0.25 0.05 1.2 None) = Ok (Some r) /\
    emotion_of r = Neutral /\
    forall e, e <> Neutral -> lt (score e (scores r)) (Fin 10) = true.
Proof.
  apply (short_clip_is_neutral (Samples.vector 150 2500 0.25 0.05 1.2 None));
    [vm_compute; discriminate | reflexivity].
Defined.

End BoundFacts.

Section DefaultFacts.



End DefaultFacts.

(** * Further properties of the byte-heuristic synthesizer *)

Section SynthesizerFacts.

Local Opaque Qltb.

Lemma fmod_bounds (x m : Q) : 0 < m -> 0 <= Heuristic.fmod x m /\ Heuristic.fmod x m < m.
Proof.
  intros Hm. unfold Heuristic.fmod.
  pose proof (Qfloor_le (x / m)) as Hlo.
  pose proof (Qlt_floor (x / m)) as Hhi.
  rewrite inject_Z_plus in Hhi. change (inject_Z 1) with 1 in Hhi.
  set (k := inject_Z (Qfloor (x / m))) in *.
  assert (Hx : x == (x / m) * m) by (field; lra).
  set (y := x / m) in *. nra.
Qed.

Lemma header_entropy_bounds (content : list byte) :
  forall b, Heuristic.analyze_audio_basic_properties content = Some b ->
  0 <= Heuristic.header_entropy b /\ Heuristic.header_entropy b <= 1 /\
  0 <= Heuristic.estimated_duration b /\ Heuristic.estimated_duration b <= 60 /\
  0 <= Heuristic.file_complexity b.
Proof.
  intros b [= <-]. cbn.
  pose proof (distinct_bytes_bound (take 1024 content)) as Hb.
  set (k := Heuristic.distinct_bytes (take 1024 content)) in *.
  assert (H0 : inject_Z 0 <= inject_Z (Z.of_nat k)) by (rewrite <- Zle_Qle; lia).
  assert (H1 : inject_Z (Z.of_nat k) <= inject_Z 256) by (rewrite <- Zle_Qle; lia).
  assert (H2 : inject_Z 0 <= inject_Z (Z.of_nat (length content)))
    by (rewrite <- Zle_Qle; lia).
  change (inject_Z 0) with 0 in H0, H2. change (inject_Z 256) with 256 in H1.
  split; [apply Qle_shift_div_l; [reflexivity | lra]|].
  split; [apply Qle_shift_div_r; [reflexivity | lra]|].
  assert (Hd : 0 <= inject_Z (Z.of_nat (length content)) / (44100 * 2)).
  { apply Qle_shift_div_l; [reflexivity | lra]. }
  split; [|split].
  - match goal with |- context [Qltb ?u ?v] => destruct (Qltb u v) end; lra.
  - match goal with |- context [Qltb ?u ?v] => destruct (Qltb u v) eqn:E end;
      [lra | now apply Qltb_false in E].
  - apply Qle_shift_div_l; [reflexivity | lra].
Qed.

Lemma numeric_entries_values (b : Heuristic.basic_features) :
  let m : gmap string pyfloat := list_to_map (Heuristic.numeric_entries b) in
  let e := Heuristic.header_entropy b in
  let c := Heuristic.file_complexity b in
  m !! "mfcc_mean"%string = Some (Fin ((e - 0.5) * 20)) /\
  m !! "mfcc_std"%string = Some (Fin (e * 15)) /\
  m !! "spectral_centroid"%string = Some (Fin (1000 + Heuristic.fmod c 1000)) /\
  m !! "zcr"%string = Some (Fin (0.03 + e * 0.05)) /\
  m !! "rms"%string = Some (Fin (0.05 + Heuristic.fmod c 100 / 1000)) /\
  m !! "spectral_rolloff"%string = Some (Fin (1500 + Heuristic.fmod c 1500)) /\
  m !! "audio_std"%string = Some (Fin (0.05 + e * 0.1)) /\
  m !! "audio_max"%string = Some (Fin (0.5 + e * 0.5)).
Proof.
  unfold Heuristic.numeric_entries.
  generalize (Heuristic.header_entropy b) (Heuristic.file_complexity b)
             (Heuristic.file_size b) (Heuristic.estimated_duration b).
  intros e c s d. cbn [list_to_map foldr].
  repeat split; simplify_map_eq; reflexivity.
Qed.

Lemma div_1000 (x : Q) : x / 1000 == x * (1 # 1000).
Proof. field. Qed.

Lemma method4_shape (content : list byte) :
  exists f : features,
    Production.method4 content = Some f /\
    analysis_method f = Some "basic_file_analysis"%string /\
    dom (nums f) = librosa_keys /\ len f = 12%nat /\
    between (-10) 10 (get f "mfcc_mean" NaN) /\
    between 0 15 (get f "mfcc_std" NaN) /\
    between 1000 2000 (get f "spectral_centroid" NaN) /\
    between 0.03 0.08 (get f "zcr" NaN) /\
    between 0.05 0.15 (get f "rms" NaN) /\
    between 1500 3000 (get f "spectral_rolloff" NaN) /\
    between 0.05 (0.15 + rounding_slack) (get f "audio_std" NaN) /\
    between 0.5 1 (get f "audio_max" NaN) /\
    between 0 60 (get f "duration" NaN).
Proof.
  unfold Production.method4.
  destruct (Heuristic.analyze_audio_basic_properties content) as [b|] eqn:Hb;
    [|discriminate].
  destruct (header_entropy_bounds content b Hb) as (He0 & He1 & Hd0 & Hd1 & Hc0).
  destruct (numeric_entries_values b) as (V1 & V2 & V3 & V4 & V5 & V6 & V7 & V8).
  destruct (numeric_entries_lookup b) as (_ & _ & V9).
  destruct (fmod_bounds (Heuristic.file_complexity b) 1000) as [F1 F2]; [lra|].
  destruct (fmod_bounds (Heuristic.file_complexity b) 100) as [F3 F4]; [lra|].
  destruct (fmod_bounds (Heuristic.file_complexity b) 1500) as [F5 F6]; [lra|].
  eexists. split; [reflexivity|]. cbn [analysis_method nums].
  split; [reflexivity|].
  assert (Hdom : dom (list_to_map (Heuristic.numeric_entries b) : gmap string pyfloat)
                 = librosa_keys).
  { rewrite dom_list_to_map_L. reflexivity. }
  split; [exact Hdom|]. split.
  { unfold len. cbn [nums analysis_method].
    rewrite <- (size_dom (D := gset string)), Hdom. reflexivity. }
  unfold between, rounding_slack, get. cbn [nums].
  rewrite V1, V2, V3, V4, V5, V6, V7, V8, V9. cbn [default].
  repeat split; eexists; (split; [reflexivity|]);
    rewrite ?div_1000; split; lra.
Qed.

(** X5.  Whatever the bytes, the synthesizer returns a vector with the
    byte-heuristic tag and exactly the eleven numeric keys of a decoded
    vector, twelve entries in all, and every value lies in a fixed range:
    MFCC mean in [-10,10], MFCC deviation in [0,15], centroid in
    [1000,2000], zero-crossing rate in [0.03,0.08], RMS in [0.05,0.15],
    rolloff in [1500,3000], sample maximum in [0.5,1] and duration in
    [0,60].  The sample deviation is at least 0.05 and at most 0.15 up
    to rounding: the floating-point sum [0.05 + 1.0 * 0.1] of a header
    with all 256 byte values lies just above 0.15. *)
Theorem synthesized_vector_is_complete (content : list byte) :
  exists f : features,
    Production.method4 content = Some f /\
    analysis_method f = Some "basic_file_analysis"%string /\
    dom (nums f) = librosa_keys /\ len f = 12%nat /\
    between (-10) 10 (get f "mfcc_mean" NaN) /\
    between 0 15 (get f "mfcc_std" NaN) /\
    between 1000 2000 (get f "spectral_centroid" NaN) /\
    between 0.03 0.08 (get f "zcr" NaN) /\
    between 0.05 0.15 (get f "rms" NaN) /\
    between 1500 3000 (get f "spectral_rolloff" NaN) /\
    between 0.05 (0.15 + rounding_slack) (get f "audio_std" NaN) /\
    between 0.5 1 (get f "audio_max" NaN) /\
    between 0 60 (get f "duration" NaN).
Proof. exact (method4_shape content). Qed.

Lemma method4_analysis (content : list byte) :
  exists (f : features) (r : analysis),
    Production.method4 content = Some f /\
    analyze_emotion_robust f = Ok (Some r) /\
    emotion_of r <> Enojo /\
    method_of r = "basic_file_analysis"%string /\
    (60 <= confidence r <= 85)%Z /\
    between 0 5 (score Enojo (scores r)).
Proof.
  destruct (method4_shape content)
    as (f & Hf & Hm & _ & Hlen & _ & _ & _ & Hz & Hr & _ & _ & _ & Hd).
  assert (Hlen' : len f <> 0%nat) by (rewrite Hlen; discriminate).
  destruct (analyze_run f Hlen') as (e & base & n & Hrun & Hn & Hn10 & _ & Hcase).
  exists f. eexists. split; [exact Hf|]. split; [exact Hrun|].
  cbn [emotion_of method_of confidence scores]. rewrite Hm.
  change (default "librosa"%string (Some "basic_file_analysis"%string))
    with "basic_file_analysis"%string.
  assert (Hrms : get f "rms" (Fin 0.1) = get f "rms" NaN /\
                 get f "zcr" (Fin 0.05) = get f "zcr" NaN /\
                 get f "duration" (Fin 10) = get f "duration" NaN).
  { unfold get in *. destruct Hr as (q1 & H1 & _), Hz as (q2 & H2 & _),
      Hd as (q3 & H3 & _).
    destruct (nums f !! "rms"%string), (nums f !! "zcr"%string),
      (nums f !! "duration"%string); try discriminate. auto. }
  destruct Hrms as (Er & Ez & Ed).
  destruct (accumulated_bounds f)
    as (a & b & c & d & n' & Hacc & _ & _ & _ & _ & _ & Hd5).
  assert (Hd5' : d = 5).
  { apply Hd5.
    - rewrite Er. destruct Hr as (q & -> & _ & Hq). apply Qltb_false. exact Hq.
    - rewrite Ez. destruct Hz as (q & -> & _ & Hq). apply Qltb_false. lra. }
  subst d.
  destruct Hd as (q & Hq & Hq0 & Hq60). rewrite <- Ed in Hq.
  destruct (duration_factor_cases (get f "duration" (Fin 10)))
    as [(x & Hx & Hx1 & Hx0 & _) | [Hd' _]]; [|congruence].
  assert (Hx0' : 0 <= x).
  { apply Hx0. rewrite Hq. apply Qltb_false. exact Hq0. }
  assert (Henojo : score Enojo (final_scores f) = Fin (5 * x)).
  { unfold final_scores. now rewrite Hacc, Hx, damp_table5. }
  split.
  - destruct Hcase as [(_ & -> & _) | (x' & m & _ & _ & _ & Hsm & Hnm & _)];
      [discriminate|].
    intros ->. rewrite Henojo in Hsm. injection Hsm as <-. lra.
  - split; [reflexivity|]. split.
    + unfold adjust.
      replace (is_basic "basic_file_analysis") with true by reflexivity.
      cbv beta iota. lia.
    + rewrite Henojo. eexists. split; [reflexivity|]. lra.
Qed.

(** X6.  A synthesized vector is never labelled Enojo: its RMS stays at or
    below 0.15 and its zero-crossing rate below 0.1, so no rule adds to
    Enojo, whose damped base of 5 stays below Neutral's 10.  The scorer
    tags the result with the byte heuristic and its confidence lies in
    [60,85]. *)
Theorem synthesized_vector_is_never_anger (content : list byte) :
  exists (f : features) (r : analysis),
    Production.method4 content = Some f /\
    analyze_emotion_robust f = Ok (Some r) /\
    emotion_of r <> Enojo /\
    method_of r = "basic_file_analysis"%string /\
    (60 <= confidence r <= 85)%Z /\
    between 0 5 (score Enojo (scores r)).
Proof. exact (method4_analysis content). Qed.

End SynthesizerFacts.

(** * Further properties of the extractor of [app_production.py] *)

Section LibrosaFacts.

Variable L : librosa.

Lemma normalize_length (y : list pyfloat) :
  y <> [] ->
  exists y', Np.normalize y = Ok y' /\ length y' = length y /\ y' <> [].
Proof.
  intros Hne. unfold Np.normalize, Np.peak.
  destruct y as [|s y]; [contradiction|]. cbn [map Np.max mbind outcome_bind].
  destruct (gt _ (Fin 0)); cbn [mbind outcome_bind]; eexists;
    (split; [reflexivity|]); split; try discriminate; try reflexivity.
  unfold Np.divide. now rewrite length_map.
Qed.

Lemma normalize_empty : Np.normalize [] = Raise ValueError.
Proof. reflexivity. Qed.

Lemma dom_set (k : string) (v : pyfloat) (f : features) :
  dom (nums (set k v f)) = {[k]} ∪ dom (nums f).
Proof. unfold set. cbn [nums]. apply dom_insert_L. Qed.

Lemma dom_guarded_steps (y : list pyfloat) (sr : Z) :
  dom (nums (Production.guarded_steps L y sr))
  = list_to_set ["mfcc_mean"; "mfcc_std"; "spectral_centroid"; "zcr"; "rms";
                 "tempo"; "spectral_rolloff"; "chroma_mean"]%string.
Proof.
  unfold Production.guarded_steps, Production.additional_step,
    Production.tempo_step, Production.rms_step, Production.zcr_step,
    Production.centroid_step, Production.mfcc_step.
  destruct (mfcc L y sr) as [[[? ?] ?]|], (spectral_centroid L y sr) as [[? ?]|],
    (zero_crossing_rate L y) as [[? ?]|], (rms L y) as [[? ?]|],
    (beat_track L y sr) as [[? ?]|], (spectral_rolloff L y sr),
    (chroma_stft L y sr) as [[? ?]|];
    rewrite !dom_set; cbn [Py.empty nums list_to_set]; rewrite dom_empty_L;
    set_solver.
Qed.

(** The steps of [extract_librosa_features] once the buffer is known to be
    non-empty and the rate not zero. *)
Lemma librosa_features_run (y : list pyfloat) (sr : Z) :
  y <> [] -> sr <> 0%Z ->
  exists y' hi,
    Np.normalize y = Ok y' /\ length y' = length y /\ Np.max y' = Ok hi /\
    Production.extract_librosa_features L y sr
    = Some (set "audio_max" hi
             (set "audio_std" (np_std L y')
               (set "duration"
                    (Fin (inject_Z (Z.of_nat (length y')) / inject_Z sr))
                    (Production.guarded_steps L y' sr)))).
Proof.
  intros Hy Hsr.
  destruct (normalize_length y Hy) as (y' & Hn & Hl & Hy').
  assert (Hmax : exists hi, Np.max y' = Ok hi).
  { destruct y'; [contradiction|]. eexists. reflexivity. }
  destruct Hmax as [hi Hmax]. exists y', hi.
  split; [exact Hn|]. split; [exact Hl|]. split; [exact Hmax|].
  unfold Production.extract_librosa_features, Production.librosa_features_body,
    Production.truediv.
  rewrite Hn. cbn [mbind outcome_bind].
  destruct (Z.eqb sr 0) eqn:E; [apply Z.eqb_eq in E; contradiction|].
  cbn [mbind outcome_bind]. now rewrite Hmax.
Qed.

Lemma librosa_features_outcome (y : list pyfloat) (sr : Z) :
  (Production.extract_librosa_features L y sr = None <-> y = [] \/ sr = 0%Z) /\
  (forall f, Production.extract_librosa_features L y sr = Some f ->
     dom (nums f) = librosa_keys /\ analysis_method f = None /\ len f = 11%nat).
Proof.
  assert (Hnone : y = [] \/ sr = 0%Z ->
            Production.extract_librosa_features L y sr = None).
  { intros [-> | ->]; [reflexivity|].
    unfold Production.extract_librosa_features, Production.librosa_features_body.
    destruct (Np.normalize y); reflexivity. }
  assert (Hsome : y <> [] -> sr <> 0%Z ->
            exists f, Production.extract_librosa_features L y sr = Some f /\
                      dom (nums f) = librosa_keys /\ analysis_method f = None).
  { intros Hy Hsr.
    destruct (librosa_features_run y sr Hy Hsr) as (y' & hi & _ & _ & _ & ->).
    eexists. split; [reflexivity|]. split.
    - rewrite !dom_set, dom_guarded_steps. unfold librosa_keys. set_solver.
    - cbn [set analysis_method].
      unfold Production.guarded_steps, Production.additional_step,
        Production.tempo_step, Production.rms_step, Production.zcr_step,
        Production.centroid_step, Production.mfcc_step.
      destruct (mfcc L y' sr) as [[[? ?] ?]|],
        (spectral_centroid L y' sr) as [[? ?]|],
        (zero_crossing_rate L y') as [[? ?]|], (rms L y') as [[? ?]|],
        (beat_track L y' sr) as [[? ?]|], (spectral_rolloff L y' sr),
        (chroma_stft L y' sr) as [[? ?]|]; reflexivity. }
  split.
  - split; [|exact Hnone].
    intros Hn. destruct y as [|s y]; [now left|].
    destruct (Z.eq_dec sr 0%Z) as [|Hsr]; [now right|].
    destruct (Hsome ltac:(discriminate) Hsr) as (f & Hf & _). congruence.
  - intros f Hf.
    destruct y as [|s y]; [rewrite (Hnone (or_introl eq_refl)) in Hf; discriminate|].
    destruct (Z.eq_dec sr 0%Z) as [->|Hsr];
      [rewrite (Hnone (or_intror eq_refl)) in Hf; discriminate|].
    destruct (Hsome ltac:(discriminate) Hsr) as (f' & Hf' & Hdom & Hm).
    rewrite Hf in Hf'. injection Hf' as <-.
    split; [exact Hdom|]. split; [exact Hm|].
    unfold len. rewrite Hm, <- (size_dom (D := gset string)), Hdom. reflexivity.
Qed.

(** X7.  [extract_librosa_features] fails exactly on an empty buffer or a
    sample rate of zero.  Otherwise it returns a vector with exactly the
    eleven keys of the feature set and no provenance tag, whichever of
    the feature routines raise. *)
Theorem librosa_vector_is_complete (y : list pyfloat) (sr : Z) :
  (Production.extract_librosa_features L y sr = None <-> y = [] \/ sr = 0%Z) /\
  (forall f, Production.extract_librosa_features L y sr = Some f ->
     dom (nums f) = librosa_keys /\ analysis_method f = None /\ len f = 11%nat).
Proof. exact (librosa_features_outcome y sr). Qed.

End LibrosaFacts.

Lemma librosa_vector_is_complete_witness :
  exists f,
    Production.extract_librosa_features Samples.chroma_fails Samples.clip 22050
      = Some f /\
    dom (nums f) = librosa_keys /\ analysis_method f = None /\ len f = 11%nat.
Proof.
  eexists. split; [reflexivity|].
  apply (librosa_vector_is_complete Samples.chroma_fails Samples.clip 22050).
  reflexivity.
Defined.


Section StoredValues.

Variable L : librosa.

Lemma librosa_features_some (y : list pyfloat) (sr : Z) (f : features) :
  Production.extract_librosa_features L y sr = Some f -> y <> [] /\ sr <> 0%Z.
Proof.
  intros Hf. split.
  - intros ->. discriminate.
  - intros ->. revert Hf.
    unfold Production.extract_librosa_features, Production.librosa_features_body.
    destruct (Np.normalize y); discriminate.
Qed.

Lemma lookup_set (k k' : string) (v : pyfloat) (f : features) :
  nums (set k v f) !! k' = if String.eqb k k' then Some v else nums f !! k'.
Proof.
  unfold set. cbn [nums].
  destruct (String.eqb_spec k k') as [-> | Hne]; now simplify_map_eq.
Qed.

Lemma lookup_mfcc_step (y : list pyfloat) (sr : Z) (f : features) (k : string) :
  nums (Production.mfcc_step L y sr f) !! k
  = if String.eqb "mfcc_std" k
    then Some (or_default (mfcc L y sr) (fun r => snd (fst r)) 1)
    else if String.eqb "mfcc_mean" k
         then Some (or_default (mfcc L y sr) (fun r => fst (fst r)) 0)
         else nums f !! k.
Proof.
  unfold Production.mfcc_step, or_default.
  destruct (mfcc L y sr) as [[[? ?] ?]|]; now rewrite !lookup_set.
Qed.

Lemma lookup_centroid_step (y : list pyfloat) (sr : Z) (f : features) (k : string) :
  nums (Production.centroid_step L y sr f) !! k
  = if String.eqb "spectral_centroid" k
    then Some (or_default (spectral_centroid L y sr) fst 1500)
    else nums f !! k.
Proof.
  unfold Production.centroid_step, or_default.
  destruct (spectral_centroid L y sr) as [[? ?]|]; now rewrite !lookup_set.
Qed.

Lemma lookup_zcr_step (y : list pyfloat) (f : features) (k : string) :
  nums (Production.zcr_step L y f) !! k
  = if String.eqb "zcr" k
    then Some (or_default (zero_crossing_rate L y) fst 0.05)
    else nums f !! k.
Proof.
  unfold Production.zcr_step, or_default.
  destruct (zero_crossing_rate L y) as [[? ?]|]; now rewrite !lookup_set.
Qed.

Lemma lookup_rms_step (y : list pyfloat) (f : features) (k : string) :
  nums (Production.rms_step L y f) !! k
  = if String.eqb "rms" k
    then Some (or_default (rms L y) fst 0.1)
    else nums f !! k.
Proof.
  unfold Production.rms_step, or_default.
  destruct (rms L y) as [[? ?]|]; now rewrite !lookup_set.
Qed.

Lemma lookup_tempo_step (y : list pyfloat) (sr : Z) (f : features) (k : string) :
  nums (Production.tempo_step L y sr f) !! k
  = if String.eqb "tempo" k
    then Some (or_default (beat_track L y sr)
                          (fun r => Production.guard_tempo (fst r)) 120)
    else nums f !! k.
Proof.
  unfold Production.tempo_step, or_default.
  destruct (beat_track L y sr) as [[? ?]|]; now rewrite !lookup_set.
Qed.

Lemma lookup_additional_step (y : list pyfloat) (sr : Z) (f : features)
    (k : string) :
  nums (Production.additional_step L y sr f) !! k
  = if String.eqb "chroma_mean" k
    then Some match spectral_rolloff L y sr, chroma_stft L y sr with
              | Ok _, Ok (c, _) => c
              | _, _ => Fin 0.5
              end
    else if String.eqb "spectral_rolloff" k
         then Some match spectral_rolloff L y sr, chroma_stft L y sr with
                   | Ok r, Ok _ => r
                   | _, _ => Fin 2000
                   end
         else nums f !! k.
Proof.
  unfold Production.additional_step.
  destruct (spectral_rolloff L y sr), (chroma_stft L y sr) as [[? ?]|];
    rewrite !lookup_set;
    destruct (String.eqb "chroma_mean" k), (String.eqb "spectral_rolloff" k);
    reflexivity.
Qed.

(** X8.  In a vector returned by [extract_librosa_features] the MFCC
    statistics, the centroid, the zero-crossing rate, the RMS and the tempo
    each hold what their own routine computed on the normalised buffer, or
    their own default (0 and 1, 1500, 0.05, 0.1, 120) when that routine
    raised, whatever the other routines did; the rolloff and the chroma
    hold the computed pair when both routines succeed and the defaults
    2000 and 0.5 when either raises; the duration is the sample count over
    the sample rate. *)
Theorem stored_values_follow_their_routine (y : list pyfloat) (sr : Z)
    (f : features) :
  Production.extract_librosa_features L y sr = Some f ->
  exists y',
    Np.normalize y = Ok y' /\
    nums f !! "mfcc_mean"%string
      = Some (or_default (mfcc L y' sr) (fun r => fst (fst r)) 0) /\
    nums f !! "mfcc_std"%string
      = Some (or_default (mfcc L y' sr) (fun r => snd (fst r)) 1) /\
    nums f !! "spectral_centroid"%string
      = Some (or_default (spectral_centroid L y' sr) fst 1500) /\
    nums f !! "zcr"%string
      = Some (or_default (zero_crossing_rate L y') fst 0.05) /\
    nums f !! "rms"%string = Some (or_default (rms L y') fst 0.1) /\
    nums f !! "tempo"%string
      = Some (or_default (beat_track L y' sr)
                         (fun r => Production.guard_tempo (fst r)) 120) /\
    nums f !! "duration"%string
      = Some (Fin (inject_Z (Z.of_nat (length y)) / inject_Z sr)) /\
    (forall r c s, spectral_rolloff L y' sr = Ok r ->
                   chroma_stft L y' sr = Ok (c, s) ->
       nums f !! "spectral_rolloff"%string = Some r /\
       nums f !! "chroma_mean"%string = Some c) /\
    (raised (spectral_rolloff L y' sr) || raised (chroma_stft L y' sr) = true ->
       nums f !! "spectral_rolloff"%string = Some (Fin 2000) /\
       nums f !! "chroma_mean"%string = Some (Fin 0.5)).
Proof.
  intros Hf. destruct (librosa_features_some y sr f Hf) as [Hy Hsr].
  destruct (librosa_features_run L y sr Hy Hsr) as (y' & hi & Hn & Hl & _ & Hrun).
  rewrite Hrun in Hf. injection Hf as <-.
  exists y'. split; [exact Hn|]. rewrite Hl.
  unfold Production.guarded_steps.
  repeat (rewrite lookup_set || rewrite lookup_additional_step
          || rewrite lookup_tempo_step || rewrite lookup_rms_step
          || rewrite lookup_zcr_step || rewrite lookup_centroid_step
          || rewrite lookup_mfcc_step).
  repeat match goal with
         | |- context [String.eqb ?a ?b] =>
             let v := eval vm_compute in (String.eqb a b) in
             change (String.eqb a b) with v
         end.
  cbv iota.
  repeat split; try reflexivity.
  - rewrite H, H0. reflexivity.
  - rewrite H, H0. reflexivity.
  - destruct (spectral_rolloff L y' sr), (chroma_stft L y' sr) as [[? ?]|];
      try reflexivity; discriminate.
  - destruct (spectral_rolloff L y' sr), (chroma_stft L y' sr) as [[? ?]|];
      try reflexivity; discriminate.
Qed.

End StoredValues.

Lemma stored_values_follow_their_routine_witness :
  exists f,
    Production.extract_librosa_features Samples.nan_tempo Samples.clip 22050
      = Some f /\
    nums f !! "tempo"%string = Some (Fin 120) /\
    nums f !! "spectral_rolloff"%string = Some (Fin 3000).
Proof.
  eexists. split; [reflexivity|].
  destruct (stored_values_follow_their_routine Samples.nan_tempo Samples.clip 22050
              _ eq_refl) as (y' & Hn & _ & _ & _ & _ & _ & Ht & _ & Hr & _).
  injection Hn as <-. split; [exact Ht|].
  exact (proj1 (Hr _ _ _ eq_refl eq_refl)).
Defined.

(** * Further properties of the normalisation *)

Section PeakOne.

Local Opaque Qltb.

Lemma fold_maximum_attained (l : list Q) (a : Q) :
  exists z, fold_left Np.maximum (map Fin l) (Fin a) = Fin z /\
            In z (a :: l) /\ Forall (fun b => b <= z) (a :: l).
Proof.
  revert a. induction l as [|b l IH]; intros a; simpl.
  - exists a. split; [reflexivity|]. split; [now left|].
    constructor; [lra | constructor].
  - unfold Np.maximum at 2. simpl.
    destruct (Qltb a b) eqn:E.
    + apply Qltb_true in E. destruct (IH b) as (z & Hz & Hin & Hall).
      exists z. split; [exact Hz|]. split; [now right|].
      inversion Hall; subst. constructor; [lra | assumption].
    + apply Qltb_false in E. destruct (IH a) as (z & Hz & Hin & Hall).
      exists z. split; [exact Hz|]. split.
      * destruct Hin as [Hin | Hin]; [now left | right; now right].
      * inversion Hall; subst. constructor; [assumption|].
        constructor; [lra | assumption].
Qed.

Lemma peak_attained (l : list Q) :
  l <> [] ->
  exists z, Np.peak (map Fin l) = Ok (Fin z) /\
            In z (map Qabs l) /\ Forall (fun b => b <= z) (map Qabs l).
Proof.
  destruct l as [|a l]; [contradiction|]. intros _.
  unfold Np.peak. cbn [map Np.abs Np.max].
  replace (map Np.abs (map Fin l)) with (map Fin (map Qabs l))
    by (rewrite !map_map; reflexivity).
  destruct (fold_maximum_attained (map Qabs l) (Qabs a)) as (z & -> & Hin & Hall).
  exists z. auto.
Qed.

(** X9.  A finite buffer with a non-zero sample comes out of the
    normalisation with a peak of 1 and every sample in [-1,1]. *)
Theorem normalized_peak_is_one (y : list pyfloat) (p : pyfloat) :
  Forall finite y ->
  Np.peak y = Ok p -> gt p (Fin 0) = true ->
  exists y' u,
    Np.normalize y = Ok y' /\
    Np.peak y' = Ok (Fin u) /\ u == 1 /\
    Forall (between (-1) 1) y'.
Proof.
  intros Hfin Hp Hpos.
  destruct (finite_list y Hfin) as [l ->].
  assert (Hl : l <> []) by (intros ->; discriminate).
  destruct (peak_attained l Hl) as (z & Hz & Hin & Hall).
  rewrite Hz in Hp. injection Hp as <-.
  apply Qltb_true in Hpos.
  assert (Hscaled : Np.divide (map Fin l) (Fin z) = map Fin (map (fun a => a * / z) l)).
  { unfold Np.divide, Np.divide1. rewrite !map_map.
    assert (E : Qeq_bool z 0 = false).
    { destruct (Qeq_bool z 0) eqn:E; [|reflexivity].
      apply Qeq_bool_iff in E. lra. }
    rewrite E. reflexivity. }
  assert (Hnorm : Np.normalize (map Fin l)
                  = Ok (map Fin (map (fun a => a * / z) l))).
  { unfold Np.normalize. rewrite Hz. cbn [mbind outcome_bind].
    replace (gt (Fin z) (Fin 0)) with true by (symmetry; now apply Qltb_true).
    now rewrite Hscaled. }
  assert (Hl' : map (fun a => a * / z) l <> []).
  { destruct l; [contradiction | discriminate]. }
  destruct (peak_attained _ Hl') as (u & Hu & Huin & Huall).
  assert (Habs : forall a, Qabs (a * / z) == Qabs a / z).
  { intros a. rewrite Qabs_Qmult. unfold Qdiv.
    rewrite (Qabs_pos (/ z)); [reflexivity|].
    apply Qlt_le_weak, Qinv_lt_0_compat, Hpos. }
  assert (Hle : forall a, In a l -> Qabs (a * / z) <= 1).
  { intros a Ha. rewrite Habs. apply Qle_shift_div_r; [exact Hpos|].
    rewrite List.Forall_forall in Hall.
    specialize (Hall (Qabs a) (in_map Qabs l a Ha)). lra. }
  exists (map Fin (map (fun a => a * / z) l)), u.
  split; [exact Hnorm|]. split; [exact Hu|]. split.
  - apply Qle_antisym.
    + apply in_map_iff in Huin. destruct Huin as (b & <- & Hb).
      apply in_map_iff in Hb. destruct Hb as (a & <- & Ha). now apply Hle.
    + apply in_map_iff in Hin. destruct Hin as (a & Hza & Ha).
      rewrite List.Forall_forall in Huall.
      specialize (Huall (Qabs (a * / z))).
      assert (H1 : Qabs (a * / z) == 1).
      { rewrite Habs, Hza. unfold Qdiv. apply Qmult_inv_r. lra. }
      rewrite <- H1. apply Huall.
      apply in_map. apply in_map_iff. exists a. split; [reflexivity | exact Ha].
  - apply List.Forall_forall. intros s Hs.
    apply in_map_iff in Hs. destruct Hs as (b & <- & Hb).
    apply in_map_iff in Hb. destruct Hb as (a & <- & Ha).
    exists (a * / z). split; [reflexivity|].
    pose proof (proj1 (Qabs_Qle_condition (a * / z) 1) (Hle a Ha)) as [H1 H2].
    split; [|exact H2]. revert H1. generalize (a * / z). intros q H1. lra.
Qed.

Lemma normalized_peak_is_one_witness :
  exists y' u,
    Np.normalize Samples.clip = Ok y' /\
    Np.peak y' = Ok (Fin u) /\ u == 1 /\
    Forall (between (-1) 1) y'.
Proof.
  apply (normalized_peak_is_one Samples.clip (Fin 0.5)).
  - repeat constructor; eexists; reflexivity.
  - reflexivity.
  - reflexivity.
Defined.

End PeakOne.

(** * The scorer of [app_robust.py] *)

Section SimpleScorerFacts.

Local Opaque Qltb.

Ltac split_rule :=
  repeat match goal with
         | |- context [if ?c then _ else _] => destruct c eqn:?
         end.

Ltac step4 := eexists _, _, _, _; (split; [cbn; reflexivity|]); repeat split; lra.

Lemma simple_tempo_step (x : pyfloat) (a b c d n : Q) :
  exists a' b' c' n',
    SimpleScorer.tempo_rule x (table5 (Fin a) (Fin b) (Fin c) (Fin d) (Fin n))
      = table5 (Fin a') (Fin b') (Fin c') (Fin d) (Fin n') /\
    (a <= a' /\ a' <= a + 15) /\ (b <= b' /\ b' <= b + 15) /\
    (c <= c' /\ c' <= c + 10) /\ (n <= n' /\ n' <= n + 5).
Proof. unfold SimpleScorer.tempo_rule. split_rule; step4. Qed.

Lemma simple_centroid_step (x : pyfloat) (a b c d n : Q) :
  exists a' b' c' n',
    SimpleScorer.centroid_rule x (table5 (Fin a) (Fin b) (Fin c) (Fin d) (Fin n))
      = table5 (Fin a') (Fin b') (Fin c') (Fin d) (Fin n') /\
    (a <= a' /\ a' <= a + 12) /\ (b <= b' /\ b' <= b + 12) /\
    (c <= c' /\ c' <= c + 8) /\ (n <= n' /\ n' <= n + 4).
Proof. unfold SimpleScorer.centroid_rule. split_rule; step4. Qed.

Lemma simple_rms_step (x : pyfloat) (a b c d n : Q) :
  exists a' b' d' n',
    SimpleScorer.rms_rule x (table5 (Fin a) (Fin b) (Fin c) (Fin d) (Fin n))
      = table5 (Fin a') (Fin b') (Fin c) (Fin d') (Fin n') /\
    (a <= a' /\ a' <= a + 10) /\ (b <= b' /\ b' <= b + 12) /\
    (d <= d' /\ d' <= d + 15) /\ (n <= n' /\ n' <= n + 4).
Proof. unfold SimpleScorer.rms_rule. split_rule; step4. Qed.

Lemma simple_zcr_step (x : pyfloat) (a b c d n : Q) :
  exists b' c' d' n',
    SimpleScorer.zcr_rule x (table5 (Fin a) (Fin b) (Fin c) (Fin d) (Fin n))
      = table5 (Fin a) (Fin b') (Fin c') (Fin d') (Fin n') /\
    (b <= b' /\ b' <= b + 8) /\ (c <= c' /\ c' <= c + 15) /\
    (d <= d' /\ d' <= d + 8) /\ (n <= n' /\ n' <= n + 5).
Proof. unfold SimpleScorer.zcr_rule. split_rule; step4. Qed.

Lemma simple_audio_std_step (x : pyfloat) (a b c d n : Q) :
  exists b' c' d' n',
    SimpleScorer.audio_std_rule x (table5 (Fin a) (Fin b) (Fin c) (Fin d) (Fin n))
      = table5 (Fin a) (Fin b') (Fin c') (Fin d') (Fin n') /\
    (b <= b' /\ b' <= b + 8) /\ (c <= c' /\ c' <= c + 8) /\
    (d <= d' /\ d' <= d + 10) /\ (n <= n' /\ n' <= n + 6).
Proof. unfold SimpleScorer.audio_std_rule. split_rule; step4. Qed.

Lemma simple_scores_bounds (f : features) :
  exists a b c d n : Q,
    SimpleScorer.emotion_scores f
      = table5 (Fin a) (Fin b) (Fin c) (Fin d) (Fin n) /\
    (0 <= a /\ a <= 37) /\ (0 <= b /\ b <= 55) /\ (0 <= c /\ c <= 41) /\
    (0 <= d /\ d <= 33) /\ (10 <= n /\ n <= 34).
Proof.
  unfold SimpleScorer.emotion_scores.
  change SimpleScorer.initial_scores
    with (table5 (Fin 0) (Fin 0) (Fin 0) (Fin 0) (Fin 10)).
  destruct (simple_tempo_step (get f "tempo" (Fin 120)) 0 0 0 0 10)
    as (a1 & b1 & c1 & n1 & -> & Ha1 & Hb1 & Hc1 & Hn1).
  destruct (simple_centroid_step (get f "spectral_centroid" (Fin 1500)) a1 b1 c1 0 n1)
    as (a2 & b2 & c2 & n2 & -> & Ha2 & Hb2 & Hc2 & Hn2).
  destruct (simple_rms_step (get f "rms" (Fin 0.1)) a2 b2 c2 0 n2)
    as (a3 & b3 & d3 & n3 & -> & Ha3 & Hb3 & Hd3 & Hn3).
  destruct (simple_zcr_step (get f "zcr" (Fin 0.05)) a3 b3 c2 d3 n3)
    as (b4 & c4 & d4 & n4 & -> & Hb4 & Hc4 & Hd4 & Hn4).
  destruct (simple_audio_std_step (get f "audio_std" (Fin 0.1)) a3 b4 c4 d4 n4)
    as (b5 & c5 & d5 & n5 & -> & Hb5 & Hc5 & Hd5 & Hn5).
  exists a3, b5, c5, d5, n5. split; [reflexivity|]. repeat split; lra.
Qed.

(** What a run of [analyze_emotion_simple_robust] returns. *)
Lemma simple_run (f : features) :
  len f <> 0%nat ->
  exists (e : emotion) (m top1 top2 : Q),
    SimpleScorer.analyze_emotion_simple_robust f =
      Ok (Some (SimpleScorer.SimpleAnalysis e
                  (SimpleScorer.clamp_65_95
                     (if Qltb 0 top2 then trunc (65 + (top1 - top2) * 2)
                      else trunc (65 + m)))
                  (SimpleScorer.emotion_scores f) (len f)
                  (get f "duration" (Fin 10)))) /\
    score e (SimpleScorer.emotion_scores f) = Fin m /\ 10 <= m /\ m == top1 /\
    two_highest (map snd (SimpleScorer.emotion_scores f)) (Fin top1) (Fin top2) /\
    0 <= top2.
Proof.
  intros Hlen.
  destruct (simple_scores_bounds f)
    as (a & b & c & d & n & Hs & Ha & Hb & Hc & Hd & Hn).
  assert (Hfe : Forall finite_entry (SimpleScorer.emotion_scores f)).
  { rewrite Hs. repeat constructor; eexists; reflexivity. }
  destruct (finite_table_top _ Hfe)
    as (e & m & top1 & top2 & rest & Hkey & Hin & Hmax & Hsort & Htop & Hm).
  { rewrite Hs. simpl. lia. }
  assert (Hscore : score e (SimpleScorer.emotion_scores f) = Fin m).
  { rewrite Hs in Hin |- *. now apply in_table5. }
  exists e, m, top1, top2. split.
  { unfold SimpleScorer.analyze_emotion_simple_robust.
    destruct (Nat.eqb (len f) 0) eqn:E; [apply Nat.eqb_eq in E; contradiction|].
    rewrite Hkey. cbn [mbind outcome_bind]. rewrite Hsort, Hscore.
    cbn [SimpleScorer.confidence_of gt lt add sub opp mul].
    destruct (Qltb 0 top2); reflexivity. }
  split; [exact Hscore|]. split.
  { rewrite List.Forall_forall in Hmax.
    assert (Hnin : In (Neutral, Fin n) (SimpleScorer.emotion_scores f)).
    { rewrite Hs. unfold table5. simpl. tauto. }
    apply Hmax in Hnin. apply not_below_fin in Hnin. lra. }
  split; [exact Hm|]. split; [exact Htop|].
  destruct Htop as (rest' & Hperm & _ & _).
  assert (Hin2 : In (Fin top2) (map snd (SimpleScorer.emotion_scores f))).
  { apply (Permutation_in _ Hperm). right. now left. }
  rewrite Hs in Hin2. unfold table5 in Hin2. simpl in Hin2.
  destruct Hin2 as [H|[H|[H|[H|[H|[]]]]]]; injection H as <-; lra.
Qed.

(** X10.  On every non-empty dictionary [analyze_emotion_simple_robust]
    returns a result: the scores lie in fixed ranges (Alegria [0,37], Tristeza [0,55], Ansiedad [0,41], Enojo
    [0,33], Neutral [10,34]), the score of the label is at least 10, and
    the confidence lies in [65,95]: it is the clamp of
    [65 + 2 * (top1 - top2)] for the two highest scores, and of
    [65 + top1] when the second is zero. *)
Theorem simple_scorer_confidence (f : features) :
  len f <> 0%nat ->
  exists (r : SimpleScorer.simple_analysis) (top1 top2 : Q),
    SimpleScorer.analyze_emotion_simple_robust f = Ok (Some r) /\
    between 0 37 (score Alegria (SimpleScorer.s_scores r)) /\
    between 0 55 (score Tristeza (SimpleScorer.s_scores r)) /\
    between 0 41 (score Ansiedad (SimpleScorer.s_scores r)) /\
    between 0 33 (score Enojo (SimpleScorer.s_scores r)) /\
    between 10 34 (score Neutral (SimpleScorer.s_scores r)) /\
    between 10 55 (score (SimpleScorer.s_emotion r) (SimpleScorer.s_scores r)) /\
    (65 <= SimpleScorer.s_confidence r <= 95)%Z /\
    two_highest (map snd (SimpleScorer.s_scores r)) (Fin top1) (Fin top2) /\
    (0 < top2 ->
     SimpleScorer.s_confidence r
     = SimpleScorer.clamp_65_95 (trunc (65 + 2 * (top1 - top2)))) /\
    (top2 == 0 ->
     SimpleScorer.s_confidence r = SimpleScorer.clamp_65_95 (trunc (65 + top1))).
Proof.
  intros Hlen.
  destruct (simple_run f Hlen)
    as (e & m & top1 & top2 & Hrun & Hscore & Hm10 & Hm & Htop & Ht2).
  destruct (simple_scores_bounds f)
    as (a & b & c & d & n & Hs & Ha & Hb & Hc & Hd & Hn).
  eexists _, top1, top2. split; [exact Hrun|].
  cbn [SimpleScorer.s_scores SimpleScorer.s_emotion SimpleScorer.s_confidence].
  assert (H12 : top2 <= top1).
  { destruct Htop as (rest & _ & H & _). now apply not_below_fin in H. }
  rewrite Hs. unfold between. cbn [score table5 emotion_eqb].
  repeat (split; [eexists; split; [reflexivity | lra]|]).
  split.
  { rewrite Hs in Hscore. exists m. split.
    - destruct e; cbn in Hscore |- *; exact Hscore.
    - split; [exact Hm10|].
      destruct e; cbn in Hscore; injection Hscore as <-; lra. }
  split; [unfold SimpleScorer.clamp_65_95; lia|].
  split; [rewrite <- Hs; exact Htop|]. split.
  - intros H. apply Qltb_true in H. rewrite H. f_equal. apply trunc_comp; lra.
  - intros H. assert (E : Qltb 0 top2 = false) by (apply Qltb_false; lra).
    rewrite E. f_equal. apply trunc_comp; lra.
Qed.

Lemma simple_scorer_confidence_witness :
  exists (r : SimpleScorer.simple_analysis),
    SimpleScorer.analyze_emotion_simple_robust Samples.scenario_a = Ok (Some r) /\
    (65 <= SimpleScorer.s_confidence r <= 95)%Z.
Proof.
  destruct (simple_scorer_confidence Samples.scenario_a)
    as (r & t1 & t2 & Hr & _ & _ & _ & _ & _ & _ & Hc & _).
  - vm_compute. discriminate.
  - exists r. split; [exact Hr | exact Hc].
Defined.

(** X11.  When no rule of [analyze_emotion_simple_robust] fires (tempo in
    [100,110], centroid in [1400,1800], RMS in [0.1,0.15], zero-crossing
    rate in [0.03,0.07], sample deviation in [0.05,0.15]) only Neutral
    has a score, the second highest score is zero, and the fallback gives
    Neutral with a confidence of 75. *)
Theorem simple_scorer_quiet_bands (f : features) :
  len f <> 0%nat ->
  between 100 110 (get f "tempo" (Fin 120)) ->
  between 1400 1800 (get f "spectral_centroid" (Fin 1500)) ->
  between 0.1 0.15 (get f "rms" (Fin 0.1)) ->
  between 0.03 0.07 (get f "zcr" (Fin 0.05)) ->
  between 0.05 0.15 (get f "audio_std" (Fin 0.1)) ->
  exists r : SimpleScorer.simple_analysis,
    SimpleScorer.analyze_emotion_simple_robust f = Ok (Some r) /\
    SimpleScorer.s_emotion r = Neutral /\
    SimpleScorer.s_confidence r = 75%Z /\
    SimpleScorer.s_scores r = SimpleScorer.initial_scores.
Proof.
  intros Hlen (t & Ht & Ht1 & Ht2) (c & Hc & Hc1 & Hc2) (r & Hr & Hr1 & Hr2)
    (z & Hz & Hz1 & Hz2) (s & Hs & Hs1 & Hs2).
  assert (Hscores : SimpleScorer.emotion_scores f = SimpleScorer.initial_scores).
  { unfold SimpleScorer.emotion_scores. rewrite Ht, Hc, Hr, Hz, Hs.
    unfold SimpleScorer.tempo_rule, SimpleScorer.centroid_rule,
      SimpleScorer.rms_rule, SimpleScorer.zcr_rule, SimpleScorer.audio_std_rule,
      gt, lt.
    repeat match goal with
           | |- context [Qltb ?u ?v] =>
               replace (Qltb u v) with false by (symmetry; apply Qltb_false; lra)
           end.
    reflexivity. }
  unfold SimpleScorer.analyze_emotion_simple_robust.
  destruct (Nat.eqb (len f) 0) eqn:E; [apply Nat.eqb_eq in E; contradiction|].
  rewrite Hscores. eexists. split; [reflexivity|].
  repeat split.
Qed.

Lemma simple_scorer_quiet_bands_witness :
  exists r : SimpleScorer.simple_analysis,
    SimpleScorer.analyze_emotion_simple_robust
      (Samples.vector 105 1500 0.12 0.05 4 None) = Ok (Some r) /\
    SimpleScorer.s_emotion r = Neutral /\
    SimpleScorer.s_confidence r = 75%Z /\
    SimpleScorer.s_scores r = SimpleScorer.initial_scores.
Proof.
  apply (simple_scorer_quiet_bands (Samples.vector 105 1500 0.12 0.05 4 None)).
  - vm_compute. discriminate.
  - eexists. split; [reflexivity|]. split; vm_compute; discriminate.
  - eexists. split; [reflexivity|]. split; vm_compute; discriminate.
  - eexists. split; [reflexivity|]. split; vm_compute; discriminate.
  - eexists. split; [reflexivity|]. split; vm_compute; discriminate.
  - eexists. split; [reflexivity|]. split; vm_compute; discriminate.
Defined.

End SimpleScorerFacts.

(** * The extractor of [app_robust.py] and the two request handlers *)

Section RobustExtractorFacts.

Variable W : world.

Lemma dom_robust_step_keys (y : list pyfloat) (sr : Z) (f : features) :
  dom (nums (Robust.mfcc_step W y sr f))
  = {["mfcc_var"%string]} ∪ ({["mfcc_std"%string]} ∪ ({["mfcc_mean"%string]} ∪ dom (nums f))) /\
  dom (nums (Robust.centroid_step W y sr f))
  = {["spectral_centroid_std"%string]} ∪ ({["spectral_centroid"%string]} ∪ dom (nums f)) /\
  dom (nums (Robust.zcr_step W y f))
  = {["zcr_std"%string]} ∪ ({["zcr"%string]} ∪ dom (nums f)) /\
  dom (nums (Robust.rms_step W y f))
  = {["rms_std"%string]} ∪ ({["rms"%string]} ∪ dom (nums f)) /\
  dom (nums (Robust.tempo_step W y sr f))
  = {["beat_count"%string]} ∪ ({["tempo"%string]} ∪ dom (nums f)) /\
  dom (nums (Robust.spectral_step W y sr f))
  = {["spectral_bandwidth"%string]} ∪ ({["spectral_rolloff"%string]} ∪ dom (nums f)) /\
  dom (nums (Robust.chroma_step W y sr f))
  = {["chroma_std"%string]} ∪ ({["chroma_mean"%string]} ∪ dom (nums f)).
Proof.
  unfold Robust.chroma_step, Robust.spectral_step, Robust.tempo_step,
    Robust.rms_step, Robust.zcr_step, Robust.centroid_step, Robust.mfcc_step.
  repeat split.
  - destruct (mfcc (lib W) y sr) as [[[? ?] ?]|]; now rewrite !dom_set.
  - destruct (spectral_centroid (lib W) y sr) as [[? ?]|]; now rewrite !dom_set.
  - destruct (zero_crossing_rate (lib W) y) as [[? ?]|]; now rewrite !dom_set.
  - destruct (rms (lib W) y) as [[? ?]|]; now rewrite !dom_set.
  - destruct (beat_track (lib W) y sr) as [[? ?]|]; now rewrite !dom_set.
  - destruct (spectral_rolloff (lib W) y sr), (spectral_bandwidth (lib W) y sr);
      rewrite !dom_set; try reflexivity;
      now rewrite (assoc_L (∪) {["spectral_rolloff"%string]}), union_idemp_L.
  - destruct (chroma_stft (lib W) y sr) as [[? ?]|]; now rewrite !dom_set.
Qed.

Lemma dom_robust_steps (y : list pyfloat) (sr : Z) :
  dom (nums (Robust.guarded_steps W y sr))
  = list_to_set ["mfcc_mean"; "mfcc_std"; "mfcc_var"; "spectral_centroid";
                 "spectral_centroid_std"; "zcr"; "zcr_std"; "rms"; "rms_std";
                 "tempo"; "beat_count"; "spectral_rolloff"; "spectral_bandwidth";
                 "chroma_mean"; "chroma_std"]%string.
Proof.
  unfold Robust.guarded_steps.
  rewrite (proj2 (proj2 (proj2 (proj2 (proj2 (proj2
             (dom_robust_step_keys y sr _))))))).
  rewrite (proj1 (proj2 (proj2 (proj2 (proj2 (proj2
             (dom_robust_step_keys y sr _))))))).
  rewrite (proj1 (proj2 (proj2 (proj2 (proj2 (dom_robust_step_keys y sr _)))))).
  rewrite (proj1 (proj2 (proj2 (proj2 (dom_robust_step_keys y sr _))))).
  rewrite (proj1 (proj2 (proj2 (dom_robust_step_keys y sr _)))).
  rewrite (proj1 (proj2 (dom_robust_step_keys y sr _))).
  rewrite (proj1 (dom_robust_step_keys y sr _)).
  cbn [Py.empty nums]. rewrite dom_empty_L.
  vm_cast_no_check (eq_refl (list_to_set (C := gset string)
    ["mfcc_mean"; "mfcc_std"; "mfcc_var"; "spectral_centroid";
     "spectral_centroid_std"; "zcr"; "zcr_std"; "rms"; "rms_std";
     "tempo"; "beat_count"; "spectral_rolloff"; "spectral_bandwidth";
     "chroma_mean"; "chroma_std"]%string)).
Qed.

Lemma robust_steps_untagged (y : list pyfloat) (sr : Z) :
  analysis_method (Robust.guarded_steps W y sr) = None.
Proof.
  unfold Robust.guarded_steps, Robust.chroma_step, Robust.spectral_step,
    Robust.tempo_step, Robust.rms_step, Robust.zcr_step,
    Robust.centroid_step, Robust.mfcc_step.
  destruct (mfcc (lib W) y sr) as [[[? ?] ?]|],
    (spectral_centroid (lib W) y sr) as [[? ?]|],
    (zero_crossing_rate (lib W) y) as [[? ?]|], (rms (lib W) y) as [[? ?]|],
    (beat_track (lib W) y sr) as [[? ?]|], (spectral_rolloff (lib W) y sr),
    (spectral_bandwidth (lib W) y sr), (chroma_stft (lib W) y sr) as [[? ?]|];
    reflexivity.
Qed.

Lemma robust_body_outcome (y : list pyfloat) (sr : Z) :
  (y = [] -> Robust.features_body W y sr = Ok None) /\
  (y <> [] -> sr = 0%Z -> raised (Robust.features_body W y sr) = true) /\
  (y <> [] -> sr <> 0%Z ->
   exists f, Robust.features_body W y sr = Ok (Some f) /\
             dom (nums f) = robust_keys /\ analysis_method f = None).
Proof.
  split; [intros ->; reflexivity|]. split.
  - intros Hy ->. unfold Robust.features_body.
    destruct y as [|s y]; [contradiction|]. cbn [length Nat.eqb].
    destruct (Np.normalize (s :: y)); reflexivity.
  - intros Hy Hsr. unfold Robust.features_body, Production.truediv.
    destruct (normalize_length y Hy) as (y' & Hn & Hl & Hy').
    destruct y as [|s y]; [contradiction|]. cbn [length Nat.eqb].
    rewrite Hn. cbn [mbind outcome_bind].
    destruct (Z.eqb sr 0) eqn:E; [apply Z.eqb_eq in E; contradiction|].
    cbn [mbind outcome_bind].
    destruct y' as [|s' y']; [contradiction|].
    cbn [Np.max Np.min mbind outcome_bind].
    eexists. split; [reflexivity|]. split.
    + rewrite !dom_set, dom_robust_steps. vm_cast_no_check (eq_refl robust_keys).
    + cbn [set analysis_method]. apply robust_steps_untagged.
Qed.

(** With no decoder left, the robust extractor has nothing to fall back on. *)
Lemma robust_decode_raises (content : list byte) :
  (forall c sr, raised (load (lib W) c sr) = true) ->
  raised (Robust.decode W content) = true.
Proof.
  intros Hload.
  unfold Robust.decode, Robust.decode2, Robust.decode3, Robust.convert_audio_to_wav.
  pose proof (Hload content (Some 22050%Z)) as H1.
  pose proof (Hload content None) as H3.
  destruct (load (lib W) content (Some 22050%Z)); [discriminate|].
  destruct (load (lib W) content None); [discriminate|].
  cbn [try_except].
  destruct (ffmpeg W content) as [wav|]; [|reflexivity].
  pose proof (Hload wav (Some 22050%Z)) as H2.
  destruct (load (lib W) wav (Some 22050%Z)); [discriminate | reflexivity].
Qed.

Lemma robust_vector_is_complete_core (content : list byte) :
  (Robust.extract_audio_features_robust W content = None <->
   raised (Robust.decode W content) = true \/
   exists y sr, Robust.decode W content = Ok (y, sr) /\ (y = [] \/ sr = 0%Z)) /\
  ((forall c sr, raised (load (lib W) c sr) = true) ->
   Robust.extract_audio_features_robust W content = None) /\
  (forall f, Robust.extract_audio_features_robust W content = Some f ->
     dom (nums f) = robust_keys /\ analysis_method f = None /\ len f = 22%nat).
Proof.
  unfold Robust.extract_audio_features_robust.
  split; [|split].
  - destruct (Robust.decode W content) as [[y sr]|e]; [|split; auto].
    destruct (robust_body_outcome y sr) as (H1 & H2 & H3).
    split.
    + intros Hn. right. exists y, sr. split; [reflexivity|].
      destruct y as [|s y]; [now left|].
      destruct (Z.eq_dec sr 0%Z) as [|Hsr]; [now right|].
      destruct (H3 ltac:(discriminate) Hsr) as (f & Hf & _).
      rewrite Hf in Hn. discriminate.
    + intros [Hr | (y' & sr' & [= <- <-] & Hc)]; [discriminate|].
      destruct y as [|s y]; [now rewrite H1|].
      destruct Hc as [Hc | ->]; [discriminate|].
      specialize (H2 ltac:(discriminate) eq_refl).
      destruct (Robust.features_body W (s :: y) 0); [discriminate | reflexivity].
  - intros Hload. pose proof (robust_decode_raises content Hload) as Hr.
    destruct (Robust.decode W content) as [[y sr]|e]; [discriminate | reflexivity].
  - intros f. destruct (Robust.decode W content) as [[y sr]|e]; [|discriminate].
    destruct (robust_body_outcome y sr) as (H1 & H2 & H3).
    destruct y as [|s y]; [rewrite H1 by reflexivity; discriminate|].
    destruct (Z.eq_dec sr 0%Z) as [->|Hsr].
    { specialize (H2 ltac:(discriminate) eq_refl).
      destruct (Robust.features_body W (s :: y) 0); discriminate. }
    destruct (H3 ltac:(discriminate) Hsr) as (f' & -> & Hdom & Hm).
    intros [= <-]. split; [exact Hdom|]. split; [exact Hm|].
    unfold len. rewrite Hm, <- (size_dom (D := gset string)), Hdom. reflexivity.
Qed.

(** X12.  [extract_audio_features_robust] returns [None] exactly when the
    decoding attempts all fail, or the decoded buffer is empty, or the
    sample rate is zero; it has no byte-heuristic fallback, so it returns
    [None] whenever every [librosa.load] raises.  Every vector it returns
    has exactly its twenty-two keys and no provenance tag, whichever
    feature routines raise. *)
Theorem robust_vector_is_complete (content : list byte) :
  (Robust.extract_audio_features_robust W content = None <->
   raised (Robust.decode W content) = true \/
   exists y sr, Robust.decode W content = Ok (y, sr) /\ (y = [] \/ sr = 0%Z)) /\
  ((forall c sr, raised (load (lib W) c sr) = true) ->
   Robust.extract_audio_features_robust W content = None) /\
  (forall f, Robust.extract_audio_features_robust W content = Some f ->
     dom (nums f) = robust_keys /\ analysis_method f = None /\ len f = 22%nat).
Proof. exact (robust_vector_is_complete_core content). Qed.

End RobustExtractorFacts.

Lemma robust_vector_is_complete_witness :
  Robust.extract_audio_features_robust
    (Samples.world_of Samples.undecodable "20250101_120000") Samples.wav_header
  = None.
Proof.
  apply (robust_vector_is_complete
           (Samples.world_of Samples.undecodable "20250101_120000")
           Samples.wav_header).
  reflexivity.
Defined.

Section HandlerFacts.

Variable W : world.

(** Whatever the extractor returns comes from method 4 or from
    [extract_librosa_features] on some decoded buffer. *)
Lemma chain_cases (path : string) (content : list byte) :
  Production.extract_audio_features_multiple_methods W path content
    = Production.method4 content \/
  exists y sr,
    Production.extract_audio_features_multiple_methods W path content
    = Production.extract_librosa_features (lib W) y sr.
Proof.
  unfold Production.extract_audio_features_multiple_methods,
    Production.method2, Production.method3.
  repeat match goal with
         | |- context [match ?c with _ => _ end] =>
             lazymatch c with
             | Production.extract_librosa_features _ _ _ => fail
             | Production.method4 _ => fail
             | _ => destruct c
             end
         end; eauto.
Qed.

(** The vectors of the extractor, and what the scorer makes of them. *)
Lemma extracted_vector_is_scored (path : string) (content : list byte)
    (f : features) :
  Production.extract_audio_features_multiple_methods W path content = Some f ->
  exists r : analysis,
    analyze_emotion_robust f = Ok (Some r) /\
    ((method_of r = "librosa"%string /\ features_analyzed r = 11%nat /\
      (65 <= confidence r <= 95)%Z) \/
     (method_of r = "basic_file_analysis"%string /\
      features_analyzed r = 12%nat /\ (60 <= confidence r <= 85)%Z /\
      emotion_of r <> Enojo /\
      Production.method4 content = Some f)).
Proof.
  intros Hf. destruct (chain_cases path content) as [E | (y & sr & E)];
    rewrite E in Hf.
  - destruct (method4_analysis content)
      as (f' & r & Hf' & Hr & He & Hm & Hc & _).
    destruct (method4_shape content) as (f'' & Hf'' & _ & _ & Hlen & _).
    assert (f'' = f) by congruence. assert (f' = f) by congruence. subst f' f''.
    exists r. split; [exact Hr|]. right.
    split; [exact Hm|]. split.
    + assert (Hlen' : len f <> 0%nat) by (rewrite Hlen; discriminate).
      rewrite (analyze_unfold f Hlen') in Hr.
      destruct (max_key _); cbn [mbind outcome_bind] in Hr; [|discriminate].
      destruct (confidence_base _ _); cbn [mbind outcome_bind] in Hr;
        [|discriminate].
      injection Hr as <-. exact Hlen.
    + auto.
  - destruct (librosa_features_outcome (lib W) y sr) as [_ Hshape].
    destruct (Hshape f Hf) as (_ & Hm & Hlen).
    assert (Hlen' : len f <> 0%nat) by (rewrite Hlen; discriminate).
    destruct (analyze_run f Hlen') as (e & base & n & Hrun & _).
    eexists. split; [exact Hrun|]. left.
    cbn [method_of features_analyzed confidence]. rewrite Hm.
    change (default "librosa"%string None) with "librosa"%string.
    split; [reflexivity|]. split; [exact Hlen|].
    unfold adjust. replace (is_basic "librosa") with false by reflexivity.
    lia.
Qed.

Lemma stored_or_not (file : Handler.upload) : stored W file \/ ~ stored W file.
Proof.
  unfold stored.
  destruct (raised (file_save W (saved_path W file) (Handler.content file)));
    [right; discriminate | now left].
Qed.

Lemma removed_or_not (file : Handler.upload) : removed W file \/ ~ removed W file.
Proof.
  unfold removed.
  destruct (raised (os_unlink W (saved_path W file)));
    [right; discriminate | now left].
Qed.

(** What [analyze_audio] answers on a named upload, by what the
    environment did. *)
Lemma production_answer (file : Handler.upload) :
  Handler.filename file <> ""%string ->
  (~ stored W file ->
   Handler.analyze_audio W (Some file) = Handler.Error 500 "Error interno") /\
  (stored W file -> ~ removed W file ->
   Handler.analyze_audio W (Some file) = Handler.Error 500 "Error interno") /\
  (stored W file -> removed W file -> Handler.content file = [] ->
   Handler.analyze_audio W (Some file)
   = Handler.Error 400 "El archivo de audio esta vacio") /\
  (stored W file -> removed W file -> Handler.content file <> [] ->
   Production.extract_audio_features_multiple_methods W (saved_path W file)
     (Handler.content file) = None ->
   Handler.analyze_audio W (Some file)
   = Handler.Error 500 "No se pudieron procesar las caracteristicas del audio con ningun metodo disponible.") /\
  (stored W file -> removed W file -> Handler.content file <> [] ->
   forall f, Production.extract_audio_features_multiple_methods W
               (saved_path W file) (Handler.content file) = Some f ->
   exists a, analyze_emotion_robust f = Ok (Some a) /\
     Handler.analyze_audio W (Some file)
     = Handler.Json {|
         Handler.p_emotion := emotion_of a;
         Handler.p_confidence := confidence a;
         Handler.p_features_analyzed := features_analyzed a;
         Handler.p_audio_duration := audio_duration a;
         Handler.p_analysis_method := method_of a;
         Handler.p_timestamp := now_iso W;
         Handler.p_filename := secure_filename W (Handler.filename file);
         Handler.p_analysis_type := "production_ready" |}).
Proof.
  intros Hname. unfold stored, removed, Handler.analyze_audio. cbv zeta.
  destruct (String.eqb_spec (Handler.filename file) "") as [E | _];
    [contradiction|].
  change (Handler.temp_path W (secure_filename W (Handler.filename file)))
    with (saved_path W file).
  destruct (file_save W (saved_path W file) (Handler.content file)) as [u | e];
    cbn [raised].
  2:{ repeat split; try reflexivity; intros; try discriminate; congruence. }
  destruct (os_unlink W (saved_path W file)) as [u' | e']; cbn [raised].
  2:{ repeat split; try reflexivity; intros; try discriminate; congruence. }
  split; [intros H; now contradiction H|].
  split; [intros _ H; now contradiction H|].
  split; [intros _ _ ->; reflexivity|].
  assert (Hlen : Handler.content file <> [] ->
                 Nat.eqb (length (Handler.content file)) 0 = false).
  { intros Hc. apply Nat.eqb_neq. intros E.
    now apply List.length_zero_iff_nil in E. }
  unfold Handler.analyze_saved.
  change (Handler.temp_path W (secure_filename W (Handler.filename file)))
    with (saved_path W file).
  split.
  - intros _ _ Hc Hnone. now rewrite (Hlen Hc), Hnone.
  - intros _ _ Hc f Hf. rewrite (Hlen Hc), Hf.
    destruct (extracted_vector_is_scored _ _ f Hf) as (a & Ha & _).
    exists a. split; [exact Ha|]. now rewrite Ha.
Qed.

(** X13.  The handler of [app_production.py] answers with status 400
    exactly when the body is within the size limit and the request has
    no file or an empty file name, or an empty file that was saved and
    removed without error.  Its other errors have status 500: either
    the environment raised (a body over the limit, [file.save] or the
    removal of the temporary file), or the extractor returned [None].
    Every result comes from a saved and removed non-empty upload and
    carries the secured file name, the current time and the type
    [production_ready], with a confidence in [65,95] and 11 features
    under the tag [librosa], or a confidence in [60,85], 12 features and
    a label other than Enojo under the tag [basic_file_analysis].  The
    scorer neither returns [None] nor raises on an extracted vector. *)
Theorem production_handler_responses (r : Handler.request) :
  ((exists msg, Handler.analyze_request W r = Handler.Error 400 msg) <->
   (Handler.content_length r <= Handler.MAX_CONTENT_LENGTH)%Z /\
   (Handler.audio r = None \/
    exists file, Handler.audio r = Some file /\
      (Handler.filename file = ""%string \/
       (stored W file /\ removed W file /\ Handler.content file = [])))) /\
  (forall status msg,
     Handler.analyze_request W r = Handler.Error status msg ->
     status = 400%Z \/
     (status = 500%Z /\
      ((Handler.MAX_CONTENT_LENGTH < Handler.content_length r)%Z \/
       exists file, Handler.audio r = Some file /\
         (~ stored W file \/ ~ removed W file \/
          Production.extract_audio_features_multiple_methods W
            (saved_path W file) (Handler.content file) = None)))) /\
  (forall p, Handler.analyze_request W r = Handler.Json p ->
     (Handler.content_length r <= Handler.MAX_CONTENT_LENGTH)%Z /\
     (exists file, Handler.audio r = Some file /\
        Handler.filename file <> ""%string /\ Handler.content file <> [] /\
        stored W file /\ removed W file /\
        Handler.p_filename p = secure_filename W (Handler.filename file)) /\
     Handler.p_analysis_type p = "production_ready"%string /\
     Handler.p_timestamp p = now_iso W /\
     ((Handler.p_analysis_method p = "librosa"%string /\
       Handler.p_features_analyzed p = 11%nat /\
       (65 <= Handler.p_confidence p <= 95)%Z) \/
      (Handler.p_analysis_method p = "basic_file_analysis"%string /\
       Handler.p_features_analyzed p = 12%nat /\
       (60 <= Handler.p_confidence p <= 85)%Z /\
       Handler.p_emotion p <> Enojo))).
Proof.
  unfold Handler.analyze_request, Handler.request_files.
  destruct (Z.ltb_spec Handler.MAX_CONTENT_LENGTH (Handler.content_length r))
    as [Hbig | Hfit].
  { split; [split; [intros [m [=]] | intros [H _]; lia]|].
    split; [|discriminate].
    intros s m [= <- _]. right. split; [reflexivity|]. now left. }
  destruct (Handler.audio r) as [file|] eqn:Haudio.
  2:{ cbn. split; [split; [auto | eauto]|]. split; [|discriminate].
      intros s m [= <- _]. now left. }
  destruct (String.eqb_spec (Handler.filename file) "") as [Hname | Hname].
  { unfold Handler.analyze_audio.
    destruct (String.eqb_spec (Handler.filename file) "") as [_ | H];
      [|contradiction].
    split; [split; [intros _; split; [exact Hfit|]; right; eauto | eauto]|].
    split; [|discriminate].
    intros s m [= <- _]. now left. }
  destruct (production_answer file Hname) as (A1 & A2 & A3 & A4 & A5).
  assert (Hsome : forall P : Handler.upload -> Prop,
            (exists file', Some file = Some file' /\ P file') -> P file).
  { intros P (file' & [= <-] & H). exact H. }
  destruct (stored_or_not file) as [Hs | Hs].
  2:{ rewrite (A1 Hs).
      split; [split; [intros [m [=]]|]|].
      - intros [_ [H | H]]; [discriminate|].
        apply (Hsome (fun x => _ \/ _)) in H.
        destruct H as [H | (H & _)]; contradiction.
      - split; [|discriminate].
        intros s m [= <- _]. right. split; [reflexivity|]. right. eauto. }
  destruct (removed_or_not file) as [Hr | Hr].
  2:{ rewrite (A2 Hs Hr).
      split; [split; [intros [m [=]]|]|].
      - intros [_ [H | H]]; [discriminate|].
        apply (Hsome (fun x => _ \/ _)) in H.
        destruct H as [H | (_ & H & _)]; contradiction.
      - split; [|discriminate].
        intros s m [= <- _]. right. split; [reflexivity|]. right. eauto. }
  destruct (Handler.content file) as [|b bs] eqn:Hc.
  { rewrite (A3 Hs Hr eq_refl).
    split; [split; [intros _; split; [exact Hfit|]; right; eauto 10 | eauto]|].
    split; [|discriminate].
    intros s m [= <- _]. now left. }
  assert (Hne : b :: bs <> []) by discriminate.
  destruct (Production.extract_audio_features_multiple_methods W
              (saved_path W file) (b :: bs)) as [f|] eqn:Hf.
  - destruct (A5 Hs Hr Hne f eq_refl) as (a & Ha & ->).
    destruct (extracted_vector_is_scored _ _ f Hf) as (a' & Ha' & Hcase).
    assert (a' = a) by congruence. subst a'.
    split; [split; [intros [m [=]]|]|].
    + intros [_ [H | H]]; [discriminate|].
      apply (Hsome (fun x => _ \/ _)) in H.
      destruct H as [H | (_ & _ & H)]; [contradiction | congruence].
    + split; [discriminate|].
      intros p [= <-]. cbn.
      split; [exact Hfit|]. split.
      { exists file. split; [reflexivity|]. split; [exact Hname|].
        split; [first [exact Hne | rewrite Hc; exact Hne]|].
        split; [exact Hs|]. split; [exact Hr | reflexivity]. }
      split; [reflexivity|]. split; [reflexivity|].
      destruct Hcase as [(Hm & Hn & Hconf) | (Hm & Hn & Hconf & He & _)];
        [left | right]; auto.
  - rewrite (A4 Hs Hr Hne eq_refl).
    split; [split; [intros [m [=]]|]|].
    + intros [_ [H | H]]; [discriminate|].
      apply (Hsome (fun x => _ \/ _)) in H.
      destruct H as [H | (_ & _ & H)]; [contradiction | congruence].
    + split; [|discriminate].
      intros s m [= <- _]. right. split; [reflexivity|]. right.
      exists file. split; [reflexivity|]. right. right. now rewrite Hc.
Qed.




End HandlerFacts.

Lemma production_handler_responses_witness :
  exists p,
    Handler.analyze_request (Samples.world_of Samples.nan_tempo "20250101_120000")
      (Handler.Request 300
         (Some (Handler.Upload "voz.wav" Samples.wav_header))) = Handler.Json p /\
    Handler.p_analysis_type p = "production_ready"%string /\
    Handler.p_filename p = "voz.wav"%string.
Proof.
  eexists. split; [reflexivity|].
  destruct (production_handler_responses
              (Samples.world_of Samples.nan_tempo "20250101_120000")
              (Handler.Request 300
                 (Some (Handler.Upload "voz.wav" Samples.wav_header))))
    as (_ & _ & H).
  destruct (H _ eq_refl) as (_ & (file & Hfile & _ & _ & _ & _ & Hname) & Ht & _).
  split; [exact Ht|]. injection Hfile as <-. exact Hname.
Defined.



(** * The extension filter *)

Section FilterFacts.

Lemma rsplit_dot_none (s : string) :
  Str.occurs "." s = false -> Filter.rsplit_dot s = None.
Proof.
  induction s as [|c s IH]; [reflexivity|]. cbn [Str.occurs Filter.rsplit_dot].
  intros H. apply orb_false_iff in H. destruct H as [Hc Hs].
  rewrite (IH Hs). rewrite Ascii.eqb_sym in Hc. now rewrite Hc.
Qed.

Lemma rsplit_dot_some (s before after : string) :
  Filter.rsplit_dot s = Some (before, after) ->
  s = (before ++ String "." after)%string /\ Str.occurs "." after = false.
Proof.
  revert before. induction s as [|c s IH]; intros before; [discriminate|].
  cbn [Filter.rsplit_dot].
  destruct (Filter.rsplit_dot s) as [[b a]|] eqn:E.
  - intros [= <- <-]. destruct (IH b eq_refl) as [-> Ha]. now split.
  - destruct (Ascii.eqb_spec c ".") as [-> | Hc]; [|discriminate].
    intros [= <- <-]. split; [reflexivity|].
    destruct (Str.occurs "." s) eqn:Hs; [|reflexivity].
    clear IH. exfalso. revert E Hs. induction s as [|c s IH]; [discriminate|].
    cbn [Filter.rsplit_dot Str.occurs].
    destruct (Filter.rsplit_dot s) as [[b a]|]; [discriminate|].
    destruct (Ascii.eqb_spec c ".") as [-> | Hc]; [discriminate|].
    intros _ H. apply orb_true_iff in H. destruct H as [H | H].
    + apply Ascii.eqb_eq in H. congruence.
    + now apply IH.
Qed.

Lemma rsplit_dot_app (before after : string) :
  Str.occurs "." after = false ->
  Filter.rsplit_dot (before ++ String "." after) = Some (before, after).
Proof.
  intros Ha. induction before as [|c b IH].
  - change (("" ++ String "." after)%string) with (String "." after).
    cbn [Filter.rsplit_dot]. now rewrite (rsplit_dot_none after Ha).
  - change ((String c b ++ String "." after)%string)
      with (String c (b ++ String "." after)).
    cbn [Filter.rsplit_dot]. now rewrite IH.
Qed.

Lemma occurs_app_l (c : ascii) (s t : string) :
  Str.occurs c (s ++ String c t) = true.
Proof.
  induction s as [|c' s IH].
  - change (("" ++ String c t)%string) with (String c t).
    cbn [Str.occurs]. now rewrite Ascii.eqb_refl.
  - change ((String c' s ++ String c t)%string) with (String c' (s ++ String c t)).
    cbn [Str.occurs]. rewrite IH. apply orb_true_r.
Qed.

Lemma lower_ascii_dot (c : ascii) :
  Ascii.eqb "." (Str.lower_ascii c) = Ascii.eqb "." c.
Proof. destruct c as [[] [] [] [] [] [] [] []]; reflexivity. Qed.

Lemma lower_ascii_idem (c : ascii) :
  Str.lower_ascii (Str.lower_ascii c) = Str.lower_ascii c.
Proof. destruct c as [[] [] [] [] [] [] [] []]; reflexivity. Qed.

Lemma lower_idem (s : string) : Str.lower (Str.lower s) = Str.lower s.
Proof.
  induction s as [|c s IH]; [reflexivity|]. cbn [Str.lower].
  now rewrite lower_ascii_idem, IH.
Qed.

Lemma occurs_dot_lower (s : string) :
  Str.occurs "." (Str.lower s) = Str.occurs "." s.
Proof.
  induction s as [|c s IH]; [reflexivity|]. cbn [Str.lower Str.occurs].
  now rewrite lower_ascii_dot, IH.
Qed.

Lemma is_allowed_in (x : string) :
  Filter.is_allowed x = true <-> In x Filter.ALLOWED_EXTENSIONS.
Proof.
  unfold Filter.is_allowed. rewrite existsb_exists. split.
  - intros (y & Hy & E). apply String.eqb_eq in E. now subst.
  - intros H. exists x. split; [exact H | apply String.eqb_refl].
Qed.

(** X16.  [allowed_file] accepts exactly the names that end in a dot and
    a dot-free extension whose lower-case form is one of the seven allowed
    ones: only the text after the last dot counts.  A name without a dot is
    refused, even when it spells an allowed extension. *)
Theorem allowed_file_accepts (name : string) :
  (Filter.allowed_file name = true <->
   exists before extension,
     name = (before ++ "." ++ extension)%string /\
     Str.occurs "." extension = false /\
     In (Str.lower extension) Filter.ALLOWED_EXTENSIONS) /\
  (Str.occurs "." name = false -> Filter.allowed_file name = false).
Proof.
  unfold Filter.allowed_file. split.
  - split.
    + intros H. apply andb_true_iff in H. destruct H as [_ H].
      destruct (Filter.rsplit_dot name) as [[b e]|] eqn:E; [|discriminate].
      destruct (rsplit_dot_some name b e E) as [-> He].
      exists b, e. split; [reflexivity|]. split; [exact He|].
      now apply is_allowed_in.
    + intros (b & e & -> & He & Hin).
      change (("." ++ e)%string) with (String "." e).
      rewrite (rsplit_dot_app b e He), occurs_app_l.
      now apply is_allowed_in.
  - intros ->. reflexivity.
Qed.

(** X17.  The verdict of [allowed_file] on a name with a dot-free
    extension depends on the extension alone, and not on its case: the
    text before the last dot, further dots included, plays no part. *)
Theorem allowed_file_reads_last_extension (before before' extension : string) :
  Str.occurs "." extension = false ->
  Filter.allowed_file (before ++ "." ++ extension)
    = Filter.is_allowed (Str.lower extension) /\
  Filter.allowed_file (before' ++ "." ++ Str.lower extension)
    = Filter.allowed_file (before ++ "." ++ extension).
Proof.
  intros He.
  assert (H : forall b e, Str.occurs "." e = false ->
            Filter.allowed_file (b ++ "." ++ e) = Filter.is_allowed (Str.lower e)).
  { intros b e Hd. unfold Filter.allowed_file.
    change (("." ++ e)%string) with (String "." e).
    now rewrite (rsplit_dot_app b e Hd), occurs_app_l. }
  split; [now apply H|].
  rewrite (H before extension He), H by (now rewrite occurs_dot_lower).
  now rewrite lower_idem.
Qed.

End FilterFacts.

Lemma allowed_file_reads_last_extension_witness :
  Filter.allowed_file "informe.wav.EXE" = false /\
  Filter.allowed_file "toma.2.WebM" = true /\
  Filter.allowed_file "otra.webm" = Filter.allowed_file "toma.2.WebM".
Proof.
  split; [|split].
  - apply (allowed_file_reads_last_extension "informe.wav" "" "EXE"). reflexivity.
  - apply (allowed_file_reads_last_extension "toma.2" "" "WebM"). reflexivity.
  - apply (allowed_file_reads_last_extension "toma.2" "otra" "WebM"). reflexivity.
Defined.
